(** * LAVA dispatcher-master: control plane, worker registry and log ingestion

    A shallow embedding of
    [lava_scheduler_app/management/commands/dispatcher-master.py].

    The master keeps two dictionaries in memory (the worker registry
    [self.dispatchers] and the table of open log files), talks to the
    workers over a ROUTER socket, pulls log frames from a PULL socket and
    reads and updates the job table of the database.  The embedding
    threads those as explicit state; everything the process does to the
    outside world (socket sends, logger calls, file operations, database
    statements) is recorded, in order, in a trace of events. *)

From Stdlib Require Import Ascii String.
From stdpp Require Import gmap strings list pretty.

Open Scope Z_scope.
Open Scope string_scope.
Open Scope list_scope.

(** ** Python built-ins used by the command *)

Module Py.

(** [c in s] for a one-character string [c]. *)
Fixpoint contains (c : ascii) (s : string) : bool :=
  match s with
  | "" => false
  | String a s' => if decide (a = c) then true else contains c s'
  end.

Fixpoint lstrip (s : string) : string :=
  match s with
  | String a s' => if Ascii.is_space a then lstrip s' else s
  | "" => ""
  end.

Definition strip (s : string) : string :=
  String.rev (lstrip (String.rev (lstrip s))).

Fixpoint digits (acc : Z) (s : string) : option Z :=
  match s with
  | "" => Some acc
  | String a s' =>
      match Ascii.is_nat a with
      | Some d => digits (10 * acc + Z.of_nat d) s'
      | None => None
      end
  end.

Definition unsigned (s : string) : option Z :=
  match s with
  | "" => None
  | _ => digits 0 s
  end.

(** [int(s)] on a byte string: surrounding white space is ignored, one
    optional sign, then at least one decimal digit.  [None] stands for
    [ValueError]. *)
Definition int (s : string) : option Z :=
  match strip s with
  | String "-" d => Z.opp <$> unsigned d
  | String "+" d => unsigned d
  | d => unsigned d
  end.

(** [str(n)] for an integer. *)
Definition str (n : Z) : string := pretty n.

(** [s.split(sep)[0]]: the part of [s] before the first [sep]. *)
Fixpoint split_head (sep : ascii) (s : string) : string :=
  match s with
  | "" => ""
  | String a s' => if decide (a = sep) then "" else String a (split_head sep s')
  end.

Definition startswith_slash (s : string) : bool :=
  match s with String "/" _ => true | _ => false end.

Definition endswith_slash (s : string) : bool :=
  startswith_slash (String.rev s).

(** [posixpath.join(a, b)], one step of [os.path.join]. *)
Definition join2 (path b : string) : string :=
  if startswith_slash b then b
  else if decide (path = "") then b
  else if endswith_slash path then path +:+ b
  else path +:+ "/" +:+ b.

(** [os.path.join(a, *p)]. *)
Definition join (a : string) (p : list string) : string :=
  foldl join2 a p.

(** [head[:i]] where [i = p.rfind('/') + 1]: everything up to and
    including the last slash. *)
Fixpoint upto_last_slash (p : string) : string :=
  match p with
  | "" => ""
  | String a p' =>
      if contains "/" p then String a (upto_last_slash p') else ""
  end.

Fixpoint all_slashes (s : string) : bool :=
  match s with
  | "" => true
  | String a s' => if decide (a = "/"%char) then all_slashes s' else false
  end.

Fixpoint lstrip_slashes (s : string) : string :=
  match s with
  | String "/" s' => lstrip_slashes s'
  | _ => s
  end.

Definition rstrip_slashes (s : string) : string :=
  String.rev (lstrip_slashes (String.rev s)).

(** [os.path.dirname(p)]. *)
Definition dirname (p : string) : string :=
  let head := upto_last_slash p in
  if all_slashes head then head else rstrip_slashes head.

(** The one-character string of a line feed. *)
Definition newline : string := String "010" "".

End Py.

(** ** The job table

    The fields of [TestJob] and [Device] that the command reads.  The
    table itself is a list of rows in storage order; [id] is the primary
    key. *)

Module Device.
Record t := mk {
  hostname : string;
  worker_host : option string   (* worker_host.hostname, when set *)
}.
End Device.

Module TestJob.
Inductive Status :=
  SUBMITTED | RUNNING | CANCELING | COMPLETE | INCOMPLETE | CANCELED.

Global Instance Status_eq_dec : EqDecision Status.
Proof. solve_decision. Defined.

Record t := mk {
  id : Z;
  status : Status;
  is_pipeline : bool;
  actual_device : option Device.t;
  dynamic_connection : bool;
  lookup_worker : option string;            (* lookup_worker.hostname *)
  definition : string;
  pipeline_compatibility : Z;
  output_dir : string
}.
End TestJob.

Definition Store := list TestJob.t.

(** [TestJob.objects.get(id=pk)]; [None] is [TestJob.DoesNotExist]. *)
Definition objects_get (pk : Z) (db : Store) : option TestJob.t :=
  List.find (fun j => bool_decide (TestJob.id j = pk)) db.

(** The condition [actual_device__worker_host__hostname=hostname,
    is_pipeline=True, status=TestJob.RUNNING]. *)
Definition running_pipeline_on (hostname : string) (j : TestJob.t) : bool :=
  bool_decide ((TestJob.actual_device j ≫= Device.worker_host) = Some hostname)
  && TestJob.is_pipeline j
  && bool_decide (TestJob.status j = TestJob.RUNNING).

Definition objects_filter (hostname : string) (db : Store) : list TestJob.t :=
  List.filter (running_pipeline_on hostname) db.

(** ** Structured values, as [yaml.load] returns them

    Scalars, lists and dicts.  A float is the 64 bits of its double.  A
    dict is kept as the list of its items, read and updated by key; the
    keys of the records and definitions the command subscripts are
    strings.  The list is a representation: a dict has one item per key
    and no order ([well_formed]), and two values are the same document
    when they are equal as Python compares them, whatever the order of
    the items ([same_document]). *)

#[local] Set Warnings "-register-all".
Inductive yaml :=
| YNull
| YBool (b : bool)
| YInt (n : Z)
| YFloat (bits : N)
| YStr (s : string)
| YSeq (items : list yaml)
| YMap (pairs : list (string * yaml)).

Inductive exn :=
  IndexError | KeyError | TypeError | ValueError | AttributeError | YAMLError.

Fixpoint dict_get (k : string) (d : list (string * yaml)) : option yaml :=
  match d with
  | [] => None
  | (k', v) :: d' => if decide (k' = k) then Some v else dict_get k d'
  end.


(** [obj[k]] for a string [k]: only a mapping can answer, and only for a
    key it holds. *)
Definition subscript (obj : yaml) (k : string) : exn + yaml :=
  match obj with
  | YMap d => match dict_get k d with Some v => inr v | None => inl KeyError end
  | _ => inl TypeError
  end.

(** [obj == s] for a string [s]. *)
Definition eq_str (obj : yaml) (s : string) : bool :=
  match obj with
  | YStr s' => bool_decide (s' = s)
  | _ => false
  end.




(** ** Collaborators outside this file

    [yaml] and [lzma] are libraries; the functions of
    [lava_scheduler_app.dbutils] and [lava_results_app.dbutils] update the
    database (and the job object they are handed).  They are taken as
    they come.  [open_error] and [write_error] are the file system where
    the command has a handler for what it answers: the [IOError], if any,
    that opening [description.yaml] for writing and writing to it raise
    in the END branch. *)

Class Libs := {
  yaml_load : string → option yaml;          (* None: yaml.YAMLError *)
  yaml_dump : yaml → string;
  lzma_decompress : string → option string;  (* None: lzma.error *)
  open_error : string → option string;       (* open(path, 'w'): str(IOError) *)
  write_error : string → string → option string   (* f.write(data), f on path *)
}.

Class DbUtils := {
  start_job : TestJob.t → Store → TestJob.t * Store;
  cancel_job : TestJob.t → Store → TestJob.t * Store;
  fail_job : TestJob.t → string → TestJob.Status → Store → TestJob.t * Store;
  parse_job_description : TestJob.t → Store → Store;
  create_metadata_store : yaml → TestJob.t → string → option string;
  map_scanned_results : yaml → TestJob.t → option string → Store → bool * Store
}.

(** ** Constants *)

Definition PROTOCOL_VERSION : Z := 1.
Definition FD_TIMEOUT : Z := 60.
Definition TIMEOUT : Z := 10.
Definition DB_LIMIT : Z := 10.
Definition DISPATCHER_TIMEOUT : Z := 3 * 10.

(** ** In-memory objects *)

Module SlaveDispatcher.
Record t := mk {
  hostname : string;
  last_msg : Z;
  online : bool
}.

Definition init (now : Z) (hostname : string) (online : bool) : t :=
  {| hostname := hostname;
     last_msg := if online then now else 0;
     online := online |}.

Definition alive (now : Z) (self : t) : t :=
  {| hostname := hostname self;
     last_msg := now;
     online := online self |}.

Definition set_online (b : bool) (self : t) : t :=
  {| hostname := hostname self;
     last_msg := last_msg self;
     online := b |}.
End SlaveDispatcher.

(** A file object is identified by the path it was opened on; opening,
    writing and closing are events of the trace. *)
Module JobHandler.
Record t := mk {
  output_dir : string;
  output : string;
  current_level : string;
  sub_log : string;
  last_usage : Z
}.

Definition set_sub_log (f : string) (self : t) : t :=
  {| output_dir := output_dir self; output := output self;
     current_level := current_level self; sub_log := f;
     last_usage := last_usage self |}.

Definition set_last_usage (now : Z) (self : t) : t :=
  {| output_dir := output_dir self; output := output self;
     current_level := current_level self; sub_log := sub_log self;
     last_usage := now |}.
End JobHandler.

(** ** Events *)

Inductive severity := DEBUG | INFO | WARNING | ERROR.

Inductive dbop :=
| Get (pk : Z)
| Filter (hostname : string)
| FilterCanceling              (* filter(status=CANCELING, is_pipeline=True) *)
| StartJob (pk : Z)
| CancelJob (pk : Z)
| FailJob (pk : Z) (fail_msg : string) (job_status : TestJob.Status)
| ParseJobDescription (pk : Z)
| MapScannedResults (pk : Z).

Inductive event :=
| Send (frames : list string)                       (* controler.send_multipart *)
| Log (lvl : severity) (fmt : string) (args : list string)
| Begin | Commit | Rollback                         (* transaction.atomic() *)
| Db (op : dbop)
| Mkdir (path : string)
| FOpen (mode path : string)
| FWrite (path data : string)
| FClose (path : string).

(** [Command.process_jobs] assigns devices to submitted jobs and sends the
    START messages.  It reads the registry, and works on the database and
    on the control socket; the passes embedded below do not depend on what
    it does there, so it is taken as a function of the registry and the
    table that returns the table and the events it produced. *)
Class Scheduler := {
  process_jobs : gmap string SlaveDispatcher.t → Store → Store * list event
}.

(** ** State of the process

    [jobs] and [current_level] are attributes of the [Command] object;
    [logging_jobs] is the local variable [jobs] of [logging_socket], which
    lives as long as the logging thread does.  [clock] is what [time.time()]
    returns: time passes between two steps, not within one.  A step is one
    call of [controler_socket], one turn of the loop of [logging_socket] or
    one turn of the loop of [handle]; the steps of the two threads
    interleave. *)

Record State := mkState {
  dispatchers : gmap string SlaveDispatcher.t;
  jobs : gmap string JobHandler.t;
  current_level : option string;
  logging_jobs : gmap string JobHandler.t;
  last_db_access : Z;
  db : Store;
  clock : Z;
  trace : list event
}.

Inductive outcome (A : Type) :=
| Ok (a : A)
| Raise (e : exn).
Arguments Ok {A} a.
Arguments Raise {A} e.

Definition M (A : Type) : Type := State → outcome A * State.

Definition ret {A} (a : A) : M A := fun s => (Ok a, s).
Definition raise {A} (e : exn) : M A := fun s => (Raise e, s).
Definition bind {A B} (m : M A) (k : A → M B) : M B :=
  fun s => match m s with
           | (Ok a, s') => k a s'
           | (Raise e, s') => (Raise e, s')
           end.

Declare Scope cmd_scope.
Delimit Scope cmd_scope with cmd.
Notation "x <- m ;; k" := (bind m (fun x => k))
  (at level 100, m at next level, right associativity) : cmd_scope.
Notation "m ;; k" := (bind m (fun _ => k))
  (at level 100, right associativity) : cmd_scope.
Open Scope cmd_scope.

Definition emit (e : event) : M unit := fun s =>
  (Ok tt, mkState (dispatchers s) (jobs s) (current_level s) (logging_jobs s)
                  (last_db_access s) (db s) (clock s) (trace s ++ [e])).

Definition time_time : M Z := fun s => (Ok (clock s), s).
Definition read_db : M Store := fun s => (Ok (db s), s).
Definition write_db (d : Store) : M unit := fun s =>
  (Ok tt, mkState (dispatchers s) (jobs s) (current_level s) (logging_jobs s)
                  (last_db_access s) d (clock s) (trace s)).
Definition read_dispatchers : M (gmap string SlaveDispatcher.t) :=
  fun s => (Ok (dispatchers s), s).
Definition write_dispatchers (d : gmap string SlaveDispatcher.t) : M unit := fun s =>
  (Ok tt, mkState d (jobs s) (current_level s) (logging_jobs s)
                  (last_db_access s) (db s) (clock s) (trace s)).
Definition read_jobs : M (gmap string JobHandler.t) := fun s => (Ok (jobs s), s).
Definition write_jobs (j : gmap string JobHandler.t) : M unit := fun s =>
  (Ok tt, mkState (dispatchers s) j (current_level s) (logging_jobs s)
                  (last_db_access s) (db s) (clock s) (trace s)).
Definition write_current_level (l : string) : M unit := fun s =>
  (Ok tt, mkState (dispatchers s) (jobs s) (Some l) (logging_jobs s)
                  (last_db_access s) (db s) (clock s) (trace s)).
Definition read_logging_jobs : M (gmap string JobHandler.t) :=
  fun s => (Ok (logging_jobs s), s).
Definition write_logging_jobs (j : gmap string JobHandler.t) : M unit := fun s =>
  (Ok tt, mkState (dispatchers s) (jobs s) (current_level s) j
                  (last_db_access s) (db s) (clock s) (trace s)).
Definition read_last_db_access : M Z := fun s => (Ok (last_db_access s), s).
Definition write_last_db_access (t : Z) : M unit := fun s =>
  (Ok tt, mkState (dispatchers s) (jobs s) (current_level s) (logging_jobs s)
                  t (db s) (clock s) (trace s)).

Definition log (lvl : severity) (fmt : string) (args : list string) : M unit :=
  emit (Log lvl fmt args).
Definition send_multipart (frames : list string) : M unit := emit (Send frames).

(** [for x in l: body]. *)
Fixpoint for_each {A} (l : list A) (body : A → M unit) : M unit :=
  match l with
  | [] => ret tt
  | x :: l' => body x ;; for_each l' body
  end.

(** A call into dbutils that updates the table and hands the job back. *)
Definition call_db (op : dbop) (f : Store → TestJob.t * Store) : M TestJob.t :=
  emit (Db op) ;;
  d <- read_db ;;
  write_db (f d).2 ;;
  ret (f d).1.

Section Master.
Context `{!Libs} `{!DbUtils} `{!Scheduler}.

(** *** Registry *)

(** [Command.send_status] *)
Definition send_status (hostname : string) : M unit :=
  emit (Db (Filter hostname)) ;;
  d <- read_db ;;
  for_each (objects_filter hostname d) (fun job =>
    log INFO "[%d] STATUS => %s (%s)"
        [Py.str (TestJob.id job); hostname;
         from_option Device.hostname "" (TestJob.actual_device job)] ;;
    send_multipart [hostname; "STATUS"; Py.str (TestJob.id job)]).

(** [self.dispatchers[hostname].alive()] *)
Definition mark_alive (hostname : string) : M unit :=
  ds <- read_dispatchers ;;
  match ds !! hostname with
  | None => raise KeyError
  | Some d =>
      now <- time_time ;;
      write_dispatchers (<[hostname := SlaveDispatcher.alive now d]> ds)
  end.

(** [self.dispatchers[hostname] = SlaveDispatcher(hostname, online=True)] *)
Definition register_online (hostname : string) : M unit :=
  now <- time_time ;;
  ds <- read_dispatchers ;;
  write_dispatchers (<[hostname := SlaveDispatcher.init now hostname true]> ds).

(** [Command.dispatcher_alive] *)
Definition dispatcher_alive (hostname : string) : M unit :=
  ds <- read_dispatchers ;;
  (if decide (is_Some (ds !! hostname)) then ret tt
   else
     log WARNING "Unknown dispatcher <%s> (server crashed)" [hostname] ;;
     register_online hostname ;;
     send_status hostname) ;;
  mark_alive hostname.

(** *** Control plane *)

(** [Command._cancel_slave_dispatcher_jobs] *)
Definition _cancel_slave_dispatcher_jobs (hostname : string) : M unit :=
  emit Begin ;;
  emit (Db (Filter hostname)) ;;
  d <- read_db ;;
  for_each (objects_filter hostname d) (fun job =>
    log INFO "[%d] Canceling" [Py.str (TestJob.id job)] ;;
    call_db (CancelJob (TestJob.id job)) (cancel_job job) ;;
    ret tt) ;;
  emit Commit.

(** [int(msg[i])]; [None] covers both [IndexError] and [ValueError]. *)
Definition int_frame (msg : list string) (i : nat) : option Z :=
  msg !! i ≫= Py.int.

Definition invalid_message (hostname : string) (msg : list string) : M bool :=
  log ERROR "Invalid message from <%s> '%s'" (hostname :: msg) ;;
  ret false.

Definition hello (hostname action : string) (msg : list string) : M bool :=
  log INFO "%s => %s" [hostname; action] ;;
  match int_frame msg 2 with
  | None => invalid_message hostname msg
  | Some slave_version =>
      if decide (slave_version ≠ PROTOCOL_VERSION) then
        log ERROR "<%s> using protocol v%d while master is using v%d"
            [hostname; Py.str slave_version; Py.str PROTOCOL_VERSION] ;;
        ret false
      else
        send_multipart [hostname; "HELLO_OK"] ;;
        ds <- read_dispatchers ;;
        (if decide (is_Some (ds !! hostname)) then
           if decide (action = "HELLO") then
             log WARNING "Dispatcher <%s> has RESTARTED" [hostname]
           else
             log WARNING "Dispatcher <%s> was not confirmed" [hostname]
         else
           log WARNING "New dispatcher <%s>" [hostname] ;;
           register_online hostname) ;;
        (if decide (action = "HELLO") then
           _cancel_slave_dispatcher_jobs hostname
         else ret tt) ;;
        mark_alive hostname ;;
        ret true
  end.

Definition ping (hostname : string) : M bool :=
  log DEBUG "%s => PING" [hostname] ;;
  send_multipart [hostname; "PONG"] ;;
  dispatcher_alive hostname ;;
  ret true.

(** The [try: with open(filename, 'w') ... except (IOError, lzma.error)]
    statement of the END branch.  The file is opened before the
    description is decompressed, and the [with] block closes it however it
    is left. *)
Definition dump_description (job_id : Z) (job : TestJob.t) (description : string)
  : M unit :=
  let filename := Py.join (TestJob.output_dir job) ["description.yaml"] in
  exc <-
    match open_error filename with
    | Some e => ret (Some e)
    | None =>
        emit (FOpen "w" filename) ;;
        match lzma_decompress description with
        | None =>
            emit (FClose filename) ;;
            ret (Some "lzma.error")
        | Some text =>
            match write_error filename text with
            | Some e =>
                emit (FClose filename) ;;
                ret (Some e)
            | None =>
                emit (FWrite filename text) ;;
                emit (FClose filename) ;;
                ret None
            end
        end
    end ;;
  match exc with
  | Some e =>
      log ERROR "[%d] Unable to dump 'description.yaml'" [Py.str job_id] ;;
      log ERROR "%s" [e]
  | None => ret tt
  end.

(** The [try] block of the END branch; it ends early, with the error
    logged, when the job does not exist. *)
Definition finalise (job_id : Z) (error_msg description : string)
           (status : TestJob.Status) : M unit :=
  emit (Db (Get job_id)) ;;
  d <- read_db ;;
  match objects_get job_id d with
  | None => log ERROR "[%d] Unknown job" [Py.str job_id]
  | Some job =>
      dump_description job_id job description ;;
      emit (Db (ParseJobDescription (TestJob.id job))) ;;
      write_db (parse_job_description job d) ;;
      emit Begin ;;
      emit (Db (Get job_id)) ;;
      d <- read_db ;;
      match objects_get job_id d with
      | None =>
          emit Rollback ;;
          log ERROR "[%d] Unknown job" [Py.str job_id]
      | Some job =>
          job <- (if decide (TestJob.status job = TestJob.CANCELING) then
                    call_db (CancelJob (TestJob.id job)) (cancel_job job)
                  else ret job) ;;
          call_db (FailJob (TestJob.id job) error_msg status)
                  (fail_job job error_msg status) ;;
          emit Commit
      end
  end.

Definition end_ (hostname : string) (msg : list string) : M bool :=
  match int_frame msg 2, int_frame msg 3, msg !! 4%nat, msg !! 5%nat with
  | Some job_id, Some job_status, Some error_msg, Some description =>
      status <- (if decide (job_status ≠ 0) then
                   log INFO "[%d] %s => END with error %d"
                       [Py.str job_id; hostname; Py.str job_status] ;;
                   log ERROR "[%d] Error: %s" [Py.str job_id; error_msg] ;;
                   ret TestJob.INCOMPLETE
                 else
                   log INFO "[%d] %s => END" [Py.str job_id; hostname] ;;
                   ret TestJob.COMPLETE) ;;
      finalise job_id error_msg description status ;;
      send_multipart [hostname; "END_OK"; Py.str job_id] ;;
      dispatcher_alive hostname ;;
      ret true
  | _, _, _, _ => invalid_message hostname msg
  end.

(** The [try] block of the START_OK branch. *)
Definition start_job_block (job_id : Z) : M unit :=
  emit Begin ;;
  emit (Db (Get job_id)) ;;
  d <- read_db ;;
  match objects_get job_id d with
  | Some job =>
      call_db (StartJob (TestJob.id job)) (start_job job) ;;
      emit Commit
  | None =>
      emit Rollback ;;
      log ERROR "[%d] Unknown job" [Py.str job_id]
  end.

Definition start_ok (hostname : string) (msg : list string) : M bool :=
  match int_frame msg 2 with
  | None => invalid_message hostname msg
  | Some job_id =>
      log INFO "[%d] %s => START_OK" [Py.str job_id; hostname] ;;
      start_job_block job_id ;;
      dispatcher_alive hostname ;;
      ret true
  end.

(** [msg[i]] *)
Definition frame (msg : list string) (i : nat) : M string :=
  match msg !! i with
  | Some f => ret f
  | None => raise IndexError
  end.

(** [Command.controler_socket], on the message [recv_multipart] returned. *)
Definition controler_socket (msg : list string) : M bool :=
  hostname <- frame msg 0 ;;
  action <- frame msg 1 ;;
  if decide (action = "HELLO" ∨ action = "HELLO_RETRY") then
    hello hostname action msg
  else if decide (action = "PING") then
    ping hostname
  else if decide (action = "END") then
    end_ hostname msg
  else if decide (action = "START_OK") then
    start_ok hostname msg
  else
    log ERROR "<%s> sent unknown action=%s, args=(%s)"
        (hostname :: action :: drop 1 msg) ;;
    ret true.

(** *** Log ingestion *)

Inductive verdict := Dropped | Written.

(** [os.path.join(output_dir, "pipeline", level.split('.')[0],
    "%s-%s.yaml" % (level, name))] *)
Definition sub_log_filename (output_dir level name : string) : string :=
  Py.join output_dir
          ["pipeline"; Py.split_head "." level;
           level +:+ "-" +:+ name +:+ ".yaml"].

(** [lava_scheduler_app.utils.mkdir] *)
Definition mkdir (path : string) : M unit := emit (Mkdir path).

(** [JobHandler(job, level, filename)] *)
Definition new_JobHandler (job : TestJob.t) (level filename : string)
  : M JobHandler.t :=
  let output := Py.join (TestJob.output_dir job) ["output.yaml"] in
  emit (FOpen "a+" output) ;;
  emit (FOpen "a+" filename) ;;
  now <- time_time ;;
  ret {| JobHandler.output_dir := TestJob.output_dir job;
         JobHandler.output := output;
         JobHandler.current_level := level;
         JobHandler.sub_log := filename;
         JobHandler.last_usage := now |}.

(** [JobHandler.write] *)
Definition JobHandler_write (self : JobHandler.t) (message : string) : M unit :=
  emit (FWrite (JobHandler.output self) message) ;;
  emit (FWrite (JobHandler.output self) Py.newline) ;;
  emit (FWrite (JobHandler.sub_log self) message) ;;
  emit (FWrite (JobHandler.sub_log self) Py.newline).

(** [TestJob.objects.get(id=job_id)] with the frame as the key: the
    query converts it with [int] first. *)
Definition objects_get_frame (job_id : string) : M (option TestJob.t) :=
  match Py.int job_id with
  | None => raise ValueError
  | Some pk =>
      emit (Db (Get pk)) ;;
      d <- read_db ;;
      ret (objects_get pk d)
  end.

(** The [if job_id in jobs: ... else: ...] statement; [false] when the
    frame is dropped there. *)
Definition find_handler (job_id level name : string) : M bool :=
  js <- read_logging_jobs ;;
  match js !! job_id with
  | Some h =>
      if decide (level ≠ JobHandler.current_level h) then
        emit (FClose (JobHandler.sub_log h)) ;;
        let filename := sub_log_filename (JobHandler.output_dir h) level name in
        mkdir (Py.dirname filename) ;;
        write_current_level level ;;
        emit (FOpen "a+" filename) ;;
        write_logging_jobs (<[job_id := JobHandler.set_sub_log filename h]> js) ;;
        ret true
      else ret true
  | None =>
      found <- objects_get_frame job_id ;;
      match found with
      | None =>
          log ERROR "[%s] Unknown job id" [job_id] ;;
          ret false
      | Some job =>
          log INFO "[%s] Receiving logs from a new job" [job_id] ;;
          let filename := sub_log_filename (TestJob.output_dir job) level name in
          mkdir (Py.dirname filename) ;;
          h <- new_JobHandler job level filename ;;
          write_logging_jobs (<[job_id := h]> js) ;;
          ret true
      end
  end.

(** The [if message_lvl == "results":] statement; [false] when the
    frame is dropped there. *)
Definition results (job_id level message : string) (message_lvl message_msg : yaml)
  : M bool :=
  if eq_str message_lvl "results" then
    found <- objects_get_frame job_id ;;
    match found with
    | None =>
        log ERROR "[%s] Unknown job id" [job_id] ;;
        ret false
    | Some job =>
        let meta_filename := create_metadata_store message_msg job level in
        emit (Db (MapScannedResults (TestJob.id job))) ;;
        d <- read_db ;;
        let r := map_scanned_results message_msg job meta_filename d in
        write_db r.2 ;;
        (if r.1 then ret tt
         else log WARNING "[%s] Unable to map scanned results: %s"
                  [job_id; message]) ;;
        ret true
    end
  else ret true.

(** The end of the loop body: stamp the handler and write the record. *)
Definition write_record (job_id message : string) : M verdict :=
  js <- read_logging_jobs ;;
  match js !! job_id with
  | None => raise KeyError
  | Some h =>
      now <- time_time ;;
      let h := JobHandler.set_last_usage now h in
      write_logging_jobs (<[job_id := h]> js) ;;
      JobHandler_write h ("- " +:+ message) ;;
      ret Written
  end.

(** One turn of the loop of [Command.logging_socket], for the message
    [recv_multipart] returned. *)
Definition logging_socket (msg : list string) : M verdict :=
  match msg with
  | [job_id; level; name; message] =>
      match yaml_load message with
      | None =>
          log ERROR "[%s] data are not valid YAML, dropping" [job_id] ;;
          ret Dropped
      | Some scanned =>
          match subscript scanned "lvl", subscript scanned "msg" with
          | inr message_lvl, inr message_msg =>
              if Py.contains "/" level || Py.contains "/" name then
                log ERROR "[%s] Wrong level or name received, dropping the message"
                    [job_id] ;;
                ret Dropped
              else
                found <- find_handler job_id level name ;;
                if negb found then ret Dropped
                else
                  mapped <- results job_id level message message_lvl message_msg ;;
                  if negb mapped then ret Dropped
                  else write_record job_id message
          | inl KeyError, _ | inr _, inl KeyError =>
              log ERROR "[%s] Invalid log line, missing 'lvl' or 'msg' keys: %s"
                  [job_id; message] ;;
              ret Dropped
          | inl e, _ | inr _, inl e => raise e
          end
      end
  | _ =>
      log ERROR "Failed to parse log message, skipping: %s" msg ;;
      ret Dropped
  end.

(** *** Main loop *)

(** The pass commented [Garbage collect file handlers]. *)
Definition garbage_collect : M unit :=
  now <- time_time ;;
  js <- read_jobs ;;
  for_each (map_to_list js).*1 (fun job_id =>
    js <- read_jobs ;;
    match js !! job_id with
    | None => raise KeyError
    | Some h =>
        if decide (now - JobHandler.last_usage h > FD_TIMEOUT) then
          log INFO "[%s] Closing log file" [job_id] ;;
          emit (FClose (JobHandler.output h)) ;;
          emit (FClose (JobHandler.sub_log h)) ;;
          write_jobs (delete job_id js)
        else ret tt
    end).

(** The pass commented [Check dispatchers status]. *)
Definition check_dispatchers : M unit :=
  now <- time_time ;;
  ds <- read_dispatchers ;;
  for_each (map_to_list ds) (fun '(hostname, dispatcher) =>
    if SlaveDispatcher.online dispatcher
       && bool_decide (now - SlaveDispatcher.last_msg dispatcher > DISPATCHER_TIMEOUT)
    then
      log ERROR "[STATE] Dispatcher <%s> goes OFFLINE" [hostname] ;;
      ds <- read_dispatchers ;;
      write_dispatchers (alter (SlaveDispatcher.set_online false) hostname ds)
    else ret tt).

(** [Command.handle_canceling] *)
Definition handle_canceling : M unit :=
  emit (Db FilterCanceling) ;;
  d <- read_db ;;
  for_each
    (List.filter (fun j => bool_decide (TestJob.status j = TestJob.CANCELING)
                           && TestJob.is_pipeline j) d)
    (fun job =>
       worker_host <-
         (if TestJob.dynamic_connection job then ret (TestJob.lookup_worker job)
          else match TestJob.actual_device job with
               | None => raise AttributeError
               | Some dev => ret (Device.worker_host dev)
               end) ;;
       match worker_host with
       | None =>
           log WARNING "[%d] Invalid worker information" [Py.str (TestJob.id job)] ;;
           call_db (FailJob (TestJob.id job) "invalid worker information"
                            TestJob.CANCELED)
                   (fail_job job "invalid worker information" TestJob.CANCELED) ;;
           ret tt
       | Some w =>
           log INFO "[%d] CANCEL => %s" [Py.str (TestJob.id job); w] ;;
           send_multipart [w; "CANCEL"; Py.str (TestJob.id job)]
       end).

(** What [poller.poll] reported: a signal number read from the pipe, and
    the message waiting on the control socket. *)
Record polled := mkPolled {
  signum : option Z;
  controler : option (list string)
}.

Definition SIGHUP : Z := 1.

Inductive flow := Next | Leave.

Definition emit_all (evs : list event) : M unit :=
  for_each evs emit.

(** The block under [if now - last_db_access > DB_LIMIT]. *)
Definition dispatch : M unit :=
  now <- time_time ;;
  last <- read_last_db_access ;;
  if decide (now - last > DB_LIMIT) then
    write_last_db_access now ;;
    ds <- read_dispatchers ;;
    d <- read_db ;;
    write_db (process_jobs ds d).1 ;;
    emit_all (process_jobs ds d).2 ;;
    handle_canceling
  else ret tt.

(** The block under [if sockets.get(pipe_r) == zmq.POLLIN]: [true] when
    the loop is left. *)
Definition read_signal (p : polled) : M bool :=
  match signum p with
  | None => ret false
  | Some n =>
      if decide (n = SIGHUP) then
        log INFO "[POLL] SIGHUP received, restarting loggers" [] ;;
        ret false
      else
        log INFO "[POLL] Received a signal, leaving" [] ;;
        ret true
  end.

(** The loop body from the comment [Command socket] to its end. *)
Definition serve (p : polled) : M flow :=
  ok <- match controler p with
        | Some msg => controler_socket msg
        | None => ret true
        end ;;
  if negb ok then ret Next
  else
    check_dispatchers ;;
    dispatch ;;
    ret Next.

(** One turn of the [while True] loop of [Command.handle]. *)
Definition handle (p : polled) : M flow :=
  leave <- read_signal p ;;
  if (leave : bool) then ret Leave
  else
    garbage_collect ;;
    serve p.


End Master.

(** ** Reading a run

    The result state of a computation is described by the updates below;
    [sent] and [statements] project the trace on the control socket and on
    the database. *)

Definition add_events (evs : list event) (s : State) : State :=
  mkState (dispatchers s) (jobs s) (current_level s) (logging_jobs s)
          (last_db_access s) (db s) (clock s) (trace s ++ evs).

Definition set_dispatchers (ds : gmap string SlaveDispatcher.t) (s : State) : State :=
  mkState ds (jobs s) (current_level s) (logging_jobs s)
          (last_db_access s) (db s) (clock s) (trace s).

Definition set_db (d : Store) (s : State) : State :=
  mkState (dispatchers s) (jobs s) (current_level s) (logging_jobs s)
          (last_db_access s) d (clock s) (trace s).

Definition is_send (e : event) : option (list string) :=
  match e with Send frames => Some frames | _ => None end.

(** The messages written to the control socket, oldest first. *)
Definition sent (t : list event) : list (list string) := omap is_send t.

Definition is_statement (e : event) : bool :=
  match e with Begin | Commit | Rollback | Db _ => true | _ => false end.

(** The transactions and statements run on the database, oldest first. *)
Definition statements (t : list event) : list event := List.filter is_statement t.

Definition is_file_event (e : event) : bool :=
  match e with Mkdir _ | FOpen _ _ | FWrite _ _ | FClose _ => true | _ => false end.

(** What was done to the file system, oldest first. *)
Definition file_events (t : list event) : list event := List.filter is_file_event t.

Definition is_write (e : event) : option (string * string) :=
  match e with FWrite path data => Some (path, data) | _ => None end.

(** What was written to which file, oldest first. *)
Definition written (t : list event) : list (string * string) := omap is_write t.

(** The replies with verb [verb] among the messages [l]. *)
Definition with_verb (verb : string) (l : list (list string)) : list (list string) :=
  List.filter (fun frames => bool_decide (frames !! 1%nat = Some verb)) l.

(** ** A database and libraries to run scenarios on *)

Module Scenario.

Definition set_status (st : TestJob.Status) (j : TestJob.t) : TestJob.t :=
  TestJob.mk (TestJob.id j) st (TestJob.is_pipeline j) (TestJob.actual_device j)
             (TestJob.dynamic_connection j) (TestJob.lookup_worker j)
             (TestJob.definition j) (TestJob.pipeline_compatibility j)
             (TestJob.output_dir j).

(** [job.save()] *)
Definition save (j : TestJob.t) (d : Store) : Store :=
  List.map (fun row => if bool_decide (TestJob.id row = TestJob.id j) then j else row) d.

Definition saved (j : TestJob.t) (d : Store) : TestJob.t * Store := (j, save j d).

Definition dbutils : DbUtils := {|
  start_job j := saved (set_status TestJob.RUNNING j);
  cancel_job j := saved (set_status TestJob.CANCELED j);
  fail_job j _ st := saved (set_status st j);
  parse_job_description _ d := d;
  create_metadata_store _ _ _ := None;
  map_scanned_results _ _ _ d := (true, d)
|}.

Definition info (text : string) : yaml :=
  YMap [("lvl", YStr "info"); ("msg", YStr text)].

(** A loader that knows the records of the scenarios. *)
Definition load (s : string) : option yaml :=
  if decide (s = "{lvl: info, msg: a}") then Some (info "a")
  else if decide (s = "{lvl: info, msg: b}") then Some (info "b")
  else if decide (s = "{lvl: info, msg: c}") then Some (info "c")
  else if decide (s = "{lvl: results, msg: r}") then
    Some (YMap [("lvl", YStr "results"); ("msg", YStr "r")])
  else if decide (s = "just a scalar") then Some (YStr "just a scalar")
  else None.

Definition libs : Libs := {|
  yaml_load := load;
  yaml_dump _ := "";
  lzma_decompress s := Some s;
  open_error _ := None;
  write_error _ _ := None
|}.

Definition scheduler : Scheduler := {| process_jobs _ d := (d, []) |}.

Definition device (w : string) : Device.t :=
  {| Device.hostname := "qemu01"; Device.worker_host := Some w |}.

(** A pipeline job on a device of worker [w]. *)
Definition job (pk : Z) (st : TestJob.Status) (w : string) : TestJob.t :=
  {| TestJob.id := pk; TestJob.status := st; TestJob.is_pipeline := true;
     TestJob.actual_device := Some (device w);
     TestJob.dynamic_connection := false; TestJob.lookup_worker := None;
     TestJob.definition := ""; TestJob.pipeline_compatibility := 0;
     TestJob.output_dir := "/o" |}.

(** The master just started, at time [now], with the table [d]. *)
Definition started (now : Z) (d : Store) : State :=
  {| dispatchers := ∅; jobs := ∅; current_level := None; logging_jobs := ∅;
     last_db_access := 0; db := d; clock := now; trace := [] |}.

Definition at_time (now : Z) (s : State) : State :=
  mkState (dispatchers s) (jobs s) (current_level s) (logging_jobs s)
          (last_db_access s) (db s) now (trace s).

(** Run [m], and go on from the state it leaves, whatever it returned. *)
Definition after {A} (m : M A) (s : State) : State := (m s).2.


(** Forget the trace, to read what the next step adds. *)
Definition fresh_trace (s : State) : State :=
  mkState (dispatchers s) (jobs s) (current_level s) (logging_jobs s)
          (last_db_access s) (db s) (clock s) [].

Definition control : list string → M bool := @controler_socket libs dbutils.
Definition ingest : list string → M verdict := @logging_socket libs dbutils.
Definition turn : polled → M flow := @handle libs dbutils scheduler.

(** Nothing to read on either descriptor. *)
Definition idle : polled := {| signum := None; controler := None |}.

(** At time 100: job 7 runs on a device of worker w1, job 8 on one of w2,
    and the registry is empty. *)
Definition cold : State :=
  started 100 [job 7 TestJob.RUNNING "w1"; job 8 TestJob.RUNNING "w2"].

(** Worker w1 joined at time 0, and was silent until the turn of the main
    loop at time 100. *)
Definition timed_out : State :=
  after (turn idle) (at_time 100 (after (control ["w1"; "HELLO"; "1"]) (started 0 []))).

Definition frame_a : list string := ["7"; "1.2"; "foo"; "{lvl: info, msg: a}"].
Definition frame_b : list string := ["7"; "1.3"; "bar"; "{lvl: info, msg: b}"].
Definition frame_c : list string := ["7"; "1.3"; "bar"; "{lvl: info, msg: c}"].
Definition frame_a' : list string := ["7"; "1.2"; "foo"; "{lvl: info, msg: c}"].

(** The first log frame of job 7 was read at time 100. *)
Definition logging : State := fresh_trace (after (ingest frame_a) cold).


End Scenario.

(** ** Words to state the properties in *)

Section Reading.
Context `{!DbUtils}.

(** What [send_status] adds to the trace. *)
Definition status_events (hostname : string) (d : Store) : list event :=
  Db (Filter hostname) ::
  flat_map (fun job =>
              [Log INFO "[%d] STATUS => %s (%s)"
                   [Py.str (TestJob.id job); hostname;
                    from_option Device.hostname "" (TestJob.actual_device job)];
               Send [hostname; "STATUS"; Py.str (TestJob.id job)]])
           (objects_filter hostname d).

(** The registry entry of [hostname] once a message of it was handled. *)
Definition touched (hostname : string) (s : State) : SlaveDispatcher.t :=
  match dispatchers s !! hostname with
  | Some w => SlaveDispatcher.alive (clock s) w
  | None => SlaveDispatcher.mk hostname (clock s) true
  end.

(** What [dispatcher_alive] adds to the trace. *)
Definition resync_events (hostname : string) (s : State) (d : Store) : list event :=
  match dispatchers s !! hostname with
  | Some _ => []
  | None => Log WARNING "Unknown dispatcher <%s> (server crashed)" [hostname]
            :: status_events hostname d
  end.

(** The STATUS requests a message of [hostname] triggers. *)
Definition status_requests (hostname : string) (s : State) (d : Store)
  : list (list string) :=
  match dispatchers s !! hostname with
  | Some _ => []
  | None => List.map (fun job => [hostname; "STATUS"; Py.str (TestJob.id job)])
                     (objects_filter hostname d)
  end.

(** What [_cancel_slave_dispatcher_jobs] adds to the trace. *)
Definition cancel_events (hostname : string) (d : Store) : list event :=
  Begin :: Db (Filter hostname) ::
  flat_map (fun job => [Log INFO "[%d] Canceling" [Py.str (TestJob.id job)];
                        Db (CancelJob (TestJob.id job))])
           (objects_filter hostname d)
  ++ [Commit].

(** The table after [cancel_job] was called on each job of [l] in turn. *)
Definition cancel_all (l : list TestJob.t) (d : Store) : Store :=
  foldl (fun d job => (cancel_job job d).2) d l.

(** The verbs of the protocol that reach the registry. *)
Definition verbs : list string := ["HELLO"; "HELLO_RETRY"; "PING"; "END"; "START_OK"].

(** What a frame of level [level] does to the files of the handler [h]
    before anything is written: nothing when [level] is the level the
    handler holds, else the sub-log is closed and the file of the new
    level is opened. *)
Definition rotation (h : JobHandler.t) (level name : string) : list event :=
  if decide (level ≠ JobHandler.current_level h) then
    let filename := sub_log_filename (JobHandler.output_dir h) level name in
    [FClose (JobHandler.sub_log h); Mkdir (Py.dirname filename); FOpen "a+" filename]
  else [].

(** The handler after that. *)
Definition rotated (h : JobHandler.t) (level name : string) : JobHandler.t :=
  if decide (level ≠ JobHandler.current_level h) then
    JobHandler.set_sub_log (sub_log_filename (JobHandler.output_dir h) level name) h
  else h.

(** The record [message], as [JobHandler.write] appends it to both files. *)
Definition record (h : JobHandler.t) (message : string) : list (string * string) :=
  [(JobHandler.output h, "- " +:+ message); (JobHandler.output h, Py.newline);
   (JobHandler.sub_log h, "- " +:+ message); (JobHandler.sub_log h, Py.newline)].

(** [m] leaves the component [proj] of the state as it finds it. *)
Definition keeps {A X} (proj : State → X) (m : M A) : Prop :=
  ∀ s, proj (m s).2 = proj s.

End Reading.

(** ** A serialisation of structured values

    A small self-delimiting notation that [load] reads back, to run
    [export_definition] on: a value starts with a tag character, a string
    is preceded by its length in unary.  The library built on it hands a
    dict back with its items in another order, as a library that keeps
    dicts may. *)

Module Codec.

Fixpoint tally (n : nat) : string :=
  match n with
  | O => "0"
  | S n => String "1" (tally n)
  end.

Fixpoint untally (s : string) : option (nat * string) :=
  match s with
  | String "0" r => Some (O, r)
  | String "1" r =>
      match untally r with
      | Some (n, r') => Some (S n, r')
      | None => None
      end
  | _ => None
  end.

Fixpoint take (n : nat) (s : string) : option (string * string) :=
  match n, s with
  | O, _ => Some ("", s)
  | S n, String a r =>
      match take n r with
      | Some (t, r') => Some (String a t, r')
      | None => None
      end
  | S _, "" => None
  end.

Definition text (s : string) : string := tally (String.length s) +:+ s.

Definition untext (s : string) : option (string * string) :=
  match untally s with
  | Some (n, r) => take n r
  | None => None
  end.

Fixpoint dump_items (elem : yaml → string) (l : list yaml) : string :=
  match l with
  | [] => "]"
  | x :: l' => elem x +:+ dump_items elem l'
  end.

Fixpoint dump_pairs (elem : yaml → string) (d : list (string * yaml)) : string :=
  match d with
  | [] => "}"
  | (k, x) :: d' => text k +:+ elem x +:+ dump_pairs elem d'
  end.

Fixpoint dump (v : yaml) : string :=
  match v with
  | YNull => "~"
  | YBool b => if b then "T" else "F"
  | YInt n => String (if bool_decide (n < 0) then "-" else "+")%char (tally (Z.abs_nat n))
  | YFloat x => String "." (tally (N.to_nat x))
  | YStr s => String "'" (text s)
  | YSeq l => String "[" (dump_items dump l)
  | YMap d => String "{" (dump_pairs dump d)
  end.

Fixpoint items (elem : string → option (yaml * string)) (n : nat) (s : string)
  : option (list yaml * string) :=
  match n with
  | O => None
  | S n =>
      match s with
      | String "]" r => Some ([], r)
      | _ =>
          match elem s with
          | Some (x, r) =>
              match items elem n r with
              | Some (l, r') => Some (x :: l, r')
              | None => None
              end
          | None => None
          end
      end
  end.

Fixpoint pairs (elem : string → option (yaml * string)) (n : nat) (s : string)
  : option (list (string * yaml) * string) :=
  match n with
  | O => None
  | S n =>
      match s with
      | String "}" r => Some ([], r)
      | _ =>
          match untext s with
          | Some (k, r) =>
              match elem r with
              | Some (x, r') =>
                  match pairs elem n r' with
                  | Some (d, r'') => Some ((k, x) :: d, r'')
                  | None => None
                  end
              | None => None
              end
          | None => None
          end
      end
  end.

Fixpoint parse (fuel : nat) (s : string) : option (yaml * string) :=
  match fuel with
  | O => None
  | S fuel =>
      match s with
      | String "~" r => Some (YNull, r)
      | String "T" r => Some (YBool true, r)
      | String "F" r => Some (YBool false, r)
      | String "+" r =>
          match untally r with
          | Some (n, r') => Some (YInt (Z.of_nat n), r')
          | None => None
          end
      | String "-" r =>
          match untally r with
          | Some (n, r') => Some (YInt (- Z.of_nat n), r')
          | None => None
          end
      | String "." r =>
          match untally r with
          | Some (n, r') => Some (YFloat (N.of_nat n), r')
          | None => None
          end
      | String "'" r =>
          match untext r with
          | Some (t, r') => Some (YStr t, r')
          | None => None
          end
      | String "[" r =>
          match items (parse fuel) fuel r with
          | Some (l, r') => Some (YSeq l, r')
          | None => None
          end
      | String "{" r =>
          match pairs (parse fuel) fuel r with
          | Some (d, r') => Some (YMap d, r')
          | None => None
          end
      | _ => None
      end
  end.

Definition load (s : string) : option yaml :=
  match parse (String.length s) s with
  | Some (v, "") => Some v
  | _ => None
  end.

(** A library that does not keep the order of the items of a dict: it
    writes them last to first. *)
Definition reordered (v : yaml) : yaml :=
  match v with
  | YMap d => YMap (rev d)
  | _ => v
  end.

Definition unordered : Libs := {|
  yaml_load := load;
  yaml_dump v := dump (reordered v);
  lzma_decompress s := Some s;
  open_error _ := None;
  write_error _ _ := None
|}.

End Codec.

(** ** More words to state properties in *)

(** What [controler_socket] checks in the frames after the verb: the
    version of a HELLO, the four frames of an END with its two numbers,
    the job id of a START_OK. *)
Definition malformed (action : string) (rest : list string) : Prop :=
  ((action = "HELLO" ∨ action = "HELLO_RETRY") ∧ rest !! 0%nat ≫= Py.int = None)
  ∨ (action = "END"
     ∧ (rest !! 0%nat ≫= Py.int = None ∨ rest !! 1%nat ≫= Py.int = None
        ∨ (length rest < 4)%nat))
  ∨ (action = "START_OK" ∧ rest !! 0%nat ≫= Py.int = None).

(** What the pass [Check dispatchers status] does to one entry at time
    [now]. *)
Definition swept (now : Z) (d : SlaveDispatcher.t) : SlaveDispatcher.t :=
  if SlaveDispatcher.online d
     && bool_decide (now - SlaveDispatcher.last_msg d > DISPATCHER_TIMEOUT)
  then SlaveDispatcher.set_online false d
  else d.

(** The registry after the loop of [Check dispatchers status] went over
    the items [l]. *)
Definition sweep_items (now : Z) (l : list (string * SlaveDispatcher.t))
           (m : gmap string SlaveDispatcher.t) : gmap string SlaveDispatcher.t :=
  foldl (fun m '(hostname, d) =>
           if SlaveDispatcher.online d
              && bool_decide (now - SlaveDispatcher.last_msg d > DISPATCHER_TIMEOUT)
           then alter (SlaveDispatcher.set_online false) hostname m
           else m) m l.

(** What that loop logs. *)
Definition sweep_log (now : Z) (l : list (string * SlaveDispatcher.t)) : list event :=
  flat_map (fun '(hostname, d) =>
              if SlaveDispatcher.online d
                 && bool_decide (now - SlaveDispatcher.last_msg d > DISPATCHER_TIMEOUT)
              then [Log ERROR "[STATE] Dispatcher <%s> goes OFFLINE" [hostname]]
              else []) l.

Definition set_jobs (js : gmap string JobHandler.t) (s : State) : State :=
  mkState (dispatchers s) js (current_level s) (logging_jobs s)
          (last_db_access s) (db s) (clock s) (trace s).

(** [self.jobs] after the loop of [Garbage collect file handlers] went
    over the keys [l]. *)
Definition collect_keys (now : Z) (l : list string) (m : gmap string JobHandler.t)
  : gmap string JobHandler.t :=
  foldl (fun m job_id =>
           match m !! job_id with
           | Some h =>
               if decide (now - JobHandler.last_usage h > FD_TIMEOUT)
               then delete job_id m else m
           | None => m
           end) m l.

(** What [JobHandler.close] does. *)
Definition closing (h : JobHandler.t) : list event :=
  [FClose (JobHandler.output h); FClose (JobHandler.sub_log h)].

(** What that loop logs and closes, for the handlers of [m]. *)
Definition collect_log (now : Z) (l : list string) (m : gmap string JobHandler.t)
  : list event :=
  flat_map (fun job_id =>
              match m !! job_id with
              | Some h =>
                  if decide (now - JobHandler.last_usage h > FD_TIMEOUT)
                  then Log INFO "[%s] Closing log file" [job_id] :: closing h
                  else []
              | None => []
              end) l.

Section Finalising.
Context `{!Libs} `{!DbUtils}.

(** What the END branch logs before it looks for the job. *)
Definition end_log (hostname : string) (job_id job_status : Z) (error_msg : string)
  : list event :=
  if decide (job_status ≠ 0) then
    [Log INFO "[%d] %s => END with error %d"
         [Py.str job_id; hostname; Py.str job_status];
     Log ERROR "[%d] Error: %s" [Py.str job_id; error_msg]]
  else [Log INFO "[%d] %s => END" [Py.str job_id; hostname]].

(** The status the END branch finalises the job with. *)
Definition end_status (job_status : Z) : TestJob.Status :=
  if decide (job_status ≠ 0) then TestJob.INCOMPLETE else TestJob.COMPLETE.

(** What [dump_description] adds to the trace. *)
Definition description_events (job_id : Z) (job : TestJob.t) (description : string)
  : list event :=
  let filename := Py.join (TestJob.output_dir job) ["description.yaml"] in
  let caught e := [Log ERROR "[%d] Unable to dump 'description.yaml'" [Py.str job_id];
                   Log ERROR "%s" [e]] in
  match open_error filename with
  | Some e => caught e
  | None =>
      FOpen "w" filename ::
      match lzma_decompress description with
      | None => FClose filename :: caught "lzma.error"
      | Some text =>
          match write_error filename text with
          | Some e => FClose filename :: caught e
          | None => [FWrite filename text; FClose filename]
          end
      end
  end.

(** The job and the table once the row is locked: through [cancel_job]
    when the job is CANCELING. *)
Definition locked (job : TestJob.t) (d : Store) : TestJob.t * Store :=
  if decide (TestJob.status job = TestJob.CANCELING) then cancel_job job d
  else (job, d).

(** The statements of the transaction of the END branch. *)
Definition end_transaction (job_id : Z) (job : TestJob.t) (d : Store)
           (error_msg : string) (status : TestJob.Status) : list event :=
  [Begin; Db (Get job_id)]
  ++ (if decide (TestJob.status job = TestJob.CANCELING)
      then [Db (CancelJob (TestJob.id job))] else [])
  ++ [Db (FailJob (TestJob.id (locked job d).1) error_msg status); Commit].

End Finalising.

Section Frames.
Context `{!Libs} `{!DbUtils}.

(** What [logging_socket] checks in a message before it looks at the
    level and the name: four frames, the last one YAML, and the keys
    [lvl] and [msg] in the mapping it holds. *)
Definition bad_frame (msg : list string) : Prop :=
  length msg ≠ 4%nat
  ∨ ∃ job_id level name message,
      msg = [job_id; level; name; message]
      ∧ (yaml_load message = None
         ∨ ∃ pairs, yaml_load message = Some (YMap pairs)
                    ∧ (dict_get "lvl" pairs = None ∨ dict_get "msg" pairs = None)).

(** The handler [JobHandler(job, level, filename)] builds at time [now]. *)
Definition opened (now : Z) (job : TestJob.t) (level name : string) : JobHandler.t :=
  {| JobHandler.output_dir := TestJob.output_dir job;
     JobHandler.output := Py.join (TestJob.output_dir job) ["output.yaml"];
     JobHandler.current_level := level;
     JobHandler.sub_log := sub_log_filename (TestJob.output_dir job) level name;
     JobHandler.last_usage := now |}.

(** [job.lookup_worker if job.dynamic_connection else
    job.actual_device.worker_host], where the device exists. *)
Definition worker_of (job : TestJob.t) : option string :=
  if TestJob.dynamic_connection job then TestJob.lookup_worker job
  else TestJob.actual_device job ≫= Device.worker_host.

(** The jobs [handle_canceling] goes over. *)
Definition canceling (d : Store) : list TestJob.t :=
  List.filter (fun j => bool_decide (TestJob.status j = TestJob.CANCELING)
                        && TestJob.is_pipeline j) d.

(** The CANCEL messages for the jobs of [l] that have a worker. *)
Definition cancel_requests (l : list TestJob.t) : list (list string) :=
  omap (fun job => (fun w => [w; "CANCEL"; Py.str (TestJob.id job)]) <$> worker_of job) l.

(** The jobs of [l] that have none. *)
Definition orphans (l : list TestJob.t) : list TestJob.t :=
  List.filter (fun job => bool_decide (worker_of job = None)) l.

(** The table after [fail_job] was called on each job of [l] in turn. *)
Definition fail_all (l : list TestJob.t) (d : Store) : Store :=
  foldl (fun d job =>
           (fail_job job "invalid worker information" TestJob.CANCELED d).2) d l.

(** What [handle_canceling] adds to the trace for the jobs [l]. *)
Definition canceling_events (l : list TestJob.t) : list event :=
  flat_map (fun job =>
              match worker_of job with
              | Some w =>
                  [Log INFO "[%d] CANCEL => %s" [Py.str (TestJob.id job); w];
                   Send [w; "CANCEL"; Py.str (TestJob.id job)]]
              | None =>
                  [Log WARNING "[%d] Invalid worker information"
                       [Py.str (TestJob.id job)];
                   Db (FailJob (TestJob.id job) "invalid worker information"
                               TestJob.CANCELED)]
              end) l.

End Frames.

(** No character of [s] is white space. *)
Fixpoint spaceless (s : string) : bool :=
  match s with
  | "" => true
  | String a s' => negb (Ascii.is_space a) && spaceless s'
  end.

(** ** More states to run scenarios on *)

Module Cases.

(** A job that is a dynamic connection, served by worker [w] or by
    nobody. *)
Definition connection (pk : Z) (st : TestJob.Status) (w : option string) : TestJob.t :=
  {| TestJob.id := pk; TestJob.status := st; TestJob.is_pipeline := true;
     TestJob.actual_device := None;
     TestJob.dynamic_connection := true; TestJob.lookup_worker := w;
     TestJob.definition := ""; TestJob.pipeline_compatibility := 0;
     TestJob.output_dir := "/o" |}.

(** A pipeline job that has no device yet. *)
Definition waiting (pk : Z) (st : TestJob.Status) : TestJob.t :=
  {| TestJob.id := pk; TestJob.status := st; TestJob.is_pipeline := true;
     TestJob.actual_device := None;
     TestJob.dynamic_connection := false; TestJob.lookup_worker := None;
     TestJob.definition := ""; TestJob.pipeline_compatibility := 0;
     TestJob.output_dir := "/o" |}.

(** At time 100: job 7 runs on worker w1, job 9 was asked to stop there,
    and so were a connection served by w2 and one served by nobody. *)
Definition stopping : State :=
  Scenario.started 100
    [Scenario.job 7 TestJob.RUNNING "w1"; Scenario.job 9 TestJob.CANCELING "w1";
     connection 10 TestJob.CANCELING (Some "w2");
     connection 11 TestJob.CANCELING None].

(** The same, with a job asked to stop before it got a device. *)
Definition stopping_early : State :=
  Scenario.started 100
    [Scenario.job 9 TestJob.CANCELING "w1"; waiting 12 TestJob.CANCELING].

(** Worker w1 joined at time 0; it is now time 5. *)
Definition joined : State :=
  Scenario.at_time 5
    (Scenario.after (Scenario.control ["w1"; "HELLO"; "1"]) (Scenario.started 0 [])).

(** The libraries of the scenarios, on a file system that refuses to
    open a file for writing. *)
Definition read_only : Libs := {|
  yaml_load := Scenario.load;
  yaml_dump _ := "";
  lzma_decompress s := Some s;
  open_error path := Some ("[Errno 13] Permission denied: '" +:+ path +:+ "'");
  write_error _ _ := None
|}.

(** The handler of job 7 in [Scenario.logging]. *)
Definition handler : JobHandler.t :=
  {| JobHandler.output_dir := "/o";
     JobHandler.output := "/o/output.yaml";
     JobHandler.current_level := "1.2";
     JobHandler.sub_log := "/o/pipeline/1/1.2-foo.yaml";
     JobHandler.last_usage := 100 |}.

End Cases.

(** * Properties *)

(** ** Built-ins *)

Example int_padded : Py.int " 12 " = Some 12.
Proof. reflexivity. Qed.

Example int_negative : Py.int "-7" = Some (-7).
Proof. reflexivity. Qed.

Example int_trailing_letter : Py.int "1x" = None.
Proof. reflexivity. Qed.

Example int_empty : Py.int "" = None.
Proof. reflexivity. Qed.

Example int_sign_only : Py.int "-" = None.
Proof. reflexivity. Qed.

Example str_of_int : Py.str 42 = "42" ∧ Py.str (-5) = "-5".
Proof. split; reflexivity. Qed.

Example join_sub_log :
  Py.join "/o" ["pipeline"; "1"; "1.2-foo.yaml"] = "/o/pipeline/1/1.2-foo.yaml".
Proof. reflexivity. Qed.

Example join_absolute : Py.join "/o" ["pipeline"; "/etc"] = "/etc".
Proof. reflexivity. Qed.

Example dirname_sub_log : Py.dirname "/o/pipeline/1/1.2-foo.yaml" = "/o/pipeline/1".
Proof. reflexivity. Qed.

Example dirname_root : Py.dirname "/x" = "/".
Proof. reflexivity. Qed.

Example split_head_level : Py.split_head "." "1.2.3" = "1".
Proof. reflexivity. Qed.

Section Runs.
Context `{!Libs} `{!DbUtils} `{!Scheduler}.

Lemma add_events_nil s : add_events [] s = s.
Proof. destruct s; unfold add_events; simpl. by rewrite app_nil_r. Qed.

Lemma add_events_app a b s : add_events b (add_events a s) = add_events (a ++ b) s.
Proof. unfold add_events; simpl. by rewrite app_assoc. Qed.

Lemma bind_run {A B} (m : M A) (k : A → M B) s a s' :
  m s = (Ok a, s') → bind m k s = k a s'.
Proof. unfold bind. by intros ->. Qed.

Lemma emit_run e s : emit e s = (Ok tt, add_events [e] s).
Proof. reflexivity. Qed.

(** Unfold the primitive operations and tidy the trace. *)
Ltac prims :=
  unfold log, send_multipart, mkdir, emit, ret, raise, bind, time_time, read_db,
    write_db, read_dispatchers, write_dispatchers, read_jobs, write_jobs,
    read_logging_jobs, write_logging_jobs, write_current_level,
    read_last_db_access, write_last_db_access,
    add_events, set_dispatchers, set_db;
  simpl; rewrite <- ?app_assoc; simpl.

(** A loop whose body only produces events produces them in order. *)
Lemma for_each_emits {A} (f : A → list event) (body : A → M unit) (l : list A) :
  (∀ x s, body x s = (Ok tt, add_events (f x) s)) →
  ∀ s, for_each l body s = (Ok tt, add_events (flat_map f l) s).
Proof.
  intros Hbody. induction l as [|x l IH]; intros s; simpl.
  - by rewrite add_events_nil.
  - rewrite (bind_run _ _ _ _ _ (Hbody x s)), IH. by rewrite add_events_app.
Qed.

Lemma sent_app a b : sent (a ++ b) = sent a ++ sent b.
Proof. apply omap_app. Qed.

Lemma sent_cons e t :
  sent (e :: t) = match is_send e with Some f => f :: sent t | None => sent t end.
Proof. unfold sent. simpl. by destruct (is_send e). Qed.

Lemma sent_nil : sent [] = [].
Proof. reflexivity. Qed.

Lemma statements_app a b : statements (a ++ b) = statements a ++ statements b.
Proof. apply List.filter_app. Qed.

Lemma statements_cons e t :
  statements (e :: t) = if is_statement e then e :: statements t else statements t.
Proof. reflexivity. Qed.

Lemma statements_nil : statements [] = [].
Proof. reflexivity. Qed.

Lemma file_events_app a b : file_events (a ++ b) = file_events a ++ file_events b.
Proof. apply List.filter_app. Qed.

Lemma file_events_cons e t :
  file_events (e :: t) = if is_file_event e then e :: file_events t else file_events t.
Proof. reflexivity. Qed.

Lemma file_events_nil : file_events [] = [].
Proof. reflexivity. Qed.

Lemma with_verb_app verb a b : with_verb verb (a ++ b) = with_verb verb a ++ with_verb verb b.
Proof. apply List.filter_app. Qed.

Lemma with_verb_cons verb m l :
  with_verb verb (m :: l)
  = if bool_decide (m !! 1%nat = Some verb) then m :: with_verb verb l
    else with_verb verb l.
Proof. reflexivity. Qed.

Lemma with_verb_nil verb : with_verb verb [] = [].
Proof. reflexivity. Qed.

Lemma written_app a b : written (a ++ b) = written a ++ written b.
Proof. apply omap_app. Qed.

Lemma written_cons e t :
  written (e :: t)
  = match is_write e with Some w => w :: written t | None => written t end.
Proof. unfold written. simpl. by destruct (is_write e). Qed.

Lemma written_nil : written [] = [].
Proof. reflexivity. Qed.

#[local] Arguments written : simpl never.
#[local] Arguments with_verb : simpl never.
#[local] Arguments sent : simpl never.
#[local] Arguments statements : simpl never.
#[local] Arguments file_events : simpl never.

(** Push the projections of a trace through its explicit parts. *)
Ltac project :=
  repeat (rewrite ?sent_app, ?sent_cons, ?sent_nil,
                  ?statements_app, ?statements_cons, ?statements_nil,
                  ?file_events_app, ?file_events_cons, ?file_events_nil,
                  ?written_app, ?written_cons, ?written_nil,
                  ?with_verb_app, ?with_verb_cons, ?with_verb_nil; simpl).

#[local] Arguments status_events : simpl never.

Lemma send_status_run hostname s :
  send_status hostname s = (Ok tt, add_events (status_events hostname (db s)) s).
Proof.
  unfold send_status, status_events.
  rewrite (bind_run _ _ _ _ _ (emit_run _ _)).
  unfold read_db at 1. unfold bind at 1.
  erewrite for_each_emits; [by rewrite add_events_app|].
  intros job s'. by prims.
Qed.

Lemma sent_status_events hostname d :
  sent (status_events hostname d)
  = List.map (fun job => [hostname; "STATUS"; Py.str (TestJob.id job)])
             (objects_filter hostname d).
Proof.
  unfold status_events. rewrite sent_cons. simpl.
  induction (objects_filter hostname d) as [|j l IH]; simpl; [done|].
  rewrite !sent_cons. simpl. by rewrite IH.
Qed.

Lemma with_verb_status hostname verb (l : list TestJob.t) :
  verb ≠ "STATUS" →
  with_verb verb (List.map (fun job => [hostname; "STATUS"; Py.str (TestJob.id job)]) l)
  = [].
Proof.
  intros Hverb. induction l as [|j l IH]; simpl; [done|].
  rewrite with_verb_cons, bool_decide_false; [done|]. simpl. congruence.
Qed.

Lemma statements_status_events hostname d :
  statements (status_events hostname d) = [Db (Filter hostname)].
Proof.
  unfold status_events. rewrite statements_cons. simpl. f_equal.
  induction (objects_filter hostname d) as [|j l IH]; simpl; [done|].
  by rewrite !statements_cons.
Qed.

(** [dispatcher_alive] on a worker of the registry: only the time of its
    last message changes. *)
Lemma dispatcher_alive_known hostname d s :
  dispatchers s !! hostname = Some d →
  dispatcher_alive hostname s
  = (Ok tt, set_dispatchers
              (<[hostname := SlaveDispatcher.alive (clock s) d]> (dispatchers s)) s).
Proof.
  intros Hd. unfold dispatcher_alive, mark_alive, bind, read_dispatchers. simpl.
  destruct (decide (is_Some (dispatchers s !! hostname))) as [_|Hn].
  - simpl. rewrite Hd. reflexivity.
  - destruct Hn. by eexists.
Qed.

(** [dispatcher_alive] on a worker the registry does not hold: it is
    inserted, on line, and asked for the status of its running jobs. *)
Lemma dispatcher_alive_unknown hostname s :
  dispatchers s !! hostname = None →
  dispatcher_alive hostname s
  = (Ok tt,
     set_dispatchers
       (<[hostname := SlaveDispatcher.mk hostname (clock s) true]> (dispatchers s))
       (add_events
          (Log WARNING "Unknown dispatcher <%s> (server crashed)" [hostname]
           :: status_events hostname (db s)) s)).
Proof.
  intros Hd. unfold dispatcher_alive.
  unfold read_dispatchers at 1. unfold bind at 1.
  destruct (decide (is_Some (dispatchers s !! hostname))) as [[d Hs]|_];
    [congruence|].
  unfold bind at 1. unfold bind at 1. unfold log. rewrite emit_run.
  unfold bind at 1. unfold register_online, bind, time_time, read_dispatchers,
    write_dispatchers. simpl.
  rewrite send_status_run. simpl.
  unfold mark_alive, bind, read_dispatchers, time_time, write_dispatchers. simpl.
  rewrite lookup_insert_eq. simpl.
  rewrite insert_insert_eq.
  unfold set_dispatchers, add_events, SlaveDispatcher.alive, SlaveDispatcher.init.
  simpl. rewrite <- app_assoc. reflexivity.
Qed.

(** The dump of the description returns, whatever the file system and
    [lzma] answer. *)
Lemma dump_description_run job_id job description s :
  dump_description job_id job description s
  = (Ok tt, add_events (description_events job_id job description) s).
Proof.
  unfold dump_description, description_events.
  destruct (open_error _) as [e|];
    [|destruct (lzma_decompress description) as [text|];
      [destruct (write_error _ text) as [e|]|]];
    prims; reflexivity.
Qed.

Lemma sent_description_events job_id job description :
  sent (description_events job_id job description) = [].
Proof.
  unfold description_events.
  destruct (open_error _) as [e|];
    [|destruct (lzma_decompress description) as [text|];
      [destruct (write_error _ text) as [e|]|]];
    by project.
Qed.

#[local] Arguments dump_description : simpl never.
#[local] Arguments description_events : simpl never.

(** The [try] block of the END branch returns, writes nothing to the
    control socket, and leaves the table alone when the job is unknown. *)
Lemma finalise_run job_id error_msg description status s :
  ∃ d evs,
    finalise job_id error_msg description status s
    = (Ok tt, set_db d (add_events evs s))
    ∧ sent evs = []
    ∧ (objects_get job_id (db s) = None → d = db s).
Proof.
  unfold finalise, call_db. prims.
  destruct (objects_get job_id (db s)) as [job|] eqn:Hjob; prims.
  2: { eexists _, _. split; [reflexivity|]. split; [reflexivity|done]. }
  rewrite dump_description_run. prims.
  pose proof (sent_description_events job_id job description) as Hquiet.
  destruct (objects_get job_id (parse_job_description job (db s))) as [job'|];
    prims;
    [destruct (decide (TestJob.status job' = TestJob.CANCELING)); prims|].
  all: eexists _, (Db (Get job_id) :: description_events job_id job description ++ _).
  all: split; [unfold set_db, add_events; simpl; rewrite <- ?app_assoc; reflexivity|].
  all: split; [|done].
  all: rewrite sent_cons, sent_app, Hquiet; by project.
Qed.

Lemma start_job_block_run job_id s :
  ∃ d evs,
    start_job_block job_id s = (Ok tt, set_db d (add_events evs s))
    ∧ sent evs = []
    ∧ (objects_get job_id (db s) = None → d = db s).
Proof.
  unfold start_job_block, call_db. prims.
  destruct (objects_get job_id (db s)) as [job|] eqn:Hjob; prims;
    eexists _, _; (split; [reflexivity|]); (split; [reflexivity|done]).
Qed.

Lemma dispatcher_alive_run hostname s :
  dispatcher_alive hostname s
  = (Ok tt, set_dispatchers (<[hostname := touched hostname s]> (dispatchers s))
              (add_events (resync_events hostname s (db s)) s)).
Proof.
  unfold touched, resync_events.
  destruct (dispatchers s !! hostname) as [w|] eqn:Hw.
  - rewrite (dispatcher_alive_known _ _ _ Hw). by rewrite add_events_nil.
  - by rewrite (dispatcher_alive_unknown _ _ Hw).
Qed.

Lemma sent_resync_events hostname s d :
  sent (resync_events hostname s d) = status_requests hostname s d.
Proof.
  unfold resync_events, status_requests.
  destruct (dispatchers s !! hostname); [done|].
  project. apply sent_status_events.
Qed.

Lemma with_verb_status_requests verb hostname s d :
  with_verb verb (status_requests hostname s d)
  = if decide (verb = "STATUS") then status_requests hostname s d else [].
Proof.
  unfold status_requests. destruct (dispatchers s !! hostname).
  { by destruct (decide _). }
  destruct (decide (verb = "STATUS")) as [->|Hv].
  - induction (objects_filter hostname d) as [|j l IH]; simpl; [done|].
    rewrite with_verb_cons. simpl. by rewrite IH.
  - by apply with_verb_status.
Qed.

#[local] Arguments resync_events : simpl never.

(** A PING, as a whole. *)
Lemma ping_run hostname rest s :
  ∃ evs,
    controler_socket (hostname :: "PING" :: rest) s
    = (Ok true,
       set_dispatchers (<[hostname := touched hostname s]> (dispatchers s))
                       (add_events evs s))
    ∧ sent evs = [hostname; "PONG"] :: status_requests hostname s (db s).
Proof.
  unfold controler_socket, frame, ping. prims.
  rewrite dispatcher_alive_run. prims.
  eexists. split; [reflexivity|]. project. by rewrite sent_resync_events.
Qed.

(** A well-formed END, as a whole. *)
Lemma end_run hostname sid scode error_msg description rest job_id job_status s :
  Py.int sid = Some job_id →
  Py.int scode = Some job_status →
  ∃ d evs,
    controler_socket
      (hostname :: "END" :: sid :: scode :: error_msg :: description :: rest) s
    = (Ok true,
       set_dispatchers (<[hostname := touched hostname s]> (dispatchers s))
                       (set_db d (add_events evs s)))
    ∧ sent evs = [hostname; "END_OK"; Py.str job_id] :: status_requests hostname s d
    ∧ (objects_get job_id (db s) = None → d = db s).
Proof.
  intros Hid Hcode. unfold controler_socket, frame. prims.
  unfold end_, int_frame. simpl. rewrite Hid, Hcode. simpl.
  destruct (decide (job_status ≠ 0)); prims.
  all: match goal with |- context [finalise ?a ?b ?c ?d ?st] =>
         destruct (finalise_run a b c d st) as (d' & evs & -> & Hsent & Hdb)
       end; prims.
  all: rewrite dispatcher_alive_run; prims.
  all: eexists _, _; (split; [reflexivity|]).
  all: project; rewrite Hsent, sent_resync_events; simpl.
  all: unfold status_requests; simpl; done.
Qed.

(** A well-formed START_OK, as a whole. *)
Lemma start_ok_run hostname sid rest job_id s :
  Py.int sid = Some job_id →
  ∃ d evs,
    controler_socket (hostname :: "START_OK" :: sid :: rest) s
    = (Ok true,
       set_dispatchers (<[hostname := touched hostname s]> (dispatchers s))
                       (set_db d (add_events evs s)))
    ∧ sent evs = status_requests hostname s d
    ∧ (objects_get job_id (db s) = None → d = db s).
Proof.
  intros Hid. unfold controler_socket, frame. prims.
  unfold start_ok, int_frame. simpl. rewrite Hid. simpl. prims.
  match goal with |- context [start_job_block ?a ?st] =>
    destruct (start_job_block_run a st) as (d' & evs & -> & Hsent & Hdb)
  end; prims.
  rewrite dispatcher_alive_run; prims.
  eexists _, _; (split; [reflexivity|]).
  project; rewrite Hsent, sent_resync_events; simpl.
  unfold status_requests; simpl; done.
Qed.

(** ** Control plane *)

(** C2: a HELLO or HELLO_RETRY whose version is not [PROTOCOL_VERSION]
    is refused: the handler returns [False], nothing is written to the
    control socket, and the registry (and the job table) is what it was:
    no worker is inserted, no [online] flag or [last_msg] is modified. *)
Theorem hello_version_mismatch
    (hostname action v : string) (n : Z) (rest : list string) (s : State) :
  action = "HELLO" ∨ action = "HELLO_RETRY" →
  Py.int v = Some n →
  n ≠ PROTOCOL_VERSION →
  let r := controler_socket (hostname :: action :: v :: rest) s in
  r.1 = Ok false
  ∧ sent (trace r.2) = sent (trace s)
  ∧ dispatchers r.2 = dispatchers s
  ∧ db r.2 = db s.
Proof.
  intros Haction Hv Hn. unfold controler_socket, frame. prims.
  destruct (decide (action = "HELLO" ∨ action = "HELLO_RETRY")) as [_|Hno];
    [|done].
  unfold hello, int_frame. prims. rewrite Hv. simpl.
  destruct (decide (n ≠ PROTOCOL_VERSION)) as [_|Heq]; [|done].
  prims. project. by rewrite app_nil_r.
Qed.

Lemma cancel_loop_run (l : list TestJob.t) s :
  for_each l (fun job =>
    log INFO "[%d] Canceling" [Py.str (TestJob.id job)] ;;
    call_db (CancelJob (TestJob.id job)) (cancel_job job) ;;
    ret tt) s
  = (Ok tt,
     set_db (cancel_all l (db s))
       (add_events
          (flat_map (fun job => [Log INFO "[%d] Canceling" [Py.str (TestJob.id job)];
                                 Db (CancelJob (TestJob.id job))]) l) s)).
Proof.
  revert s. induction l as [|job l IH]; intros s.
  - simpl. prims. rewrite app_nil_r. by destruct s.
  - simpl. unfold call_db at 1. prims. rewrite IH. prims. reflexivity.
Qed.

Lemma _cancel_slave_dispatcher_jobs_run hostname s :
  _cancel_slave_dispatcher_jobs hostname s
  = (Ok tt,
     set_db (cancel_all (objects_filter hostname (db s)) (db s))
            (add_events (cancel_events hostname (db s)) s)).
Proof.
  unfold _cancel_slave_dispatcher_jobs, cancel_events.
  rewrite (bind_run _ _ _ _ _ (emit_run _ _)).
  rewrite (bind_run _ _ _ _ _ (emit_run _ _)).
  unfold read_db at 1. unfold bind at 1.
  unfold bind at 1. rewrite cancel_loop_run. prims. reflexivity.
Qed.

Lemma sent_cancel_events hostname d : sent (cancel_events hostname d) = [].
Proof.
  unfold cancel_events. project.
  induction (objects_filter hostname d) as [|j l IH]; simpl; project; done.
Qed.

Lemma statements_cancel_events hostname d :
  statements (cancel_events hostname d)
  = [Begin; Db (Filter hostname)]
    ++ List.map (fun job => Db (CancelJob (TestJob.id job))) (objects_filter hostname d)
    ++ [Commit].
Proof.
  unfold cancel_events. project. do 2 f_equal.
  induction (objects_filter hostname d) as [|j l IH]; simpl; project; [done|].
  by rewrite IH.
Qed.

#[local] Arguments cancel_events : simpl never.

(** A HELLO or HELLO_RETRY of the right version, as a whole. *)
Lemma hello_run hostname action v rest s :
  action = "HELLO" ∨ action = "HELLO_RETRY" →
  Py.int v = Some PROTOCOL_VERSION →
  ∃ evs,
    controler_socket (hostname :: action :: v :: rest) s
    = (Ok true,
       set_dispatchers (<[hostname := touched hostname s]> (dispatchers s))
         (set_db (if decide (action = "HELLO")
                  then cancel_all (objects_filter hostname (db s)) (db s)
                  else db s)
                 (add_events evs s)))
    ∧ sent evs = [[hostname; "HELLO_OK"]]
    ∧ statements evs = if decide (action = "HELLO")
                       then statements (cancel_events hostname (db s)) else [].
Proof.
  intros Haction Hv. unfold controler_socket, frame. prims.
  destruct (decide (action = "HELLO" ∨ action = "HELLO_RETRY")) as [_|Hno];
    [|done].
  unfold hello, int_frame. prims. rewrite Hv. simpl.
  destruct (decide (PROTOCOL_VERSION ≠ PROTOCOL_VERSION)) as [Hne|_]; [done|].
  unfold touched, mark_alive, register_online. prims.
  destruct (dispatchers s !! hostname) as [w|] eqn:Hw; simpl;
    destruct (decide (action = "HELLO")) as [->|Hretry]; prims;
    rewrite ?_cancel_slave_dispatcher_jobs_run; prims;
    rewrite ?Hw, ?lookup_insert_eq; prims; rewrite ?insert_insert_eq;
    eexists; (split; [reflexivity|]); project;
    rewrite ?sent_cancel_events; done.
Qed.

Lemma objects_filter_spec hostname d job :
  In job (objects_filter hostname d)
  ↔ In job d
    ∧ (TestJob.actual_device job ≫= Device.worker_host) = Some hostname
    ∧ TestJob.is_pipeline job = true
    ∧ TestJob.status job = TestJob.RUNNING.
Proof.
  unfold objects_filter, running_pipeline_on. rewrite List.filter_In.
  rewrite !andb_true_iff, !bool_decide_eq_true. tauto.
Qed.

(** C3: a HELLO of the right version cancels the running pipeline jobs of
    the worker inside one transaction: the statements run on the database
    are one [Begin], the query, one [cancel_job] for each job the query
    returned (those of the table that are RUNNING, pipeline, with
    [actual_device.worker_host] the sender) and one [Commit], and the
    table is the result of those calls.  A HELLO_RETRY runs no statement
    and leaves the table, so the running jobs of the worker, as they were. *)
Theorem hello_cancels_hello_retry_does_not
    (hostname v : string) (rest : list string) (s : State) :
  Py.int v = Some PROTOCOL_VERSION →
  let fresh := controler_socket (hostname :: "HELLO" :: v :: rest) s in
  let retry := controler_socket (hostname :: "HELLO_RETRY" :: v :: rest) s in
  let running := objects_filter hostname (db s) in
  (∀ job, In job running
          ↔ In job (db s)
            ∧ (TestJob.actual_device job ≫= Device.worker_host) = Some hostname
            ∧ TestJob.is_pipeline job = true
            ∧ TestJob.status job = TestJob.RUNNING)
  ∧ fresh.1 = Ok true
  ∧ statements (trace fresh.2)
    = statements (trace s)
      ++ [Begin; Db (Filter hostname)]
      ++ List.map (fun job => Db (CancelJob (TestJob.id job))) running
      ++ [Commit]
  ∧ db fresh.2 = foldl (fun d job => (cancel_job job d).2) (db s) running
  ∧ retry.1 = Ok true
  ∧ statements (trace retry.2) = statements (trace s)
  ∧ db retry.2 = db s
  ∧ objects_filter hostname (db retry.2) = running.
Proof.
  intros Hv. simpl.
  split; [intros job; apply objects_filter_spec|].
  destruct (hello_run hostname "HELLO" v rest s) as (evs & -> & _ & Hst);
    [by left|done|].
  destruct (hello_run hostname "HELLO_RETRY" v rest s) as (evs' & -> & _ & Hst');
    [by right|done|].
  simpl in *. project. rewrite Hst, Hst', statements_cancel_events, app_nil_r.
  done.
Qed.

(** A message of one of those verbs that the handler accepted (it returned
    [True]): the sender's entry is [touched], and the STATUS requests on
    the socket are those of [dispatcher_alive], which the HELLO branch
    does not call. *)
Lemma accepted_run hostname action rest s :
  In action verbs →
  (controler_socket (hostname :: action :: rest) s).1 = Ok true →
  ∃ d evs,
    controler_socket (hostname :: action :: rest) s
    = (Ok true,
       set_dispatchers (<[hostname := touched hostname s]> (dispatchers s))
                       (set_db d (add_events evs s)))
    ∧ with_verb "STATUS" (sent evs)
      = if decide (action = "HELLO" ∨ action = "HELLO_RETRY") then []
        else status_requests hostname s d.
Proof.
  intros Hverb.
  assert (Hhello : action = "HELLO" ∨ action = "HELLO_RETRY" →
    (controler_socket (hostname :: action :: rest) s).1 = Ok true →
    ∃ v rest', rest = v :: rest' ∧ Py.int v = Some PROTOCOL_VERSION).
  { intros Ha. unfold controler_socket, frame. prims.
    destruct (decide (action = "HELLO" ∨ action = "HELLO_RETRY")); [|done].
    unfold hello, int_frame, invalid_message. prims.
    destruct rest as [|v rest']; simpl; [done|].
    destruct (Py.int v) as [n|] eqn:Hv; simpl; [|done].
    destruct (decide (n ≠ PROTOCOL_VERSION)) as [|Hn]; simpl; [done|].
    intros _. exists v, rest'. split; [done|]. rewrite Hv. f_equal.
    destruct (decide (n = PROTOCOL_VERSION)); [done|by destruct Hn]. }
  simpl in Hverb.
  destruct Hverb as [<-|[<-|[<-|[<-|[<-|[]]]]]]; intros Hacc.
  - destruct Hhello as (v & rest' & -> & Hv); [by left|done|].
    destruct (hello_run hostname "HELLO" v rest' s) as (evs & -> & Hsent & _);
      [by left|done|].
    eexists _, _. split; [reflexivity|]. by rewrite Hsent.
  - destruct Hhello as (v & rest' & -> & Hv); [by right|done|].
    destruct (hello_run hostname "HELLO_RETRY" v rest' s) as (evs & -> & Hsent & _);
      [by right|done|].
    eexists _, _. split; [reflexivity|]. by rewrite Hsent.
  - destruct (ping_run hostname rest s) as (evs & -> & Hsent).
    exists (db s), evs. split; [by destruct s|].
    rewrite Hsent. project. by rewrite with_verb_status_requests.
  - assert (∃ sid scode error_msg description rest' job_id job_status,
              rest = sid :: scode :: error_msg :: description :: rest'
              ∧ Py.int sid = Some job_id ∧ Py.int scode = Some job_status)
      as (sid & scode & error_msg & description & rest' & job_id & job_status
          & -> & Hid & Hcode).
    { revert Hacc. unfold controler_socket, frame. prims.
      unfold end_, int_frame, invalid_message.
      destruct rest as [|sid [|scode [|error_msg [|description rest']]]];
        simpl; try done.
      all: destruct (Py.int sid) as [job_id|] eqn:Hid; simpl; try done.
      all: destruct (Py.int scode) as [job_status|] eqn:Hcode; simpl; try done.
      intros _. by eexists _, _, _, _, _, _, _. }
    destruct (end_run hostname sid scode error_msg description rest'
                      job_id job_status s Hid Hcode) as (d & evs & -> & Hsent & _).
    eexists _, _. split; [reflexivity|].
    rewrite Hsent. project. by rewrite with_verb_status_requests.
  - assert (∃ sid rest' job_id, rest = sid :: rest' ∧ Py.int sid = Some job_id)
      as (sid & rest' & job_id & -> & Hid).
    { revert Hacc. unfold controler_socket, frame. prims.
      unfold start_ok, int_frame, invalid_message.
      destruct rest as [|sid rest']; simpl; try done.
      destruct (Py.int sid) as [job_id|] eqn:Hid; simpl; try done.
      intros _. by eexists _, _, _. }
    destruct (start_ok_run hostname sid rest' job_id s Hid) as (d & evs & -> & Hsent & _).
    eexists _, _. split; [reflexivity|].
    rewrite Hsent. by rewrite with_verb_status_requests.
Qed.

(** C1: a well-formed END is answered by one END_OK carrying the job id,
    addressed to the worker that sent it, whether the job exists or not:
    the handler returns [True]; what it writes to the control socket is
    that END_OK and then, when the worker was not in the registry, the
    STATUS requests of [dispatcher_alive], so the END_OK messages of the
    socket grow by exactly that one; and for an unknown job id the job
    table is left as it was. *)
Theorem end_acknowledged_once
    (hostname sid scode error_msg description : string) (rest : list string)
    (job_id job_status : Z) (s : State) :
  Py.int sid = Some job_id →
  Py.int scode = Some job_status →
  let r := controler_socket
             (hostname :: "END" :: sid :: scode :: error_msg :: description :: rest) s in
  r.1 = Ok true
  ∧ sent (trace r.2)
    = sent (trace s) ++ [hostname; "END_OK"; Py.str job_id]
      :: (if decide (is_Some (dispatchers s !! hostname)) then []
          else List.map (fun job => [hostname; "STATUS"; Py.str (TestJob.id job)])
                        (objects_filter hostname (db r.2)))
  ∧ with_verb "END_OK" (sent (trace r.2))
    = with_verb "END_OK" (sent (trace s)) ++ [[hostname; "END_OK"; Py.str job_id]]
  ∧ (objects_get job_id (db s) = None → db r.2 = db s).
Proof.
  intros Hid Hcode. simpl.
  destruct (end_run hostname sid scode error_msg description rest
                    job_id job_status s Hid Hcode) as (d & evs & -> & Hsent & Hdb).
  simpl. project. rewrite Hsent. project.
  rewrite with_verb_status_requests. simpl.
  unfold status_requests.
  destruct (dispatchers s !! hostname) as [w|] eqn:Hw; simpl; done.
Qed.

(** C4: a message from a worker that the registry holds as off line does
    set its [last_msg] to the current time, but its [online] flag stays
    [False]: [alive] writes [last_msg] only, and no branch of the handler
    writes [online] on an entry that exists.  This holds for every verb
    the handler accepts. *)
Theorem offline_worker_stays_offline
    (hostname action : string) (rest : list string) (w : SlaveDispatcher.t)
    (s : State) :
  dispatchers s !! hostname = Some w →
  SlaveDispatcher.online w = false →
  In action verbs →
  let r := controler_socket (hostname :: action :: rest) s in
  r.1 = Ok true →
  dispatchers r.2 !! hostname
  = Some (SlaveDispatcher.mk (SlaveDispatcher.hostname w) (clock s) false).
Proof.
  intros Hw Hoff Hverb r Hacc. subst r.
  destruct (accepted_run hostname action rest s Hverb Hacc) as (d & evs & -> & _).
  simpl. rewrite lookup_insert_eq. unfold touched. rewrite Hw.
  unfold SlaveDispatcher.alive. by rewrite Hoff.
Qed.

(** C7, as the code has it: a message the handler accepts from a worker
    the registry does not hold registers the worker, on line, with the
    current time.  For PING, END and START_OK the STATUS requests written
    to the socket are one for each RUNNING pipeline job of the table (as
    the handler leaves it) whose device belongs to the worker; for HELLO
    and HELLO_RETRY no STATUS request is written. *)
Theorem unknown_worker_is_registered
    (hostname action : string) (rest : list string) (s : State) :
  dispatchers s !! hostname = None →
  In action verbs →
  let r := controler_socket (hostname :: action :: rest) s in
  r.1 = Ok true →
  dispatchers r.2 !! hostname = Some (SlaveDispatcher.mk hostname (clock s) true)
  ∧ with_verb "STATUS" (sent (trace r.2))
    = with_verb "STATUS" (sent (trace s))
      ++ (if decide (action = "HELLO" ∨ action = "HELLO_RETRY") then []
          else List.map (fun job => [hostname; "STATUS"; Py.str (TestJob.id job)])
                        (objects_filter hostname (db r.2))).
Proof.
  intros Hw Hverb r Hacc. subst r.
  destruct (accepted_run hostname action rest s Hverb Hacc) as (d & evs & -> & Hst).
  simpl. rewrite lookup_insert_eq. unfold touched. rewrite Hw.
  split; [done|]. project. rewrite Hst.
  unfold status_requests. by rewrite Hw.
Qed.

(** ** Log ingestion *)


Lemma append_cons a s t : String a s +:+ t = String a (s +:+ t).
Proof. reflexivity. Qed.

Lemma contains_append c s t :
  Py.contains c (s +:+ t) = Py.contains c s || Py.contains c t.
Proof.
  induction s as [|a s IH]; [done|].
  rewrite append_cons. simpl. by destruct (decide (a = c)).
Qed.

Lemma contains_split_head c sep s :
  Py.contains c s = false → Py.contains c (Py.split_head sep s) = false.
Proof.
  induction s as [|a s IH]; simpl; [done|].
  destruct (decide (a = c)); [done|]. intros Hs.
  destruct (decide (a = sep)); simpl; [done|].
  destruct (decide (a = c)); [done|]. by apply IH.
Qed.

Lemma subscript_exn obj k e :
  subscript obj k = inl e → e = KeyError ∨ e = TypeError.
Proof.
  destruct obj; simpl; try (intros [= <-]; by right).
  destruct (dict_get k pairs); [done|]. intros [= <-]. by left.
Qed.

(** C8: a frame whose level or name holds a slash never gets as far as
    the handlers: the table of handlers is as it was, with no file event
    and no statement on the database.  But it is not always dropped: the
    check comes after the subscripts [scanned["lvl"]] and
    [scanned["msg"]], so the frame is dropped (with an error logged) when
    its record is no YAML or is a mapping, and when the record is
    anything else the [TypeError] of the subscript, which nothing catches,
    ends the loop with nothing logged.  For a frame without slash, the two
    path components that the level and the name make up,
    [level.split('.')[0]] and ["%s-%s.yaml" % (level, name)], hold no
    slash. *)
Theorem slash_frames_never_reach_the_files
    (job_id level name message : string) (s : State) :
  let r := logging_socket [job_id; level; name; message] s in
  if Py.contains "/" level || Py.contains "/" name then
    match yaml_load message with
    | None | Some (YMap _) => r.1 = Ok Dropped
    | Some _ => r = (Raise TypeError, s)
    end
    ∧ logging_jobs r.2 = logging_jobs s
    ∧ file_events (trace r.2) = file_events (trace s)
    ∧ statements (trace r.2) = statements (trace s)
  else
    Py.contains "/" (Py.split_head "." level) = false
    ∧ Py.contains "/" (level +:+ "-" +:+ name +:+ ".yaml") = false.
Proof.
  cbv zeta.
  destruct (Py.contains "/" level || Py.contains "/" name) eqn:Hslash.
  - unfold logging_socket.
    destruct (yaml_load message) as [scanned|]; prims.
    2: { project. rewrite !app_nil_r. tauto. }
    destruct scanned as [|b|n|x|t|l|d]; try (simpl; tauto).
    destruct (subscript (YMap d) "lvl") as [e|lvl] eqn:Hlvl.
    { simpl in Hlvl. destruct (dict_get "lvl" d); [done|].
      injection Hlvl as <-. prims. project. rewrite !app_nil_r. tauto. }
    destruct (subscript (YMap d) "msg") as [e|msg] eqn:Hmsg.
    { simpl in Hmsg. destruct (dict_get "msg" d); [done|].
      injection Hmsg as <-. prims. project. rewrite !app_nil_r. tauto. }
    rewrite Hslash. prims. project. rewrite !app_nil_r. tauto.
  - apply orb_false_iff in Hslash as [Hlevel Hname].
    split; [by apply contains_split_head|].
    rewrite !contains_append, Hlevel, Hname. reflexivity.
Qed.

(** A frame that was written, for a job that had a handler. *)
Lemma written_run job_id level name message h s :
  logging_jobs s !! job_id = Some h →
  (logging_socket [job_id; level; name; message] s).1 = Ok Written →
  ∃ d evs,
    logging_socket [job_id; level; name; message] s
    = (Ok Written,
       mkState (dispatchers s) (jobs s)
               (if decide (level ≠ JobHandler.current_level h) then Some level
                else current_level s)
               (<[job_id := JobHandler.set_last_usage (clock s) (rotated h level name)]>
                  (logging_jobs s))
               (last_db_access s) d (clock s)
               (trace s ++ rotation h level name ++ evs
                ++ List.map (fun w => FWrite w.1 w.2)
                            (record (rotated h level name) message)))
    ∧ file_events evs = [].
Proof.
  intros Hh. unfold logging_socket.
  destruct (yaml_load message) as [scanned|]; prims; [|done].
  destruct (subscript scanned "lvl") as [e|lvl] eqn:Hlvl;
    [apply subscript_exn in Hlvl as [-> | ->]; prims; done|].
  destruct (subscript scanned "msg") as [e|msg] eqn:Hmsg;
    [apply subscript_exn in Hmsg as [-> | ->]; prims; done|].
  destruct (Py.contains "/" level || Py.contains "/" name); prims; [done|].
  unfold find_handler, results, write_record, objects_get_frame, JobHandler_write,
    rotation, rotated.
  prims. rewrite Hh.
  destruct (decide (level ≠ JobHandler.current_level h)); prims.
  all: destruct (eq_str lvl "results"); prims.
  all: try (destruct (Py.int job_id) as [pk|]; prims; [|done];
            destruct (objects_get pk (db s)) as [job|]; prims; [|done];
            destruct (map_scanned_results msg job (create_metadata_store msg job level)
                                          (db s)) as [[] d'];
            prims).
  all: rewrite ?lookup_insert_eq, ?Hh; prims; rewrite ?insert_insert_eq.
  all: intros _.
  all: match goal with
       | |- context [Log WARNING ?f ?a] =>
           eexists _, [Db (Get _); Db (MapScannedResults _); Log WARNING f a]
       | |- context [Db (MapScannedResults ?i)] =>
           eexists _, [Db (Get _); Db (MapScannedResults i)]
       | |- _ => eexists _, []
       end.
  all: split; [reflexivity|done].
Qed.

(** C6: when a frame of a new level is written for a job that has a
    handler, the sub-log is reopened on the file of the new level, but the
    level the handler holds is not touched: the assignment goes to
    [self.current_level], an attribute of the command.  The handler still
    holds the old level, so the next frame of the same new level rotates
    once more. *)
Theorem rotation_leaves_handler_level
    (job_id level name message : string) (h : JobHandler.t) (s : State) :
  logging_jobs s !! job_id = Some h →
  level ≠ JobHandler.current_level h →
  let r := logging_socket [job_id; level; name; message] s in
  r.1 = Ok Written →
  ∃ h',
    logging_jobs r.2 !! job_id = Some h'
    ∧ JobHandler.sub_log h' = sub_log_filename (JobHandler.output_dir h) level name
    ∧ JobHandler.current_level h' = JobHandler.current_level h
    ∧ current_level r.2 = Some level
    ∧ rotation h' level name
      = [FClose (JobHandler.sub_log h');
         Mkdir (Py.dirname (JobHandler.sub_log h'));
         FOpen "a+" (JobHandler.sub_log h')].
Proof.
  intros Hh Hlevel r Hacc. subst r.
  destruct (written_run job_id level name message h s Hh Hacc) as (d & evs & -> & _).
  simpl. rewrite lookup_insert_eq. eexists. split; [reflexivity|].
  unfold rotated, rotation. simpl.
  destruct (decide (level ≠ JobHandler.current_level h)); [|done]. simpl.
  destruct (decide (level ≠ JobHandler.current_level h)); done.
Qed.

(** ** Main loop *)

Lemma keeps_bind {A B X} (proj : State → X) (m : M A) (k : A → M B) :
  keeps proj m → (∀ a, keeps proj (k a)) → keeps proj (bind m k).
Proof.
  intros Hm Hk s. unfold bind. specialize (Hm s).
  destruct (m s) as [[a|e] s']; simpl in *; [|done].
  by rewrite Hk.
Qed.

Lemma keeps_for_each {A X} (proj : State → X) (l : list A) (body : A → M unit) :
  (∀ x, keeps proj (body x)) → keeps proj (for_each l body).
Proof.
  intros Hbody. induction l as [|x l IH]; simpl; [done|].
  apply keeps_bind; [apply Hbody|done].
Qed.

Ltac keeps_step :=
  match goal with
  | |- keeps _ (bind _ _) => apply keeps_bind; [|intros ?]
  | |- keeps _ (for_each _ _) => apply keeps_for_each; intros ?
  | |- keeps _ (match ?x with _ => _ end) => destruct x
  | |- keeps _ _ => by intros ?
  end.

Ltac keeps_all :=
  unfold handle, read_signal, serve, dispatch, emit_all, handle_canceling, check_dispatchers,
    garbage_collect, controler_socket, frame, hello, ping, end_, start_ok,
    start_job_block, finalise, dump_description, invalid_message,
    _cancel_slave_dispatcher_jobs, dispatcher_alive, mark_alive, register_online,
    send_status, call_db, logging_socket, find_handler, results, write_record,
    objects_get_frame, new_JobHandler, JobHandler_write, log, send_multipart, mkdir;
  repeat keeps_step.

(** The main loop never touches the handlers of the logging thread. *)
Lemma handle_keeps_logging_jobs p : keeps logging_jobs (handle p).
Proof. keeps_all. Qed.

(** The logging thread never touches [self.jobs]. *)
Lemma logging_socket_keeps_jobs msg : keeps jobs (logging_socket msg).
Proof. keeps_all. Qed.

Lemma serve_keeps_jobs p : keeps jobs (serve p).
Proof. keeps_all. Qed.

Lemma garbage_collect_nothing s :
  jobs s = ∅ → garbage_collect s = (Ok tt, s).
Proof.
  intros Hjobs. unfold garbage_collect. prims.
  rewrite Hjobs, map_to_list_empty. reflexivity.
Qed.

(** C5: the pass that closes idle log files reads [self.jobs], and the
    logging thread keeps its handlers in a table of its own: [self.jobs]
    is empty when the process starts and a turn of the logging thread
    leaves it empty, so the pass finds nothing to close, whatever the
    time; and a turn of the main loop leaves the handlers of the logging
    thread as they were, however long they have been idle. *)
Theorem garbage_collection_misses_logging_handlers
    (p : polled) (msg : list string) (s : State) :
  jobs s = ∅ →
  jobs (logging_socket msg s).2 = ∅
  ∧ garbage_collect s = (Ok tt, s)
  ∧ logging_jobs (handle p s).2 = logging_jobs s
  ∧ jobs (handle p s).2 = ∅.
Proof.
  intros Hjobs.
  split; [by rewrite logging_socket_keeps_jobs|].
  split; [by apply garbage_collect_nothing|].
  split; [apply handle_keeps_logging_jobs|].
  unfold handle, read_signal.
  destruct (signum p) as [n|]; [destruct (decide (n = SIGHUP))|]; prims; try done.
  all: rewrite garbage_collect_nothing by done.
  all: by rewrite serve_keeps_jobs.
Qed.

(** ** Definition export *)






(** ** More on the control plane *)

(** A message the handler turns down ([False]) leaves everything but the
    log as it was. *)
Lemma rejected_run msg s :
  (controler_socket msg s).1 = Ok false →
  ∃ evs,
    controler_socket msg s = (Ok false, add_events evs s)
    ∧ sent evs = [] ∧ statements evs = [] ∧ file_events evs = [].
Proof.
  destruct msg as [|hostname [|action rest]]; [done..|].
  destruct (decide (action = "PING")) as [->|Hping].
  { destruct (ping_run hostname rest s) as (evs & -> & _). done. }
  destruct (decide (action = "HELLO" ∨ action = "HELLO_RETRY")) as [Hhello|Hhello].
  { destruct rest as [|v rest'].
    - intros _. unfold controler_socket, frame. prims.
      destruct (decide (action = "HELLO" ∨ action = "HELLO_RETRY")); [|done].
      unfold hello, int_frame, invalid_message. prims.
      eexists. split; [reflexivity|]. by project.
    - destruct (Py.int v) as [n|] eqn:Hv.
      + destruct (decide (n = PROTOCOL_VERSION)) as [->|Hn].
        * destruct (hello_run hostname action v rest' s Hhello Hv) as (evs & -> & _).
          done.
        * intros _. unfold controler_socket, frame. prims.
          destruct (decide (action = "HELLO" ∨ action = "HELLO_RETRY")); [|done].
          unfold hello, int_frame, invalid_message. prims. rewrite Hv. simpl.
          destruct (decide (n ≠ PROTOCOL_VERSION)); [|done]. prims.
          eexists. split; [reflexivity|]. by project.
      + intros _. unfold controler_socket, frame. prims.
        destruct (decide (action = "HELLO" ∨ action = "HELLO_RETRY")); [|done].
        unfold hello, int_frame, invalid_message. prims. rewrite Hv. prims.
        eexists. split; [reflexivity|]. by project. }
  destruct (decide (action = "END")) as [->|Hend].
  { destruct rest as [|sid [|scode [|error_msg [|description rest']]]].
    5: destruct (Py.int sid) as [job_id|] eqn:Hid;
       [destruct (Py.int scode) as [job_status|] eqn:Hcode|].
    5: { destruct (end_run hostname sid scode error_msg description rest'
                           job_id job_status s Hid Hcode) as (d & evs & -> & _).
         done. }
    all: intros _; unfold controler_socket, frame; prims.
    all: unfold end_, int_frame, invalid_message; prims.
    all: rewrite ?Hid, ?Hcode; simpl.
    all: repeat match goal with
           | |- context [Py.int ?x] => destruct (Py.int x); simpl
         end.
    all: prims; eexists; (split; [reflexivity|]); by project. }
  destruct (decide (action = "START_OK")) as [->|Hstart].
  { destruct rest as [|sid rest'].
    2: destruct (Py.int sid) as [job_id|] eqn:Hid.
    2: { destruct (start_ok_run hostname sid rest' job_id s Hid)
           as (d & evs & -> & _). done. }
    all: intros _; unfold controler_socket, frame; prims.
    all: unfold start_ok, int_frame, invalid_message; prims.
    all: rewrite ?Hid; simpl.
    all: prims; eexists; (split; [reflexivity|]); by project. }
  unfold controler_socket, frame. prims.
  destruct (decide (action = "HELLO" ∨ action = "HELLO_RETRY")); [done|].
  destruct (decide (action = "PING")); [done|].
  destruct (decide (action = "END")); [done|].
  destruct (decide (action = "START_OK")); [done|].
  done.
Qed.

Lemma malformed_rejected hostname action rest s :
  malformed action rest →
  (controler_socket (hostname :: action :: rest) s).1 = Ok false.
Proof.
  intros Hbad. unfold controler_socket, frame. prims.
  destruct Hbad as [[Ha Hv]|[[-> Hbad]|[-> Hid]]].
  - destruct (decide (action = "HELLO" ∨ action = "HELLO_RETRY")); [|done].
    unfold hello, int_frame, invalid_message. prims. by rewrite Hv.
  - simpl. unfold end_, int_frame, invalid_message. simpl.
    destruct Hbad as [Hid|[Hcode|Hlen]].
    + by rewrite Hid.
    + rewrite Hcode. by destruct (rest !! 0%nat ≫= Py.int).
    + destruct rest as [|a [|b [|c [|d rest']]]]; simpl in *; try lia.
      all: repeat match goal with
             | |- context [Py.int ?x] => destruct (Py.int x); simpl
           end; done.
  - simpl. unfold start_ok, int_frame, invalid_message. simpl. by rewrite Hid.
Qed.

Lemma unknown_action_run hostname action rest s :
  ¬ In action verbs →
  controler_socket (hostname :: action :: rest) s
  = (Ok true,
     add_events [Log ERROR "<%s> sent unknown action=%s, args=(%s)"
                     (hostname :: action :: action :: rest)] s).
Proof.
  intros Hverb. unfold controler_socket, frame. prims.
  unfold verbs in Hverb. simpl in Hverb.
  destruct (decide (action = "HELLO" ∨ action = "HELLO_RETRY")) as [[->| ->]|_];
    [tauto..|].
  destruct (decide (action = "PING")) as [->|_]; [tauto|].
  destruct (decide (action = "END")) as [->|_]; [tauto|].
  destruct (decide (action = "START_OK")) as [->|_]; [tauto|].
  by prims.
Qed.

(** X1: a HELLO or HELLO_RETRY without a version that [int] accepts, an
    END that lacks one of its four frames or whose job id or exit code
    [int] refuses, and a START_OK without a job id that [int] accepts are
    turned down: the handler returns [False], sends nothing, and leaves
    the registry (so the sender is neither registered nor marked alive)
    and the job table as they were, with no statement run on the
    database and no file touched. *)
Theorem malformed_message_is_ignored
    (hostname action : string) (rest : list string) (s : State) :
  malformed action rest →
  let r := controler_socket (hostname :: action :: rest) s in
  r.1 = Ok false
  ∧ sent (trace r.2) = sent (trace s)
  ∧ statements (trace r.2) = statements (trace s)
  ∧ file_events (trace r.2) = file_events (trace s)
  ∧ dispatchers r.2 = dispatchers s
  ∧ db r.2 = db s.
Proof.
  intros Hbad r.
  pose proof (malformed_rejected hostname action rest s Hbad) as Hret.
  fold r in Hret.
  split; [done|].
  destruct (rejected_run _ _ Hret) as (evs & Hrun & Hsent & Hst & Hfiles).
  subst r. rewrite Hrun. simpl. project.
  rewrite Hsent, Hst, Hfiles, !app_nil_r. done.
Qed.

(** X2: a verb the handler does not know is logged and nothing else
    happens: the handler returns [True], sends nothing and does not
    touch the registry, so a worker is neither registered nor marked
    alive by it. *)
Theorem unknown_action_is_ignored
    (hostname action : string) (rest : list string) (s : State) :
  ¬ In action verbs →
  let r := controler_socket (hostname :: action :: rest) s in
  r.1 = Ok true
  ∧ sent (trace r.2) = sent (trace s)
  ∧ statements (trace r.2) = statements (trace s)
  ∧ dispatchers r.2 = dispatchers s
  ∧ db r.2 = db s.
Proof.
  intros Hverb. simpl. rewrite unknown_action_run by done.
  simpl. project. by rewrite !app_nil_r.
Qed.

(** A message of one of the five verbs is malformed, or a HELLO with a
    version, or a PING, or an END or a START_OK with all it needs. *)
Lemma verb_cases action rest :
  In action verbs →
  malformed action rest
  ∨ ((action = "HELLO" ∨ action = "HELLO_RETRY")
     ∧ ∃ v rest' n, rest = v :: rest' ∧ Py.int v = Some n)
  ∨ action = "PING"
  ∨ (action = "END"
     ∧ ∃ sid scode error_msg description rest' job_id job_status,
         rest = sid :: scode :: error_msg :: description :: rest'
         ∧ Py.int sid = Some job_id ∧ Py.int scode = Some job_status)
  ∨ (action = "START_OK"
     ∧ ∃ sid rest' job_id, rest = sid :: rest' ∧ Py.int sid = Some job_id).
Proof.
  unfold verbs, malformed. simpl.
  intros [<-|[<-|[<-|[<-|[<-|[]]]]]].
  - destruct rest as [|v rest']; [left; left; by split; [left|]|].
    destruct (Py.int v) as [n|] eqn:Hv.
    + right; left. split; [by left|]. by exists v, rest', n.
    + left; left. split; [by left|done].
  - destruct rest as [|v rest']; [left; left; by split; [right|]|].
    destruct (Py.int v) as [n|] eqn:Hv.
    + right; left. split; [by right|]. by exists v, rest', n.
    + left; left. split; [by right|done].
  - tauto.
  - destruct rest as [|sid [|scode [|error_msg [|description rest']]]].
    1-4: left; right; left; split; [done|]; right; right; simpl; lia.
    destruct (Py.int sid) as [job_id|] eqn:Hid.
    2: { left; right; left. split; [done|]. left. simpl. by rewrite Hid. }
    destruct (Py.int scode) as [job_status|] eqn:Hcode.
    2: { left; right; left. split; [done|]. right; left. simpl. by rewrite Hcode. }
    do 3 right. left. split; [done|]. by eexists _, _, _, _, _, _, _.
  - destruct rest as [|sid rest'].
    { left; right; right. by split. }
    destruct (Py.int sid) as [job_id|] eqn:Hid.
    + do 4 right. split; [done|]. by eexists _, _, _.
    + left; right; right. split; [done|]. simpl. by rewrite Hid.
Qed.

(** What a message can do to the registry: nothing, or [touched] for its
    first frame. *)
Lemma controler_socket_registry msg s :
  dispatchers (controler_socket msg s).2 = dispatchers s
  ∨ ∃ hostname,
      msg !! 0%nat = Some hostname
      ∧ dispatchers (controler_socket msg s).2
        = <[hostname := touched hostname s]> (dispatchers s).
Proof.
  destruct msg as [|hostname [|action rest]]; [by left..|].
  destruct (decide (In action verbs)) as [Hverb|Hverb].
  2: { left. by rewrite unknown_action_run. }
  destruct (verb_cases action rest Hverb)
    as [Hbad|[[Ha (v & rest' & n & -> & Hv)]|[->|[[-> Hend]|[-> Hstart]]]]].
  - left. pose proof (malformed_rejected hostname action rest s Hbad) as Hret.
    destruct (rejected_run _ _ Hret) as (evs & -> & _). done.
  - destruct (decide (n = PROTOCOL_VERSION)) as [->|Hn].
    + right. exists hostname. split; [done|].
      destruct (hello_run hostname action v rest' s Ha Hv) as (evs & -> & _). done.
    + left.
      assert (Hret : (controler_socket (hostname :: action :: v :: rest') s).1
                     = Ok false).
      { unfold controler_socket, frame. prims.
        destruct (decide (action = "HELLO" ∨ action = "HELLO_RETRY")); [|done].
        unfold hello, int_frame. prims. rewrite Hv. simpl.
        by destruct (decide (n ≠ PROTOCOL_VERSION)). }
      destruct (rejected_run _ _ Hret) as (evs & -> & _). done.
  - right. exists hostname. split; [done|].
    destruct (ping_run hostname rest s) as (evs & -> & _). done.
  - destruct Hend as (sid & scode & error_msg & description & rest' & job_id
                      & job_status & -> & Hid & Hcode).
    right. exists hostname. split; [done|].
    destruct (end_run hostname sid scode error_msg description rest'
                      job_id job_status s Hid Hcode) as (d & evs & -> & _). done.
  - destruct Hstart as (sid & rest' & job_id & -> & Hid).
    right. exists hostname. split; [done|].
    destruct (start_ok_run hostname sid rest' job_id s Hid) as (d & evs & -> & _).
    done.
Qed.

(** X4: a control message changes no entry of the registry but the one
    of its sender (its first frame). *)
Theorem other_workers_are_untouched
    (msg : list string) (hostname : string) (s : State) :
  msg !! 0%nat ≠ Some hostname →
  dispatchers (controler_socket msg s).2 !! hostname = dispatchers s !! hostname.
Proof.
  intros Hother.
  destruct (controler_socket_registry msg s) as [->|(sender & Hsender & ->)];
    [done|].
  apply lookup_insert_ne. congruence.
Qed.

(** X5: no control message removes a worker from the registry, and the
    entry kept under a name carries that name when it did before. *)
Theorem registry_never_shrinks
    (msg : list string) (hostname : string) (w : SlaveDispatcher.t) (s : State) :
  dispatchers s !! hostname = Some w →
  ∃ w',
    dispatchers (controler_socket msg s).2 !! hostname = Some w'
    ∧ SlaveDispatcher.hostname w' = SlaveDispatcher.hostname w
    ∧ SlaveDispatcher.online w' = SlaveDispatcher.online w
    ∧ (SlaveDispatcher.last_msg w' = SlaveDispatcher.last_msg w
       ∨ SlaveDispatcher.last_msg w' = clock s).
Proof.
  intros Hw.
  destruct (controler_socket_registry msg s) as [->|(sender & Hsender & ->)].
  { exists w. tauto. }
  destruct (decide (sender = hostname)) as [->|Hne].
  - rewrite lookup_insert_eq. unfold touched. rewrite Hw.
    eexists. split; [reflexivity|]. simpl. tauto.
  - rewrite lookup_insert_ne by done. exists w. tauto.
Qed.

(** ** More on the main loop *)

Lemma sweep_loop_run now (l : list (string * SlaveDispatcher.t)) s :
  for_each l (fun '(hostname, dispatcher) =>
    if SlaveDispatcher.online dispatcher
       && bool_decide (now - SlaveDispatcher.last_msg dispatcher > DISPATCHER_TIMEOUT)
    then
      log ERROR "[STATE] Dispatcher <%s> goes OFFLINE" [hostname] ;;
      ds <- read_dispatchers ;;
      write_dispatchers (alter (SlaveDispatcher.set_online false) hostname ds)
    else ret tt) s
  = (Ok tt, set_dispatchers (sweep_items now l (dispatchers s))
                            (add_events (sweep_log now l) s)).
Proof.
  revert s. induction l as [|[hostname d] l IH]; intros s.
  - simpl. prims. rewrite app_nil_r. by destruct s.
  - simpl.
    destruct (SlaveDispatcher.online d
              && bool_decide (now - SlaveDispatcher.last_msg d > DISPATCHER_TIMEOUT));
      prims; rewrite IH; prims; reflexivity.
Qed.

Lemma sweep_items_lookup now (l : list (string * SlaveDispatcher.t)) m k :
  NoDup l.*1 →
  (∀ k v, (k, v) ∈ l → m !! k = Some v) →
  sweep_items now l m !! k
  = if decide (k ∈ l.*1) then swept now <$> m !! k else m !! k.
Proof.
  revert m. induction l as [|[k0 v0] l IH]; intros m Hnodup Hl; simpl.
  { by destruct (decide (k ∈ [])) as [?%elem_of_nil|]. }
  apply NoDup_cons in Hnodup as [Hk0 Hnodup].
  set (m' := if SlaveDispatcher.online v0
                && bool_decide (now - SlaveDispatcher.last_msg v0 > DISPATCHER_TIMEOUT)
             then alter (SlaveDispatcher.set_online false) k0 m else m).
  assert (Hm' : ∀ k, k ≠ k0 → m' !! k = m !! k).
  { intros k' Hk'. subst m'.
    destruct (_ && _); [|done]. by rewrite lookup_alter_ne. }
  assert (Hm0 : m !! k0 = Some v0) by (apply Hl; left).
  fold (sweep_items now l m'). rewrite IH; [|done|].
  2: { intros k' v' Hin. rewrite Hm'; [apply Hl; by right|].
       intros ->. apply Hk0. apply list_elem_of_fmap. by exists (k0, v'). }
  destruct (decide (k = k0)) as [->|Hne].
  - destruct (decide (k0 ∈ l.*1)); [done|].
    subst m'. rewrite Hm0. unfold swept. simpl.
    match goal with |- context [decide (?x ∈ ?l')] =>
      destruct (decide (x ∈ l')) as [_|Hn]; [|destruct Hn; left]
    end.
    destruct (_ && _); [|done]. by rewrite lookup_alter_eq, Hm0.
  - rewrite Hm' by done.
    match goal with |- context [decide (k ∈ ?x :: ?l')] =>
      destruct (decide (k ∈ x :: l')) as [Hin'|Hin']
    end;
    destruct (decide (k ∈ l.*1)) as [Hin|Hin]; try done.
    + apply elem_of_cons in Hin' as [?|?]; done.
    + destruct Hin'. by right.
Qed.

Lemma check_dispatchers_run s :
  check_dispatchers s
  = (Ok tt, set_dispatchers (swept (clock s) <$> dispatchers s)
              (add_events (sweep_log (clock s) (map_to_list (dispatchers s))) s)).
Proof.
  unfold check_dispatchers.
  rewrite (bind_run time_time _ s (clock s) s eq_refl).
  rewrite (bind_run read_dispatchers _ s (dispatchers s) s eq_refl).
  rewrite sweep_loop_run. do 2 f_equal.
  apply map_eq. intros k.
  rewrite sweep_items_lookup.
  - rewrite lookup_fmap.
    destruct (decide (k ∈ (map_to_list (dispatchers s)).*1)) as [|Hk]; [done|].
    destruct (dispatchers s !! k) as [v|] eqn:Hv; [|done].
    destruct Hk. apply list_elem_of_fmap. exists (k, v).
    split; [done|]. by apply elem_of_map_to_list.
  - apply NoDup_fst_map_to_list.
  - intros k' v'. apply elem_of_map_to_list.
Qed.

Lemma sweep_log_quiet now l :
  sent (sweep_log now l) = [] ∧ statements (sweep_log now l) = []
  ∧ file_events (sweep_log now l) = [].
Proof.
  induction l as [|[k d] l (IH1 & IH2 & IH3)]; [done|].
  unfold sweep_log. simpl. fold (sweep_log now l).
  destruct (_ && _); simpl; project; done.
Qed.

(** X6: the pass [Check dispatchers status] at time [now] turns off
    line every worker that is on line and whose last message is more
    than [DISPATCHER_TIMEOUT] (30 s) old, and only those: a worker
    silent for exactly 30 s stays on line, a worker already off line is
    left alone.  It removes no entry, changes no [last_msg], sends
    nothing and runs nothing on the database. *)
Theorem check_dispatchers_sweeps (s : State) :
  let r := check_dispatchers s in
  r.1 = Ok tt
  ∧ dispatchers r.2 = swept (clock s) <$> dispatchers s
  ∧ (∀ hostname w,
       dispatchers s !! hostname = Some w →
       dispatchers r.2 !! hostname
       = Some (SlaveDispatcher.mk
                 (SlaveDispatcher.hostname w) (SlaveDispatcher.last_msg w)
                 (SlaveDispatcher.online w
                  && bool_decide (clock s - SlaveDispatcher.last_msg w ≤ 30)%Z)))
  ∧ dom (dispatchers r.2) = dom (dispatchers s)
  ∧ sent (trace r.2) = sent (trace s)
  ∧ statements (trace r.2) = statements (trace s)
  ∧ db r.2 = db s.
Proof.
  simpl. rewrite check_dispatchers_run. simpl.
  destruct (sweep_log_quiet (clock s) (map_to_list (dispatchers s)))
    as (Hsent & Hst & _).
  project. rewrite Hsent, Hst, !app_nil_r.
  split; [done|]. split; [done|]. split.
  - intros hostname w Hw. rewrite lookup_fmap, Hw. simpl. f_equal.
    unfold swept, DISPATCHER_TIMEOUT. destruct w as [hn lm [|]]; simpl; [|done].
    destruct (bool_decide (clock s - lm > 3 * 10)) eqn:Hgt.
    + apply bool_decide_eq_true in Hgt. rewrite bool_decide_false by lia. done.
    + apply bool_decide_eq_false in Hgt. rewrite bool_decide_true by lia. done.
  - split; [apply dom_fmap_L|done].
Qed.

Lemma collect_log_cons now k l (m : gmap string JobHandler.t) :
  collect_log now (k :: l) m
  = match m !! k with
    | Some h =>
        if decide (now - JobHandler.last_usage h > FD_TIMEOUT)
        then Log INFO "[%s] Closing log file" [k] :: closing h
        else []
    | None => []
    end ++ collect_log now l m.
Proof. reflexivity. Qed.

#[local] Arguments collect_log : simpl never.

Lemma collect_log_ext now l (m1 m2 : gmap string JobHandler.t) :
  (∀ k, k ∈ l → m1 !! k = m2 !! k) → collect_log now l m1 = collect_log now l m2.
Proof.
  induction l as [|k l IH]; intros Hl; [done|].
  rewrite !collect_log_cons.
  rewrite (Hl k) by left. rewrite IH; [done|]. intros k' Hk'. apply Hl. by right.
Qed.

Lemma collect_loop_run now (l : list string) s :
  NoDup l →
  (∀ k, k ∈ l → is_Some (jobs s !! k)) →
  for_each l (fun job_id =>
    js <- read_jobs ;;
    match js !! job_id with
    | None => raise KeyError
    | Some h =>
        if decide (now - JobHandler.last_usage h > FD_TIMEOUT) then
          log INFO "[%s] Closing log file" [job_id] ;;
          emit (FClose (JobHandler.output h)) ;;
          emit (FClose (JobHandler.sub_log h)) ;;
          write_jobs (delete job_id js)
        else ret tt
    end) s
  = (Ok tt, set_jobs (collect_keys now l (jobs s))
                     (add_events (collect_log now l (jobs s)) s)).
Proof.
  revert s. induction l as [|k l IH]; intros s Hnodup Hl.
  - simpl. prims. unfold set_jobs. simpl. rewrite app_nil_r. by destruct s.
  - apply NoDup_cons in Hnodup as [Hk Hnodup].
    destruct (Hl k) as [h Hh]; [left|].
    simpl. rewrite collect_log_cons.
    prims. rewrite Hh.
    destruct (decide (now - JobHandler.last_usage h > FD_TIMEOUT)); prims.
    + rewrite IH; [|done|].
      2: { intros k' Hk'. simpl. rewrite lookup_delete_ne by congruence.
           apply Hl. by right. }
      unfold set_jobs. prims.
      rewrite (collect_log_ext now l (delete k (jobs s)) (jobs s)); [done|].
      intros k' Hk'. apply lookup_delete_ne. congruence.
    + rewrite IH; [|done|intros k' Hk'; apply Hl; by right]. reflexivity.
Qed.

Lemma collect_keys_lookup now (l : list string) (m : gmap string JobHandler.t) k :
  NoDup l →
  collect_keys now l m !! k
  = if decide (k ∈ l)
    then h ← m !! k;
         if decide (now - JobHandler.last_usage h > FD_TIMEOUT) then None else Some h
    else m !! k.
Proof.
  revert m. induction l as [|k0 l IH]; intros m Hnodup.
  { simpl. by destruct (decide (k ∈ [])) as [?%elem_of_nil|]. }
  apply NoDup_cons in Hnodup as [Hk0 Hnodup].
  unfold collect_keys. simpl.
  set (m' := match m !! k0 with
             | Some h => if decide (now - JobHandler.last_usage h > FD_TIMEOUT)
                         then delete k0 m else m
             | None => m
             end).
  fold (collect_keys now l m'). rewrite IH by done.
  assert (Hm' : ∀ k', k' ≠ k0 → m' !! k' = m !! k').
  { intros k' Hk'. subst m'. destruct (m !! k0) as [h|]; [|done].
    destruct (decide (now - JobHandler.last_usage h > FD_TIMEOUT)); [|done].
    by rewrite lookup_delete_ne. }
  destruct (decide (k = k0)) as [->|Hne].
  - destruct (decide (k0 ∈ l)); [done|].
    destruct (decide (k0 ∈ k0 :: l)) as [_|Hn]; [|destruct Hn; left].
    subst m'. destruct (m !! k0) as [h|] eqn:Hh; simpl; [|done].
    destruct (decide (now - JobHandler.last_usage h > FD_TIMEOUT));
      [by rewrite lookup_delete_eq|done].
  - rewrite Hm' by done.
    destruct (decide (k ∈ k0 :: l)) as [Hin'|Hin'];
      destruct (decide (k ∈ l)) as [Hin|Hin]; try done.
    + apply elem_of_cons in Hin' as [?|?]; done.
    + destruct Hin'. by right.
Qed.

Lemma collect_log_items now (l : list (string * JobHandler.t))
      (m : gmap string JobHandler.t) :
  (∀ k h, (k, h) ∈ l → m !! k = Some h) →
  file_events (collect_log now l.*1 m)
  = flat_map (fun kh => if decide (now - JobHandler.last_usage kh.2 > FD_TIMEOUT)
                        then closing kh.2 else []) l
  ∧ sent (collect_log now l.*1 m) = []
  ∧ statements (collect_log now l.*1 m) = [].
Proof.
  induction l as [|[k h] l IH]; intros Hl; [done|].
  destruct IH as (IH1 & IH2 & IH3); [intros k' h' ?; apply Hl; by right|].
  rewrite fmap_cons, collect_log_cons. simpl.
  rewrite (Hl k h) by left.
  destruct (decide (now - JobHandler.last_usage h > FD_TIMEOUT));
    project; rewrite ?IH1, ?IH2, ?IH3; done.
Qed.

Lemma garbage_collect_run s :
  garbage_collect s
  = (Ok tt,
     set_jobs (filter (fun kh => ¬ (clock s - JobHandler.last_usage kh.2 > FD_TIMEOUT))
                      (jobs s))
              (add_events (collect_log (clock s) (map_to_list (jobs s)).*1 (jobs s)) s)).
Proof.
  unfold garbage_collect.
  rewrite (bind_run time_time _ s (clock s) s eq_refl).
  rewrite (bind_run read_jobs _ s (jobs s) s eq_refl).
  rewrite collect_loop_run.
  - do 2 f_equal. apply map_eq. intros k.
    rewrite collect_keys_lookup by apply NoDup_fst_map_to_list.
    rewrite map_lookup_filter.
    destruct (jobs s !! k) as [h|] eqn:Hh; simpl.
    + destruct (decide (k ∈ (map_to_list (jobs s)).*1)) as [_|Hk].
      * destruct (decide (clock s - JobHandler.last_usage h > FD_TIMEOUT)).
        -- by rewrite option_guard_False by tauto.
        -- by rewrite option_guard_True.
      * destruct Hk. apply list_elem_of_fmap. exists (k, h).
        split; [done|]. by apply elem_of_map_to_list.
    + by destruct (decide _).
  - apply NoDup_fst_map_to_list.
  - intros k (kh & -> & Hin)%list_elem_of_fmap. destruct kh as [k h].
    apply elem_of_map_to_list in Hin. by eexists.
Qed.

(** X7: the pass [Garbage collect file handlers] at time [now] closes
    both files of every handler of [self.jobs] that was last used more
    than [FD_TIMEOUT] (60 s) before, and removes it; a handler used
    exactly 60 s before, or later, stays as it is.  The pass never
    raises, touches no other table, sends nothing and runs nothing on the
    database. *)
Theorem garbage_collect_closes_idle_handlers (s : State) :
  let r := garbage_collect s in
  let idle (h : JobHandler.t) := clock s - JobHandler.last_usage h > FD_TIMEOUT in
  r.1 = Ok tt
  ∧ (∀ job_id h, jobs s !! job_id = Some h →
       jobs r.2 !! job_id = if decide (idle h) then None else Some h)
  ∧ (∀ job_id, jobs s !! job_id = None → jobs r.2 !! job_id = None)
  ∧ file_events (trace r.2)
    = file_events (trace s)
      ++ flat_map (fun kh => if decide (idle kh.2) then closing kh.2 else [])
                  (map_to_list (jobs s))
  ∧ logging_jobs r.2 = logging_jobs s
  ∧ dispatchers r.2 = dispatchers s
  ∧ sent (trace r.2) = sent (trace s)
  ∧ statements (trace r.2) = statements (trace s)
  ∧ db r.2 = db s.
Proof.
  simpl. rewrite garbage_collect_run. simpl.
  destruct (collect_log_items (clock s) (map_to_list (jobs s)) (jobs s))
    as (Hfiles & Hsent & Hst); [intros k h; apply elem_of_map_to_list|].
  project. rewrite Hfiles, Hsent, Hst, !app_nil_r.
  split; [done|]. split.
  { intros job_id h Hh. rewrite map_lookup_filter, Hh. simpl.
    destruct (decide _).
    - by rewrite option_guard_False by tauto.
    - by rewrite option_guard_True. }
  split; [|done].
  intros job_id Hnone. by rewrite map_lookup_filter, Hnone.
Qed.

Lemma dispatch_too_early s :
  ¬ (clock s - last_db_access s > DB_LIMIT) → dispatch s = (Ok tt, s).
Proof.
  intros Hearly. unfold dispatch.
  rewrite (bind_run time_time _ s (clock s) s eq_refl).
  rewrite (bind_run read_last_db_access _ s (last_db_access s) s eq_refl).
  by destruct (decide (clock s - last_db_access s > DB_LIMIT)).
Qed.

Lemma dispatch_stamp s :
  clock s - last_db_access s > DB_LIMIT → last_db_access (dispatch s).2 = clock s.
Proof.
  intros Hdue. unfold dispatch.
  rewrite (bind_run time_time _ s (clock s) s eq_refl).
  rewrite (bind_run read_last_db_access _ s (last_db_access s) s eq_refl).
  destruct (decide (clock s - last_db_access s > DB_LIMIT)); [|done].
  erewrite bind_run by reflexivity.
  match goal with |- last_db_access (?m ?s1).2 = _ =>
    assert (Hk : keeps last_db_access m) by keeps_all; rewrite (Hk s1)
  end.
  reflexivity.
Qed.

(** X8: the block that calls [process_jobs] and [handle_canceling] is
    guarded by [now - last_db_access > DB_LIMIT] and stamps
    [last_db_access] with [now] before it does anything else: once it ran
    at time [t], a turn at any time up to [t + DB_LIMIT] (10 s) leaves
    the state as it is, with no access to the database and nothing
    sent. *)
Theorem dispatch_is_rate_limited (s s' : State) :
  clock s - last_db_access s > DB_LIMIT →
  last_db_access s' = last_db_access (dispatch s).2 →
  (clock s' - clock s ≤ DB_LIMIT)%Z →
  last_db_access (dispatch s).2 = clock s
  ∧ dispatch s' = (Ok tt, s').
Proof.
  intros Hdue Hlast Hsoon.
  pose proof (dispatch_stamp s Hdue) as Hstamp.
  split; [done|]. apply dispatch_too_early. rewrite Hlast, Hstamp. lia.
Qed.

(** X9: when [controler_socket] returns [False] the turn of the main loop
    ends there ([continue]): after the garbage collection and the
    handler, neither the pass over the dispatchers nor the block on the
    database runs, so in that turn no worker is turned off line, the
    time of the last database access does not move, and nothing is sent. *)
Theorem rejected_message_ends_the_turn
    (msg : list string) (s : State) :
  (controler_socket msg (garbage_collect s).2).1 = Ok false →
  let r := handle {| signum := None; controler := Some msg |} s in
  r.1 = Ok Next
  ∧ dispatchers r.2 = dispatchers s
  ∧ last_db_access r.2 = last_db_access s
  ∧ db r.2 = db s
  ∧ sent (trace r.2) = sent (trace s)
  ∧ statements (trace r.2) = statements (trace s).
Proof.
  intros Hrej. simpl. unfold handle, read_signal, serve. simpl.
  rewrite (bind_run (ret false) _ s false s eq_refl).
  erewrite (bind_run garbage_collect) by apply garbage_collect_run.
  rewrite garbage_collect_run in Hrej. simpl in Hrej.
  destruct (rejected_run _ _ Hrej) as (evs & Hrun & Hsent & Hst & _).
  erewrite bind_run by exact Hrun. simpl.
  destruct (collect_log_items (clock s) (map_to_list (jobs s)) (jobs s))
    as (_ & Hsent' & Hst'); [intros k h; apply elem_of_map_to_list|].
  project. rewrite Hsent, Hst, Hsent', Hst', !app_nil_r. done.
Qed.

(** ** More on END and START_OK *)

Lemma statements_resync_events hostname s d :
  statements (resync_events hostname s d)
  = if decide (is_Some (dispatchers s !! hostname)) then []
    else [Db (Filter hostname)].
Proof.
  unfold resync_events. destruct (dispatchers s !! hostname) as [w|] eqn:Hw.
  - destruct (decide (is_Some (Some w))) as [_|Hn]; [done|]. destruct Hn. by eexists.
  - destruct (decide (is_Some None)) as [Hs|_]; [by destruct Hs as [? [=]]|].
    project. apply statements_status_events.
Qed.

Lemma file_events_resync_events hostname s d :
  file_events (resync_events hostname s d) = [].
Proof.
  unfold resync_events, status_events. destruct (dispatchers s !! hostname); [done|].
  project. induction (objects_filter hostname d) as [|j l IH]; simpl; project; done.
Qed.

Lemma statements_description_events job_id job description :
  statements (description_events job_id job description) = [].
Proof.
  unfold description_events.
  destruct (open_error _) as [e|];
    [|destruct (lzma_decompress description) as [text|];
      [destruct (write_error _ text) as [e|]|]];
    by project.
Qed.

Lemma file_events_description_events job_id job description :
  file_events (description_events job_id job description)
  = let filename := Py.join (TestJob.output_dir job) ["description.yaml"] in
    match open_error filename with
    | Some _ => []
    | None =>
        FOpen "w" filename
        :: match lzma_decompress description with
           | None => [FClose filename]
           | Some text =>
               match write_error filename text with
               | Some _ => [FClose filename]
               | None => [FWrite filename text; FClose filename]
               end
           end
    end.
Proof.
  unfold description_events.
  destruct (open_error _) as [e|];
    [|destruct (lzma_decompress description) as [text|];
      [destruct (write_error _ text) as [e|]|]];
    by project.
Qed.

Lemma statements_end_log hostname job_id job_status error_msg :
  statements (end_log hostname job_id job_status error_msg) = [].
Proof. unfold end_log. destruct (decide _); by project. Qed.

Lemma file_events_end_log hostname job_id job_status error_msg :
  file_events (end_log hostname job_id job_status error_msg) = [].
Proof. unfold end_log. destruct (decide _); by project. Qed.

Lemma statements_end_transaction job_id job d error_msg status :
  statements (end_transaction job_id job d error_msg status)
  = end_transaction job_id job d error_msg status.
Proof.
  unfold end_transaction.
  destruct (decide (TestJob.status job = TestJob.CANCELING)); by project.
Qed.

Lemma file_events_end_transaction job_id job d error_msg status :
  file_events (end_transaction job_id job d error_msg status) = [].
Proof.
  unfold end_transaction.
  destruct (decide (TestJob.status job = TestJob.CANCELING)); by project.
Qed.

(** The [try] block of the END branch on a job of the table. *)
Lemma finalise_known_run job_id error_msg description status job job' s :
  objects_get job_id (db s) = Some job →
  objects_get job_id (parse_job_description job (db s)) = Some job' →
  finalise job_id error_msg description status s
  = (Ok tt,
     set_db (fail_job (locked job' (parse_job_description job (db s))).1
                      error_msg status
                      (locked job' (parse_job_description job (db s))).2).2
            (add_events
               (Db (Get job_id) :: description_events job_id job description
                ++ Db (ParseJobDescription (TestJob.id job))
                   :: end_transaction job_id job'
                        (parse_job_description job (db s)) error_msg status) s)).
Proof.
  intros Hjob Hjob'.
  unfold finalise, call_db, end_transaction, locked.
  prims. rewrite Hjob. prims. rewrite dump_description_run. prims. rewrite Hjob'.
  destruct (decide (TestJob.status job' = TestJob.CANCELING)); prims.
  all: unfold set_db, add_events; cbn [dispatchers jobs current_level logging_jobs
                                       last_db_access db clock trace].
  all: repeat rewrite <- ?app_assoc, <- ?app_comm_cons; reflexivity.
Qed.

(** The same when the description left the table without the job. *)
Lemma finalise_lost_run job_id error_msg description status job s :
  objects_get job_id (db s) = Some job →
  objects_get job_id (parse_job_description job (db s)) = None →
  finalise job_id error_msg description status s
  = (Ok tt,
     set_db (parse_job_description job (db s))
            (add_events
               (Db (Get job_id) :: description_events job_id job description
                ++ [Db (ParseJobDescription (TestJob.id job));
                    Begin; Db (Get job_id); Rollback;
                    Log ERROR "[%d] Unknown job" [Py.str job_id]]) s)).
Proof.
  intros Hjob Hjob'.
  unfold finalise, call_db.
  prims. rewrite Hjob. prims. rewrite dump_description_run. prims. rewrite Hjob'.
  prims.
  unfold set_db, add_events; cbn [dispatchers jobs current_level logging_jobs
                                  last_db_access db clock trace].
  repeat rewrite <- ?app_assoc, <- ?app_comm_cons; reflexivity.
Qed.

#[local] Arguments description_events : simpl never.
#[local] Arguments end_transaction : simpl never.
#[local] Arguments end_log : simpl never.
#[local] Arguments locked : simpl never.

(** What the END branch does before the [try] block. *)
Lemma end_head_run hostname sid scode error_msg description rest job_id job_status s :
  Py.int sid = Some job_id →
  Py.int scode = Some job_status →
  controler_socket
    (hostname :: "END" :: sid :: scode :: error_msg :: description :: rest) s
  = (finalise job_id error_msg description (end_status job_status) ;;
     send_multipart [hostname; "END_OK"; Py.str job_id] ;;
     dispatcher_alive hostname ;;
     ret true)
      (add_events (end_log hostname job_id job_status error_msg) s).
Proof.
  intros Hid Hcode. unfold controler_socket, frame. prims.
  unfold end_, int_frame. simpl. rewrite Hid, Hcode. simpl.
  unfold end_log, end_status. destruct (decide (job_status ≠ 0)); prims; reflexivity.
Qed.

(** A well-formed END for a job of the table, as a whole. *)
Lemma end_known_run
    hostname sid scode error_msg description rest job_id job_status job job' s :
  Py.int sid = Some job_id →
  Py.int scode = Some job_status →
  objects_get job_id (db s) = Some job →
  objects_get job_id (parse_job_description job (db s)) = Some job' →
  let parsed := parse_job_description job (db s) in
  let d := (fail_job (locked job' parsed).1 error_msg (end_status job_status)
                     (locked job' parsed).2).2 in
  controler_socket
    (hostname :: "END" :: sid :: scode :: error_msg :: description :: rest) s
  = (Ok true,
     set_dispatchers (<[hostname := touched hostname s]> (dispatchers s))
       (set_db d
          (add_events
             (end_log hostname job_id job_status error_msg
              ++ Db (Get job_id) :: description_events job_id job description
              ++ Db (ParseJobDescription (TestJob.id job))
                 :: end_transaction job_id job' parsed error_msg
                      (end_status job_status)
              ++ Send [hostname; "END_OK"; Py.str job_id]
                 :: resync_events hostname s d) s))).
Proof.
  intros Hid Hcode Hjob Hjob' parsed d. subst parsed d.
  rewrite (end_head_run _ _ _ _ _ _ _ _ _ Hid Hcode).
  unfold bind at 1. rewrite (finalise_known_run _ _ _ _ job job'); [|done|done].
  unfold bind at 1. unfold send_multipart. rewrite emit_run.
  unfold bind at 1. rewrite dispatcher_alive_run.
  unfold ret, set_dispatchers, set_db, add_events, touched, resync_events.
  cbn [dispatchers jobs current_level logging_jobs last_db_access db clock trace].
  repeat rewrite <- ?app_assoc, <- ?app_comm_cons. reflexivity.
Qed.

(** X10: an END for a job of the table finalises it whatever becomes of
    the description: the job is read, its description parsed, and then,
    inside one transaction, the row is read again, [cancel_job] is called
    first when (and only when) its status is CANCELING, and [fail_job] is
    called on the job that leaves, with the error message of the frame and
    with COMPLETE for an exit code of 0, INCOMPLETE for any other. *)
Theorem end_finalises_job
    (hostname sid scode error_msg description : string) (rest : list string)
    (job_id job_status : Z) (job job' : TestJob.t) (s : State) :
  Py.int sid = Some job_id →
  Py.int scode = Some job_status →
  objects_get job_id (db s) = Some job →
  let parsed := parse_job_description job (db s) in
  objects_get job_id parsed = Some job' →
  let status := if decide (job_status = 0) then TestJob.COMPLETE
                else TestJob.INCOMPLETE in
  let canceling := bool_decide (TestJob.status job' = TestJob.CANCELING) in
  let row := if canceling then cancel_job job' parsed else (job', parsed) in
  let r := controler_socket
             (hostname :: "END" :: sid :: scode :: error_msg :: description :: rest) s in
  r.1 = Ok true
  ∧ statements (trace r.2)
    = statements (trace s)
      ++ [Db (Get job_id); Db (ParseJobDescription (TestJob.id job));
          Begin; Db (Get job_id)]
      ++ (if canceling then [Db (CancelJob (TestJob.id job'))] else [])
      ++ [Db (FailJob (TestJob.id row.1) error_msg status); Commit]
      ++ (if decide (is_Some (dispatchers s !! hostname)) then []
          else [Db (Filter hostname)])
  ∧ db r.2 = (fail_job row.1 error_msg status row.2).2.
Proof.
  intros Hid Hcode Hjob parsed Hjob' status canceling row r.
  assert (Hstatus : status = end_status job_status).
  { unfold status, end_status.
    destruct (decide (job_status = 0)), (decide (job_status ≠ 0)); done. }
  assert (Hrow : row = locked job' parsed).
  { unfold row, canceling, locked.
    destruct (decide (TestJob.status job' = TestJob.CANCELING)) as [Hc|Hc];
      [by rewrite (bool_decide_eq_true_2 _ Hc)
      |by rewrite (bool_decide_eq_false_2 _ Hc)]. }
  unfold r.
  rewrite (end_known_run _ _ _ _ _ _ _ _ job job' _ Hid Hcode Hjob Hjob').
  rewrite Hstatus, Hrow. fold parsed.
  split; [done|]. split; [|done].
  unfold set_dispatchers, set_db, add_events. cbn [trace snd].
  rewrite !statements_app, statements_end_log, !statements_cons. cbn [is_statement].
  rewrite !statements_app, statements_description_events, !statements_cons.
  cbn [is_statement].
  rewrite !statements_app, statements_end_transaction, !statements_cons.
  cbn [is_statement].
  rewrite statements_resync_events.
  unfold end_transaction, canceling.
  destruct (decide (TestJob.status job' = TestJob.CANCELING)) as [Hc|Hc];
    [rewrite (bool_decide_eq_true_2 _ Hc)|rewrite (bool_decide_eq_false_2 _ Hc)];
    simpl; rewrite <- ?app_assoc; reflexivity.
Qed.

(** X11: an END for a job of the table touches one file at most,
    [description.yaml] in the output directory of the job.  When opening
    it for writing raises [IOError] no file is touched.  Otherwise it is
    opened before the blob is decompressed and closed however the block
    is left: the text is written when [lzma.decompress] and the write
    both succeed; when either raises, nothing is written (the file is
    left empty). *)
Theorem end_dumps_description
    (hostname sid scode error_msg description : string) (rest : list string)
    (job_id job_status : Z) (job : TestJob.t) (s : State) :
  Py.int sid = Some job_id →
  Py.int scode = Some job_status →
  objects_get job_id (db s) = Some job →
  let filename := Py.join (TestJob.output_dir job) ["description.yaml"] in
  let r := controler_socket
             (hostname :: "END" :: sid :: scode :: error_msg :: description :: rest) s in
  file_events (trace r.2)
  = file_events (trace s)
    ++ match open_error filename with
       | Some _ => []
       | None =>
           FOpen "w" filename
           :: match lzma_decompress description with
              | None => [FClose filename]
              | Some text =>
                  match write_error filename text with
                  | Some _ => [FClose filename]
                  | None => [FWrite filename text; FClose filename]
                  end
              end
       end.
Proof.
  intros Hid Hcode Hjob filename r. unfold r.
  rewrite (end_head_run _ _ _ _ _ _ _ _ _ Hid Hcode).
  unfold bind at 1.
  destruct (objects_get job_id (parse_job_description job (db s))) as [job'|] eqn:Hjob'.
  - rewrite (finalise_known_run _ _ _ _ job job'); [|done|done].
    unfold bind at 1. unfold send_multipart. rewrite emit_run.
    unfold bind at 1. rewrite dispatcher_alive_run.
    unfold ret, set_dispatchers, set_db, add_events. cbn [trace snd].
    rewrite !file_events_app, file_events_end_log, !file_events_cons.
    cbn [is_file_event].
    rewrite !file_events_app, file_events_description_events, !file_events_cons.
    cbn [is_file_event].
    rewrite file_events_end_transaction, file_events_resync_events.
    cbn zeta. fold filename. by rewrite !app_nil_r.
  - rewrite (finalise_lost_run _ _ _ _ job); [|done|done].
    unfold bind at 1. unfold send_multipart. rewrite emit_run.
    unfold bind at 1. rewrite dispatcher_alive_run.
    unfold ret, set_dispatchers, set_db, add_events. cbn [trace snd].
    rewrite !file_events_app, file_events_end_log, !file_events_cons.
    cbn [is_file_event].
    rewrite !file_events_app, file_events_description_events.
    rewrite !file_events_cons. cbn [is_file_event].
    rewrite file_events_nil, file_events_resync_events.
    cbn zeta. fold filename. by rewrite !app_nil_r.
Qed.

(** The [try] block of the START_OK branch. *)
Lemma start_job_block_eq job_id s :
  start_job_block job_id s
  = match objects_get job_id (db s) with
    | Some job =>
        (Ok tt, set_db (start_job job (db s)).2
                  (add_events [Begin; Db (Get job_id);
                               Db (StartJob (TestJob.id job)); Commit] s))
    | None =>
        (Ok tt, add_events [Begin; Db (Get job_id); Rollback;
                            Log ERROR "[%d] Unknown job" [Py.str job_id]] s)
    end.
Proof.
  unfold start_job_block, call_db. prims.
  destruct (objects_get job_id (db s)) as [job|]; prims; reflexivity.
Qed.

(** A well-formed START_OK, as a whole. *)
Lemma start_ok_eq hostname sid rest job_id s :
  Py.int sid = Some job_id →
  controler_socket (hostname :: "START_OK" :: sid :: rest) s
  = match objects_get job_id (db s) with
    | Some job =>
        (Ok true,
         set_dispatchers (<[hostname := touched hostname s]> (dispatchers s))
           (set_db (start_job job (db s)).2
              (add_events
                 ([Log INFO "[%d] %s => START_OK" [Py.str job_id; hostname];
                   Begin; Db (Get job_id); Db (StartJob (TestJob.id job)); Commit]
                  ++ resync_events hostname s (start_job job (db s)).2) s)))
    | None =>
        (Ok true,
         set_dispatchers (<[hostname := touched hostname s]> (dispatchers s))
           (add_events
              ([Log INFO "[%d] %s => START_OK" [Py.str job_id; hostname];
                Begin; Db (Get job_id); Rollback;
                Log ERROR "[%d] Unknown job" [Py.str job_id]]
               ++ resync_events hostname s (db s)) s))
    end.
Proof.
  intros Hid.
  assert (Hr : controler_socket (hostname :: "START_OK" :: sid :: rest) s
               = (start_job_block job_id ;; dispatcher_alive hostname ;; ret true)
                   (add_events [Log INFO "[%d] %s => START_OK"
                                    [Py.str job_id; hostname]] s)).
  { unfold controler_socket, frame. prims.
    unfold start_ok, int_frame. simpl. rewrite Hid. reflexivity. }
  rewrite Hr. clear Hr.
  unfold bind at 1. rewrite start_job_block_eq.
  cbn [db add_events].
  destruct (objects_get job_id (db s)) as [job|].
  all: unfold bind at 1; rewrite dispatcher_alive_run.
  all: unfold ret, set_dispatchers, set_db, add_events, touched, resync_events.
  all: cbn [dispatchers jobs current_level logging_jobs last_db_access db clock trace].
  all: repeat rewrite <- ?app_assoc, <- ?app_comm_cons; reflexivity.
Qed.

(** X12: a START_OK is never answered.  For a job of the table
    [start_job] is called on it inside one transaction; for a job id the
    table does not hold the transaction is left with nothing done and
    the table is unchanged.  The sender is marked alive either way. *)
Theorem start_ok_starts_job
    (hostname sid : string) (rest : list string) (job_id : Z) (s : State) :
  Py.int sid = Some job_id →
  let r := controler_socket (hostname :: "START_OK" :: sid :: rest) s in
  let resync := if decide (is_Some (dispatchers s !! hostname)) then []
                else [Db (Filter hostname)] in
  r.1 = Ok true
  ∧ sent (trace r.2) = sent (trace s) ++ status_requests hostname s (db r.2)
  ∧ dispatchers r.2 !! hostname = Some (touched hostname s)
  ∧ match objects_get job_id (db s) with
    | Some job =>
        statements (trace r.2)
        = statements (trace s)
          ++ [Begin; Db (Get job_id); Db (StartJob (TestJob.id job)); Commit]
          ++ resync
        ∧ db r.2 = (start_job job (db s)).2
    | None =>
        statements (trace r.2)
        = statements (trace s) ++ [Begin; Db (Get job_id); Rollback] ++ resync
        ∧ db r.2 = db s
    end.
Proof.
  intros Hid r resync. unfold r, resync.
  rewrite (start_ok_eq _ _ _ _ _ Hid).
  destruct (objects_get job_id (db s)) as [job|].
  all: unfold set_dispatchers, set_db, add_events.
  all: cbn [dispatchers db trace fst snd].
  all: rewrite lookup_insert_eq.
  all: split; [done|].
  all: rewrite !sent_app, !statements_app.
  all: rewrite sent_resync_events, statements_resync_events.
  all: project.
  all: repeat split; done.
Qed.

(** ** More on log ingestion *)

(** X13: a message that is not made of four frames, whose last frame is
    not YAML, or whose record is a mapping without the key [lvl] or the
    key [msg], is dropped: one error line is logged and nothing else
    happens. *)
Theorem bad_log_frame_is_dropped (msg : list string) (s : State) :
  bad_frame msg →
  ∃ fmt args,
    logging_socket msg s = (Ok Dropped, add_events [Log ERROR fmt args] s).
Proof.
  intros [Hlen | (job_id & level & name & message & -> & Hbad)].
  - destruct msg as [|a [|b [|c [|d [|e msg]]]]]; simpl in Hlen; try done.
    all: unfold logging_socket; eexists _, _; reflexivity.
  - unfold logging_socket.
    destruct Hbad as [-> | (pairs & -> & Hkeys)]; [eexists _, _; reflexivity|].
    simpl.
    destruct (dict_get "lvl" pairs) as [lvl|] eqn:Hlvl;
      [|eexists _, _; reflexivity].
    destruct Hkeys as [|Hmsg]; [done|]. rewrite Hmsg.
    eexists _, _; reflexivity.
Qed.

(** X14: a record that is YAML but not a mapping (a scalar, a list, an
    empty document) is not caught by any of the checks: the subscript
    [scanned["lvl"]] raises [TypeError] out of the loop, with nothing
    logged. *)
Theorem scalar_record_stops_the_thread
    (job_id level name message : string) (scanned : yaml) (s : State) :
  yaml_load message = Some scanned →
  (∀ pairs, scanned ≠ YMap pairs) →
  logging_socket [job_id; level; name; message] s = (Raise TypeError, s).
Proof.
  intros Hload Hmap. unfold logging_socket. rewrite Hload.
  destruct scanned; try reflexivity. by destruct (Hmap pairs).
Qed.

(** A frame that passed the checks. *)
Lemma checked_frame_run job_id level name message scanned lvl msg s :
  yaml_load message = Some scanned →
  subscript scanned "lvl" = inr lvl →
  subscript scanned "msg" = inr msg →
  Py.contains "/" level = false →
  Py.contains "/" name = false →
  logging_socket [job_id; level; name; message] s
  = (found <- find_handler job_id level name ;;
     if negb found then ret Dropped
     else
       mapped <- results job_id level message lvl msg ;;
       if negb mapped then ret Dropped
       else write_record job_id message) s.
Proof.
  intros Hload Hlvl Hmsg Hlevel Hname.
  unfold logging_socket. by rewrite Hload, Hlvl, Hmsg, Hlevel, Hname.
Qed.

(** [find_handler] for a job without a handler. *)
Lemma find_handler_new job_id level name pk s :
  logging_jobs s !! job_id = None →
  Py.int job_id = Some pk →
  find_handler job_id level name s
  = match objects_get pk (db s) with
    | None =>
        (Ok false,
         add_events [Db (Get pk); Log ERROR "[%s] Unknown job id" [job_id]] s)
    | Some job =>
        (Ok true,
         mkState (dispatchers s) (jobs s) (current_level s)
                 (<[job_id := opened (clock s) job level name]> (logging_jobs s))
                 (last_db_access s) (db s) (clock s)
                 (trace s
                  ++ [Db (Get pk);
                      Log INFO "[%s] Receiving logs from a new job" [job_id];
                      Mkdir (Py.dirname
                               (sub_log_filename (TestJob.output_dir job) level name));
                      FOpen "a+" (Py.join (TestJob.output_dir job) ["output.yaml"]);
                      FOpen "a+"
                        (sub_log_filename (TestJob.output_dir job) level name)]))
    end.
Proof.
  intros Hnone Hpk.
  unfold find_handler, objects_get_frame, new_JobHandler, opened. prims.
  rewrite Hnone, Hpk. prims.
  destruct (objects_get pk (db s)) as [job|]; prims; reflexivity.
Qed.



(** X16: a frame for a job that has no handler and that the table does
    not hold is dropped after the one lookup: no handler is stored, no
    directory is made and no file is opened. *)
Theorem unknown_job_frame_is_dropped
    (job_id level name message : string) (scanned lvl msg : yaml)
    (pk : Z) (s : State) :
  logging_jobs s !! job_id = None →
  yaml_load message = Some scanned →
  subscript scanned "lvl" = inr lvl →
  subscript scanned "msg" = inr msg →
  Py.contains "/" level = false →
  Py.contains "/" name = false →
  Py.int job_id = Some pk →
  objects_get pk (db s) = None →
  logging_socket [job_id; level; name; message] s
  = (Ok Dropped,
     add_events [Db (Get pk); Log ERROR "[%s] Unknown job id" [job_id]] s).
Proof.
  intros Hnone Hload Hlvl Hmsg Hlevel Hname Hpk Hjob.
  rewrite (checked_frame_run _ _ _ _ _ _ _ _ Hload Hlvl Hmsg Hlevel Hname).
  unfold bind at 1. by rewrite (find_handler_new _ _ _ _ _ Hnone Hpk), Hjob.
Qed.

(** What a turn of the logging thread does to the table of handlers:
    nothing, or one entry is stored under the first frame. *)
Lemma logging_socket_handlers msg s :
  logging_jobs (logging_socket msg s).2 = logging_jobs s
  ∨ ∃ job_id h, msg !! 0%nat = Some job_id
      ∧ logging_jobs (logging_socket msg s).2 = <[job_id := h]> (logging_jobs s)
      ∧ ∀ h0, logging_jobs s !! job_id = Some h0 →
              JobHandler.output_dir h = JobHandler.output_dir h0
              ∧ JobHandler.output h = JobHandler.output h0
              ∧ JobHandler.current_level h = JobHandler.current_level h0.
Proof.
  destruct msg as [|job_id [|level [|name [|message [|e msg]]]]];
    try (left; reflexivity).
  unfold logging_socket.
  destruct (yaml_load message) as [scanned|]; [|left; reflexivity].
  destruct (subscript scanned "lvl") as [e|lvl] eqn:Hlvl;
    [apply subscript_exn in Hlvl as [-> | ->]; left; reflexivity|].
  destruct (subscript scanned "msg") as [e|msg] eqn:Hmsg;
    [apply subscript_exn in Hmsg as [-> | ->]; left; reflexivity|].
  destruct (Py.contains "/" level || Py.contains "/" name); [left; reflexivity|].
  unfold find_handler, results, write_record, objects_get_frame, new_JobHandler,
    JobHandler_write.
  prims.
  destruct (logging_jobs s !! job_id) as [h|] eqn:Hh.
  - destruct (decide (level ≠ JobHandler.current_level h)); prims.
    all: destruct (eq_str lvl "results"); prims.
    all: try (destruct (Py.int job_id) as [pk|]; prims;
              [|try (left; reflexivity); right; eexists _, _;
                (split; [reflexivity|]); (split; [reflexivity|]);
                by intros h0 Hh0; rewrite Hh in Hh0; injection Hh0 as <-];
              destruct (objects_get pk (db s)) as [job|]; prims;
              [|try (left; reflexivity); right; eexists _, _;
                (split; [reflexivity|]); (split; [reflexivity|]);
                by intros h0 Hh0; rewrite Hh in Hh0; injection Hh0 as <-];
              destruct (map_scanned_results msg job
                          (create_metadata_store msg job level) (db s))
                as [[] d']; prims).
    all: rewrite ?lookup_insert_eq, ?Hh; prims; rewrite ?insert_insert_eq.
    all: right; eexists _, _; (split; [reflexivity|]); (split; [reflexivity|]).
    all: by intros h0 Hh0; rewrite Hh in Hh0; injection Hh0 as <-.
  - destruct (Py.int job_id) as [pk|]; prims; [|left; reflexivity].
    destruct (objects_get pk (db s)) as [job|]; prims; [|left; reflexivity].
    destruct (eq_str lvl "results"); prims.
    2: { rewrite lookup_insert_eq; prims; rewrite insert_insert_eq.
         right; eexists _, _; (split; [reflexivity|]); (split; [reflexivity|]).
         by intros h0 Hh0; rewrite Hh in Hh0. }
    destruct (objects_get pk (db s)) as [job'|]; prims.
    2: { right; eexists _, _; (split; [reflexivity|]); (split; [reflexivity|]).
         by intros h0 Hh0; rewrite Hh in Hh0. }
    destruct (map_scanned_results msg job'
                (create_metadata_store msg job' level) (db s)) as [[] d']; prims.
    all: rewrite lookup_insert_eq; prims; rewrite insert_insert_eq.
    all: right; eexists _, _; (split; [reflexivity|]); (split; [reflexivity|]).
    all: by intros h0 Hh0; rewrite Hh in Hh0.
Qed.

(** X17: a turn of the logging thread touches no handler but the one of
    the job its first frame names, and it never removes a handler: the
    one it touches keeps its directory, its [output.yaml] and the level it
    was created with. *)
Theorem log_frame_keeps_the_handlers
    (msg : list string) (job_id : string) (h : JobHandler.t) (s : State) :
  logging_jobs s !! job_id = Some h →
  let r := logging_socket msg s in
  ∃ h',
    logging_jobs r.2 !! job_id = Some h'
    ∧ JobHandler.output_dir h' = JobHandler.output_dir h
    ∧ JobHandler.output h' = JobHandler.output h
    ∧ JobHandler.current_level h' = JobHandler.current_level h
    ∧ (msg !! 0%nat ≠ Some job_id → h' = h).
Proof.
  intros Hh r. unfold r.
  destruct (logging_socket_handlers msg s) as [-> | (j & h1 & Hj & -> & Hsame)].
  { by exists h. }
  destruct (decide (j = job_id)) as [->|Hne].
  - exists h1. rewrite lookup_insert_eq.
    destruct (Hsame h Hh) as (? & ? & ?). repeat split; done.
  - exists h. by rewrite lookup_insert_ne.
Qed.


(** ** Cancelling *)

(** One turn of the loop of [handle_canceling], for a job whose device is
    there. *)
Lemma canceling_loop_run (l : list TestJob.t) :
  (∀ job, job ∈ l →
     TestJob.dynamic_connection job = false → is_Some (TestJob.actual_device job)) →
  ∀ s,
    for_each l (fun job =>
       worker_host <-
         (if TestJob.dynamic_connection job then ret (TestJob.lookup_worker job)
          else match TestJob.actual_device job with
               | None => raise AttributeError
               | Some dev => ret (Device.worker_host dev)
               end) ;;
       match worker_host with
       | None =>
           log WARNING "[%d] Invalid worker information" [Py.str (TestJob.id job)] ;;
           call_db (FailJob (TestJob.id job) "invalid worker information"
                            TestJob.CANCELED)
                   (fail_job job "invalid worker information" TestJob.CANCELED) ;;
           ret tt
       | Some w =>
           log INFO "[%d] CANCEL => %s" [Py.str (TestJob.id job); w] ;;
           send_multipart [w; "CANCEL"; Py.str (TestJob.id job)]
       end) s
    = (Ok tt, set_db (fail_all (orphans l) (db s)) (add_events (canceling_events l) s)).
Proof.
  induction l as [|job l IH]; intros Hdev s.
  - simpl. unfold ret, set_db, add_events. simpl. rewrite app_nil_r. by destruct s.
  - assert (Hl : ∀ job, job ∈ l → TestJob.dynamic_connection job = false →
                        is_Some (TestJob.actual_device job)).
    { intros j Hj. apply Hdev. apply elem_of_cons. by right. }
    assert (Hhere : job ∈ job :: l) by (apply elem_of_cons; by left).
    specialize (Hdev job Hhere). clear Hhere.
    cbn [for_each]. unfold bind at 1.
    unfold orphans, canceling_events, worker_of in *. cbn [List.filter flat_map].
    destruct (TestJob.dynamic_connection job).
    + destruct (TestJob.lookup_worker job) as [w|]; unfold call_db; prims.
      all: rewrite (IH Hl); unfold set_db, add_events; simpl.
      all: by rewrite <- ?app_assoc.
    + destruct Hdev as [dev Hdev]; [done|]. rewrite Hdev. simpl.
      destruct (Device.worker_host dev) as [w|]; unfold call_db; prims.
      all: rewrite (IH Hl); unfold set_db, add_events; simpl.
      all: by rewrite <- ?app_assoc.
Qed.

Lemma sent_canceling_events l : sent (canceling_events l) = cancel_requests l.
Proof.
  unfold canceling_events, cancel_requests.
  induction l as [|job l IH]; [done|]. simpl. rewrite sent_app, IH.
  destruct (worker_of job); by project.
Qed.

Lemma statements_canceling_events l :
  statements (canceling_events l)
  = List.map (fun job => Db (FailJob (TestJob.id job) "invalid worker information"
                                     TestJob.CANCELED)) (orphans l).
Proof.
  unfold canceling_events, orphans.
  induction l as [|job l IH]; [done|]. simpl. rewrite statements_app, IH.
  destruct (worker_of job); by project.
Qed.

(** X19: [handle_canceling] runs its query once and then sends one
    CANCEL, in table order, to the worker of every pipeline job whose
    status is CANCELING (the worker of the connection for a dynamic
    connection, the worker of the device otherwise), whether a CANCEL was
    sent for it before or not; a job without worker is handed to
    [fail_job] with status CANCELED instead.  The query and these calls
    are the only statements run, and the calls the only changes to the
    table. *)
Theorem handle_canceling_requests (s : State) :
  (∀ job, job ∈ canceling (db s) →
     TestJob.dynamic_connection job = false → is_Some (TestJob.actual_device job)) →
  let r := handle_canceling s in
  r.1 = Ok tt
  ∧ sent (trace r.2) = sent (trace s) ++ cancel_requests (canceling (db s))
  ∧ statements (trace r.2)
    = statements (trace s)
      ++ Db FilterCanceling
         :: List.map (fun job => Db (FailJob (TestJob.id job)
                                             "invalid worker information"
                                             TestJob.CANCELED))
                     (orphans (canceling (db s)))
  ∧ db r.2 = fail_all (orphans (canceling (db s))) (db s)
  ∧ dispatchers r.2 = dispatchers s.
Proof.
  intros Hdev r.
  assert (Hr : r = (Ok tt, set_db (fail_all (orphans (canceling (db s))) (db s))
                             (add_events (Db FilterCanceling
                                          :: canceling_events (canceling (db s))) s))).
  { unfold r, handle_canceling.
    rewrite (bind_run _ _ _ _ _ (emit_run _ _)).
    unfold bind at 1, read_db at 1. cbn [db add_events].
    rewrite (canceling_loop_run _ Hdev).
    unfold set_db, add_events. cbn [dispatchers jobs current_level logging_jobs
                                    last_db_access db clock trace].
    by rewrite <- app_assoc. }
  rewrite Hr. unfold set_db, add_events. cbn [fst snd trace db dispatchers].
  rewrite sent_app, statements_app, sent_cons, statements_cons.
  cbn [is_send is_statement].
  rewrite sent_canceling_events, statements_canceling_events.
  done.
Qed.

(** The loop of [handle_canceling] stops at the first job without
    device. *)
Lemma canceling_loop_raises (l : list TestJob.t) :
  (∃ job, job ∈ l ∧ TestJob.dynamic_connection job = false
          ∧ TestJob.actual_device job = None) →
  ∀ s,
    (for_each l (fun job =>
       worker_host <-
         (if TestJob.dynamic_connection job then ret (TestJob.lookup_worker job)
          else match TestJob.actual_device job with
               | None => raise AttributeError
               | Some dev => ret (Device.worker_host dev)
               end) ;;
       match worker_host with
       | None =>
           log WARNING "[%d] Invalid worker information" [Py.str (TestJob.id job)] ;;
           call_db (FailJob (TestJob.id job) "invalid worker information"
                            TestJob.CANCELED)
                   (fail_job job "invalid worker information" TestJob.CANCELED) ;;
           ret tt
       | Some w =>
           log INFO "[%d] CANCEL => %s" [Py.str (TestJob.id job); w] ;;
           send_multipart [w; "CANCEL"; Py.str (TestJob.id job)]
       end) s).1 = Raise AttributeError.
Proof.
  induction l as [|job l IH]; intros (bad & Hin & Hdyn & Hdev) s.
  { by apply elem_of_nil in Hin. }
  cbn [for_each]. unfold bind at 1.
  destruct (TestJob.dynamic_connection job) eqn:Hd.
  - assert (Hl : ∃ job, job ∈ l ∧ TestJob.dynamic_connection job = false
                        ∧ TestJob.actual_device job = None).
    { apply elem_of_cons in Hin as [->|Hin]; [congruence|by exists bad]. }
    destruct (TestJob.lookup_worker job) as [w|]; unfold call_db; prims;
      apply (IH Hl).
  - destruct (TestJob.actual_device job) as [dev|] eqn:Hdev'; [|done].
    assert (Hl : ∃ job, job ∈ l ∧ TestJob.dynamic_connection job = false
                        ∧ TestJob.actual_device job = None).
    { apply elem_of_cons in Hin as [->|Hin]; [congruence|by exists bad]. }
    simpl. destruct (Device.worker_host dev) as [w|]; unfold call_db; prims;
      apply (IH Hl).
Qed.

(** X20: when one of the pipeline jobs whose status is CANCELING has no
    device and is not a dynamic connection, [handle_canceling] does not
    return: it ends with the [AttributeError] of
    [job.actual_device.worker_host]. *)
Theorem canceling_job_without_device_raises (s : State) :
  (∃ job, job ∈ canceling (db s) ∧ TestJob.dynamic_connection job = false
          ∧ TestJob.actual_device job = None) →
  (handle_canceling s).1 = Raise AttributeError.
Proof.
  intros Hbad. unfold handle_canceling.
  rewrite (bind_run _ _ _ _ _ (emit_run _ _)).
  unfold bind at 1, read_db at 1. cbn [db add_events].
  by apply canceling_loop_raises.
Qed.

(** ** The path of a sub-log *)

Lemma append_comp s t u : (s +:+ t) +:+ u = s +:+ t +:+ u.
Proof. induction s as [|a s IH]; [done|]. by rewrite !append_cons, IH. Qed.

Lemma rev_app_append s u acc :
  String.rev_app (s +:+ u) acc = String.rev_app u (String.rev_app s acc).
Proof.
  revert acc. induction s as [|a s IH]; intros acc; [done|].
  rewrite append_cons. simpl. apply IH.
Qed.

Lemma startswith_slash_cons a s t :
  Py.startswith_slash (String a s) = Py.startswith_slash (String a t).
Proof. destruct a as [[] [] [] [] [] [] [] []]; reflexivity. Qed.

Lemma startswith_slash_rev_app a t acc acc' :
  Py.startswith_slash (String.rev_app (String a t) acc)
  = Py.startswith_slash (String.rev_app (String a t) acc').
Proof.
  revert a acc acc'. induction t as [|b t IH]; intros a acc acc'.
  - apply startswith_slash_cons.
  - apply (IH b).
Qed.

Lemma endswith_slash_append s a t :
  Py.endswith_slash (s +:+ String a t) = Py.endswith_slash (String a t).
Proof.
  unfold Py.endswith_slash, String.rev. rewrite rev_app_append.
  apply startswith_slash_rev_app.
Qed.

Lemma endswith_slash_no_slash a t :
  Py.contains "/" (String a t) = false → Py.endswith_slash (String a t) = false.
Proof.
  revert a. induction t as [|b t IH]; intros a; simpl.
  - destruct (decide (a = "/"%char)) as [->|Ha]; [done|]. intros _.
    destruct a as [[] [] [] [] [] [] [] []]; try done.
  - destruct (decide (a = "/"%char)); [done|]. intros Hb.
    change (String a (String b t)) with (String a "" +:+ String b t).
    rewrite endswith_slash_append. by apply IH.
Qed.

Lemma startswith_slash_no_slash s :
  Py.contains "/" s = false → Py.startswith_slash s = false.
Proof.
  destruct s as [|a s]; [done|]. simpl.
  destruct (decide (a = "/"%char)) as [->|Ha]; [done|]. intros _.
  destruct a as [[] [] [] [] [] [] [] []]; try done.
Qed.

Lemma append_empty s t : s +:+ t = "" → t = "".
Proof. destruct s; [done|]. by rewrite append_cons. Qed.

Lemma join2_pipeline output_dir :
  Py.join2 output_dir "pipeline" ≠ ""
  ∧ Py.endswith_slash (Py.join2 output_dir "pipeline") = false.
Proof.
  unfold Py.join2. simpl.
  destruct (decide (output_dir = "")); [done|].
  destruct (Py.endswith_slash output_dir).
  - split; [by intros ?%append_empty|]. by rewrite endswith_slash_append.
  - split; [by intros ?%append_empty|].
    change ("/" +:+ "pipeline") with (String "/" "pipeline").
    by rewrite endswith_slash_append.
Qed.

Lemma split_head_no_sep sep s : Py.contains sep (Py.split_head sep s) = false.
Proof.
  induction s as [|a s IH]; simpl; [done|].
  destruct (decide (a = sep)); simpl; [done|].
  by destruct (decide (a = sep)).
Qed.

(** The path [os.path.join] builds for a sub-log. *)
Lemma sub_log_filename_eq output_dir level name :
  Py.contains "/" level = false →
  Py.contains "/" name = false →
  sub_log_filename output_dir level name
  = Py.join2 output_dir "pipeline" +:+ "/"
    +:+ (if decide (Py.split_head "." level = "") then ""
         else Py.split_head "." level +:+ "/")
    +:+ level +:+ "-" +:+ name +:+ ".yaml".
Proof.
  intros Hlevel Hname. set (dir := Py.split_head "." level).
  assert (Hdir : Py.contains "/" dir = false) by by apply contains_split_head.
  unfold sub_log_filename, Py.join. cbn [foldl].
  destruct (join2_pipeline output_dir) as [Hne Hend].
  set (base := Py.join2 output_dir "pipeline") in *.
  assert (Hfile : Py.startswith_slash (level +:+ "-" +:+ name +:+ ".yaml") = false).
  { apply startswith_slash_no_slash.
    rewrite !contains_append, Hlevel, Hname. reflexivity. }
  fold dir.
  assert (Hstep : Py.join2 base dir = base +:+ "/" +:+ dir).
  { unfold Py.join2. rewrite (startswith_slash_no_slash _ Hdir), Hend.
    by destruct (decide (base = "")). }
  rewrite Hstep. unfold Py.join2 at 1. rewrite Hfile.
  destruct (decide (base +:+ "/" +:+ dir = "")) as [He|_].
  { by apply append_empty in He. }
  destruct (decide (dir = "")) as [->|Hd].
  - change ("/" +:+ "") with (String "/" "").
    rewrite endswith_slash_append. cbn. by rewrite !append_comp.
  - destruct dir as [|a t] eqn:Hdir'; [done|].
    rewrite <- append_comp, endswith_slash_append,
      (endswith_slash_no_slash _ _ Hdir).
    by rewrite !append_comp.
Qed.

(** X21: for a level and a name without slash (what [logging_socket]
    lets through), the file of the sub-log lies under the directory
    [pipeline] of the output directory of the job, whatever the two
    strings are: directly in it when the level starts with a dot or is
    empty, else in the sub-directory named by the level up to its first
    dot, which holds neither a slash nor a dot; the file name is
    [level-name.yaml]. *)
Theorem sub_log_stays_under_pipeline (output_dir level name : string) :
  Py.contains "/" level = false →
  Py.contains "/" name = false →
  let dir := Py.split_head "." level in
  sub_log_filename output_dir level name
  = Py.join2 output_dir "pipeline" +:+ "/"
    +:+ (if decide (dir = "") then "" else dir +:+ "/")
    +:+ level +:+ "-" +:+ name +:+ ".yaml"
  ∧ Py.contains "/" dir = false
  ∧ Py.contains "." dir = false.
Proof.
  intros Hlevel Hname dir.
  split; [by apply sub_log_filename_eq|].
  split; [by apply contains_split_head|apply split_head_no_sep].
Qed.

Lemma append_empty_r s : s +:+ "" = s.
Proof. induction s as [|a s IH]; [done|]. by rewrite append_cons, IH. Qed.

Lemma rev_app_rev_app s acc acc' :
  String.rev_app (String.rev_app s acc) acc' = String.rev_app acc (s +:+ acc').
Proof.
  revert acc. induction s as [|a s IH]; intros acc; [done|].
  simpl. rewrite IH. by rewrite append_cons.
Qed.

Lemma rev_rev s : String.rev (String.rev s) = s.
Proof. unfold String.rev. rewrite rev_app_rev_app. apply append_empty_r. Qed.

Lemma upto_last_slash_none file :
  Py.contains "/" file = false → Py.upto_last_slash file = "".
Proof. destruct file as [|a f]; [done|]. cbn [Py.upto_last_slash]. by intros ->. Qed.

Lemma upto_last_slash_append s file :
  Py.contains "/" file = false →
  Py.upto_last_slash ((s +:+ "/") +:+ file) = s +:+ "/".
Proof.
  intros Hfile. induction s as [|a s IH].
  - change (("" +:+ "/") +:+ file) with (String "/" file).
    cbn [Py.upto_last_slash]. simpl. by rewrite upto_last_slash_none.
  - rewrite !append_cons. cbn [Py.upto_last_slash].
    assert (Hc : Py.contains "/" (String a ((s +:+ "/") +:+ file)) = true).
    { simpl. destruct (decide (a = "/"%char)); [done|].
      rewrite !contains_append. simpl. by rewrite orb_true_r. }
    by rewrite Hc, IH.
Qed.

Lemma all_slashes_append s t :
  Py.all_slashes (s +:+ t) = Py.all_slashes s && Py.all_slashes t.
Proof.
  induction s as [|a s IH]; [done|]. rewrite append_cons. simpl.
  by destruct (decide (a = "/"%char)).
Qed.

Lemma all_slashes_pipeline output_dir :
  Py.all_slashes (Py.join2 output_dir "pipeline") = false.
Proof.
  unfold Py.join2. simpl. destruct (decide (output_dir = "")); [done|].
  destruct (Py.endswith_slash output_dir); rewrite !all_slashes_append;
    simpl; by rewrite ?andb_false_r.
Qed.

Lemma lstrip_slashes_id s :
  Py.startswith_slash s = false → Py.lstrip_slashes s = s.
Proof.
  destruct s as [|a s]; [done|].
  destruct a as [[] [] [] [] [] [] [] []]; done.
Qed.

Lemma rstrip_slashes_one s :
  Py.endswith_slash s = false → Py.rstrip_slashes (s +:+ "/") = s.
Proof.
  intros Hend. unfold Py.rstrip_slashes.
  assert (Hrev : String.rev (s +:+ "/") = String "/" (String.rev s)).
  { unfold String.rev. by rewrite rev_app_append. }
  rewrite Hrev.
  change (Py.lstrip_slashes (String "/" (String.rev s)))
    with (Py.lstrip_slashes (String.rev s)).
  rewrite lstrip_slashes_id by done. apply rev_rev.
Qed.

(** X22: the directory [logging_socket] makes before it opens a sub-log
    is the directory of that file: [os.path.dirname] of the path is the
    directory [pipeline] of the job, or its sub-directory named by the
    level up to its first dot, and joining the file name to it gives the
    path back. *)
Theorem sub_log_directory_holds_the_file (output_dir level name : string) :
  Py.contains "/" level = false →
  Py.contains "/" name = false →
  let dir := Py.split_head "." level in
  let filename := sub_log_filename output_dir level name in
  Py.dirname filename
  = Py.join2 output_dir "pipeline" +:+ (if decide (dir = "") then "" else "/" +:+ dir)
  ∧ Py.join2 (Py.dirname filename) (level +:+ "-" +:+ name +:+ ".yaml") = filename.
Proof.
  intros Hlevel Hname dir filename.
  assert (Hdir : Py.contains "/" dir = false) by by apply contains_split_head.
  destruct (join2_pipeline output_dir) as [Hne Hend].
  pose proof (all_slashes_pipeline output_dir) as Hall.
  assert (Hfile : Py.contains "/" (level +:+ "-" +:+ name +:+ ".yaml") = false).
  { rewrite !contains_append, Hlevel, Hname. reflexivity. }
  unfold filename. rewrite (sub_log_filename_eq _ _ _ Hlevel Hname). fold dir.
  set (base := Py.join2 output_dir "pipeline") in *.
  set (file := level +:+ "-" +:+ name +:+ ".yaml") in *.
  assert (Hd : ∀ parent,
             parent ≠ "" → Py.endswith_slash parent = false →
             Py.all_slashes parent = false →
             Py.dirname ((parent +:+ "/") +:+ file) = parent
             ∧ Py.join2 parent file = (parent +:+ "/") +:+ file).
  { intros parent Hp Hpe Hpa. split.
    - unfold Py.dirname. rewrite (upto_last_slash_append _ _ Hfile).
      rewrite all_slashes_append, Hpa. cbn [andb].
      by apply rstrip_slashes_one.
    - unfold Py.join2. rewrite (startswith_slash_no_slash _ Hfile), Hpe.
      destruct (decide (parent = "")); [done|]. by rewrite append_comp. }
  destruct (decide (dir = "")) as [He|Hn].
  - rewrite append_empty_r.
    change (base +:+ "/" +:+ "" +:+ file) with (base +:+ "/" +:+ file).
    rewrite <- append_comp. destruct (Hd base Hne Hend Hall) as [-> ->]. done.
  - destruct dir as [|a t] eqn:Hdir'; [done|].
    replace (base +:+ "/" +:+ (String a t +:+ "/") +:+ file)
      with (((base +:+ "/" +:+ String a t) +:+ "/") +:+ file)
      by by rewrite !append_comp.
    destruct (Hd (base +:+ "/" +:+ String a t)) as [-> ->]; [| | |done].
    + by intros ?%append_empty.
    + by rewrite <- append_comp, endswith_slash_append,
        (endswith_slash_no_slash _ _ Hdir).
    + by rewrite all_slashes_append, Hall.
Qed.

(** ** More on PING *)

(** X23: a PING is always answered, by one PONG, whoever sent it; the
    table is not written, the sender is in the registry afterwards with
    the time of the PING, and only a sender the registry did not hold
    costs a query (and gets the STATUS requests of its running jobs). *)
Theorem ping_is_answered (hostname : string) (rest : list string) (s : State) :
  let r := controler_socket (hostname :: "PING" :: rest) s in
  r.1 = Ok true
  ∧ sent (trace r.2)
    = sent (trace s) ++ [hostname; "PONG"] :: status_requests hostname s (db s)
  ∧ statements (trace r.2)
    = statements (trace s)
      ++ (if decide (is_Some (dispatchers s !! hostname)) then []
          else [Db (Filter hostname)])
  ∧ db r.2 = db s
  ∧ dispatchers r.2 !! hostname = Some (touched hostname s)
  ∧ SlaveDispatcher.last_msg (touched hostname s) = clock s.
Proof.
  intros r.
  assert (Hr : r = (Ok true,
                    set_dispatchers (<[hostname := touched hostname s]> (dispatchers s))
                      (add_events (Log DEBUG "%s => PING" [hostname]
                                   :: Send [hostname; "PONG"]
                                   :: resync_events hostname s (db s)) s))).
  { unfold r, controler_socket, frame, ping. prims.
    rewrite dispatcher_alive_run. prims. reflexivity. }
  rewrite Hr. unfold set_dispatchers, add_events.
  cbn [fst snd trace db dispatchers].
  rewrite lookup_insert_eq. project.
  rewrite sent_resync_events, statements_resync_events.
  repeat split; try done.
  unfold touched. by destruct (dispatchers s !! hostname).
Qed.

(** ** The registry over several steps *)

(** X24: the time of the last accepted message is what keeps a worker
    on line: after a message of the protocol was accepted from a worker
    that was unknown or on line, a pass over the registry at a later time
    leaves it on line when no more than [DISPATCHER_TIMEOUT] seconds have
    passed since that message, and marks it off line otherwise. *)
Theorem heartbeat_keeps_worker_online
    (hostname action : string) (rest : list string) (s s1 : State) :
  In action verbs →
  (controler_socket (hostname :: action :: rest) s).1 = Ok true →
  (∀ w, dispatchers s !! hostname = Some w → SlaveDispatcher.online w = true) →
  dispatchers s1 = dispatchers (controler_socket (hostname :: action :: rest) s).2 →
  ∃ w',
    dispatchers (check_dispatchers s1).2 !! hostname = Some w'
    ∧ SlaveDispatcher.last_msg w' = clock s
    ∧ SlaveDispatcher.online w'
      = bool_decide (clock s1 - clock s ≤ DISPATCHER_TIMEOUT)%Z.
Proof.
  intros Hverb Hacc Honline Hs1.
  destruct (accepted_run _ _ _ _ Hverb Hacc) as (d & evs & Heq & _).
  rewrite Heq in Hs1. unfold set_dispatchers in Hs1. cbn [snd dispatchers] in Hs1.
  rewrite check_dispatchers_run. unfold set_dispatchers. cbn [snd dispatchers].
  rewrite lookup_fmap, Hs1, lookup_insert_eq. cbn [fmap option_fmap option_map].
  eexists. split; [reflexivity|].
  assert (Ht : SlaveDispatcher.online (touched hostname s) = true
               ∧ SlaveDispatcher.last_msg (touched hostname s) = clock s).
  { unfold touched. destruct (dispatchers s !! hostname) as [w|] eqn:Hw; [|done].
    split; [|done]. simpl. by apply Honline. }
  destruct Ht as [Hon Hlast]. unfold swept. rewrite Hon, Hlast. cbn [andb].
  destruct (decide (clock s1 - clock s > DISPATCHER_TIMEOUT)) as [Hgt|Hle].
  - rewrite (bool_decide_eq_true_2 _ Hgt), bool_decide_eq_false_2 by lia. done.
  - rewrite (bool_decide_eq_false_2 _ Hle), bool_decide_eq_true_2 by lia.
    by rewrite Hon, Hlast.
Qed.

Lemma collect_log_quiet now (l : list string) (m : gmap string JobHandler.t) :
  (∀ k h, m !! k = Some h → (now - JobHandler.last_usage h ≤ FD_TIMEOUT)%Z) →
  collect_log now l m = [].
Proof.
  intros Hfresh. induction l as [|k l IH]; [done|].
  rewrite collect_log_cons, IH.
  destruct (m !! k) as [h|] eqn:Hk; [|done].
  specialize (Hfresh k h Hk).
  destruct (decide (now - JobHandler.last_usage h > FD_TIMEOUT)); [lia|done].
Qed.

Lemma sweep_log_nothing now (l : list (string * SlaveDispatcher.t)) :
  (∀ k w, (k, w) ∈ l → SlaveDispatcher.online w = true →
          (now - SlaveDispatcher.last_msg w ≤ DISPATCHER_TIMEOUT)%Z) →
  sweep_log now l = [].
Proof.
  intros Hlive. induction l as [|[k w] l IH]; [done|].
  unfold sweep_log in *. cbn [flat_map]. rewrite IH.
  2: { intros k' w' Hin. apply (Hlive k' w'). apply elem_of_cons. by right. }
  destruct (SlaveDispatcher.online w) eqn:Hon; [|done].
  assert (Hin : (k, w) ∈ (k, w) :: l) by (apply elem_of_cons; by left).
  specialize (Hlive k w Hin Hon). rewrite bool_decide_eq_false_2 by lia. done.
Qed.

(** X25: a turn of the main loop with nothing to read, no handler of
    [self.jobs] idle for more than [FD_TIMEOUT], no worker on line silent
    for more than [DISPATCHER_TIMEOUT] and the last access to the database
    no more than [DB_LIMIT] seconds ago does nothing at all: nothing is
    logged, sent, closed or run, and the state is what it was. *)
Theorem quiet_turn_changes_nothing (s : State) :
  (∀ job_id h, jobs s !! job_id = Some h →
               (clock s - JobHandler.last_usage h ≤ FD_TIMEOUT)%Z) →
  (∀ hostname w, dispatchers s !! hostname = Some w →
                 SlaveDispatcher.online w = true →
                 (clock s - SlaveDispatcher.last_msg w ≤ DISPATCHER_TIMEOUT)%Z) →
  (clock s - last_db_access s ≤ DB_LIMIT)%Z →
  handle {| signum := None; controler := None |} s = (Ok Next, s).
Proof.
  intros Hjobs Hworkers Hdb.
  assert (Hgc : garbage_collect s = (Ok tt, s)).
  { rewrite garbage_collect_run, collect_log_quiet by done.
    rewrite map_filter_id.
    2: { intros k h Hk. specialize (Hjobs k h Hk). simpl. lia. }
    unfold set_jobs, add_events. simpl. rewrite app_nil_r. by destruct s. }
  assert (Hcd : check_dispatchers s = (Ok tt, s)).
  { rewrite check_dispatchers_run, sweep_log_nothing.
    2: { intros k w Hin. apply (Hworkers k w). by apply elem_of_map_to_list. }
    assert (Hid : swept (clock s) <$> dispatchers s = dispatchers s).
    { apply map_eq. intros k. rewrite lookup_fmap.
      destruct (dispatchers s !! k) as [w|] eqn:Hk; [|done]. simpl. f_equal.
      unfold swept. destruct (SlaveDispatcher.online w) eqn:Hon; [|done].
      specialize (Hworkers k w Hk Hon).
      rewrite bool_decide_eq_false_2 by lia. done. }
    rewrite Hid. unfold set_dispatchers, add_events. simpl. rewrite app_nil_r.
    by destruct s. }
  unfold handle, read_signal. cbn [signum]. unfold bind at 1, ret at 1.
  unfold bind at 1. rewrite Hgc.
  unfold serve. cbn [controler]. unfold bind at 1, ret at 1. cbn [negb].
  unfold bind at 1. rewrite Hcd.
  unfold bind at 1. rewrite dispatch_too_early by lia. reflexivity.
Qed.

(** ** Numbers in frames *)

Lemma lstrip_spaceless s : spaceless s = true → Py.lstrip s = s.
Proof.
  destruct s as [|a s]; [done|]. simpl.
  by destruct (Ascii.is_space a).
Qed.

Lemma spaceless_rev_app s acc :
  spaceless (String.rev_app s acc) = spaceless s && spaceless acc.
Proof.
  revert acc. induction s as [|a s IH]; intros acc; [done|].
  simpl. rewrite IH. simpl.
  destruct (Ascii.is_space a); simpl; [by rewrite andb_false_r|done].
Qed.

Lemma strip_spaceless s : spaceless s = true → Py.strip s = s.
Proof.
  intros Hs. unfold Py.strip. rewrite (lstrip_spaceless s Hs).
  rewrite lstrip_spaceless; [apply rev_rev|].
  unfold String.rev. by rewrite spaceless_rev_app, Hs.
Qed.

Lemma digit_is_no_space a d : Ascii.is_nat a = Some d → Ascii.is_space a = false.
Proof. destruct a as [[] [] [] [] [] [] [] []]; done. Qed.

Lemma pretty_N_char_digit x :
  (x < 10)%N → Ascii.is_nat (pretty_N_char x) = Some (N.to_nat x).
Proof.
  intros Hx. destruct x as [|p]; [done|].
  do 4 (try destruct p as [p|p|]; try done; try lia).
Qed.

Lemma digits_pretty_N_go x :
  ∀ s, Py.digits 0 (pretty_N_go x s) = Py.digits (Z.of_N x) s.
Proof.
  induction x as [x IH] using (well_founded_induction N.lt_wf_0). intros s.
  destruct (decide (0 < x)%N) as [Hpos|Hzero].
  - rewrite pretty_N_go_step by done.
    rewrite IH by (by apply N.div_lt). simpl.
    rewrite pretty_N_char_digit by (by apply N.mod_lt).
    f_equal. pose proof (N.div_mod' x 10). lia.
  - assert (x = 0%N) as -> by lia. by rewrite pretty_N_go_0.
Qed.

Lemma spaceless_pretty_N_go x :
  ∀ s, spaceless (pretty_N_go x s) = spaceless s.
Proof.
  induction x as [x IH] using (well_founded_induction N.lt_wf_0). intros s.
  destruct (decide (0 < x)%N) as [Hpos|Hzero].
  - rewrite pretty_N_go_step by done.
    rewrite IH by (by apply N.div_lt). simpl.
    by rewrite (digit_is_no_space _ _ (pretty_N_char_digit _ (N.mod_lt x 10 ltac:(done)))).
  - assert (x = 0%N) as -> by lia. by rewrite pretty_N_go_0.
Qed.

Lemma pretty_N_go_not_empty x :
  ∀ s, s ≠ "" → pretty_N_go x s ≠ "".
Proof.
  induction x as [x IH] using (well_founded_induction N.lt_wf_0). intros s Hs.
  destruct (decide (0 < x)%N) as [Hpos|Hzero].
  - rewrite pretty_N_go_step by done. apply IH; [by apply N.div_lt|done].
  - assert (x = 0%N) as -> by lia. by rewrite pretty_N_go_0.
Qed.

Lemma int_of_digits s a d :
  Py.strip s = String a d →
  Ascii.is_nat a ≠ None →
  Py.int s = Py.digits 0 (String a d).
Proof.
  intros Hs Ha. unfold Py.int. rewrite Hs.
  destruct a as [[] [] [] [] [] [] [] []]; done.
Qed.

Lemma int_of_pretty_positive p :
  Py.int (pretty_N_go (N.pos p) "") = Some (Z.pos p).
Proof.
  pose proof (digits_pretty_N_go (N.pos p) "") as Hd. simpl in Hd.
  destruct (pretty_N_go (N.pos p) "") as [|a d] eqn:Ht.
  { rewrite pretty_N_go_step in Ht by done.
    by apply pretty_N_go_not_empty in Ht. }
  rewrite (int_of_digits _ a d); [done| |].
  - apply strip_spaceless. by rewrite <- Ht, spaceless_pretty_N_go.
  - simpl in Hd. by destruct (Ascii.is_nat a).
Qed.

(** X26: [int] reads back what [str] wrote: the job id the master
    writes in a frame (STATUS, END_OK, CANCEL) is, for [int], the number
    it was written from, whatever its sign and size. *)
Theorem int_reads_back_str (n : Z) : Py.int (Py.str n) = Some n.
Proof.
  unfold Py.str, pretty, pretty_Z. destruct n as [|p|p].
  - reflexivity.
  - unfold pretty, pretty_positive, pretty, pretty_N.
    destruct (decide (N.pos p = 0%N)); [done|]. apply int_of_pretty_positive.
  - unfold pretty, pretty_positive, pretty, pretty_N.
    destruct (decide (N.pos p = 0%N)); [done|].
    pose proof (int_of_pretty_positive p) as Hp.
    pose proof (digits_pretty_N_go (N.pos p) "") as Hd. simpl in Hd.
    set (t := pretty_N_go (N.pos p) "") in *.
    assert (Hs : Py.strip ("-" +:+ t) = String "-" t).
    { apply strip_spaceless. simpl. unfold t. by rewrite spaceless_pretty_N_go. }
    unfold Py.int. rewrite Hs. unfold Py.unsigned.
    destruct t as [|a d] eqn:Ht.
    { unfold t in Ht. rewrite pretty_N_go_step in Ht by done.
      by apply pretty_N_go_not_empty in Ht. }
    by rewrite Hd.
Qed.

End Runs.

(** ** The serialisation reads back what it wrote *)

Section CodecRoundTrip.
Import Codec.


















End CodecRoundTrip.

(** ** Scenarios *)

(** END for a job the table does not hold, from a worker the registry does
    not hold: one END_OK, then the STATUS request for the running job of
    the worker. *)
Lemma end_acknowledged_once_witness :
  let r := Scenario.control ["w1"; "END"; "99999"; "0"; ""; ""] Scenario.cold in
  r.1 = Ok true
  ∧ sent (trace r.2) = [["w1"; "END_OK"; "99999"]; ["w1"; "STATUS"; "7"]]
  ∧ with_verb "END_OK" (sent (trace r.2)) = [["w1"; "END_OK"; "99999"]]
  ∧ db r.2 = db Scenario.cold.
Proof.
  destruct (end_acknowledged_once
              (H := Scenario.libs) (H0 := Scenario.dbutils)
              "w1" "99999" "0" "" "" [] 99999 0 Scenario.cold eq_refl eq_refl)
    as (Hret & Hsent & Hack & Hdb).
  split; [exact Hret|]. split; [exact Hsent|]. split; [exact Hack|].
  exact (Hdb eq_refl).
Defined.

(** HELLO with version 2. *)
Lemma hello_version_mismatch_witness :
  let r := Scenario.control ["w1"; "HELLO"; "2"] Scenario.cold in
  r.1 = Ok false
  ∧ sent (trace r.2) = []
  ∧ dispatchers r.2 = ∅
  ∧ db r.2 = db Scenario.cold.
Proof.
  apply (hello_version_mismatch
           (H := Scenario.libs) (H0 := Scenario.dbutils)
           "w1" "HELLO" "2" 2 [] Scenario.cold);
    [by left|reflexivity|done].
Defined.

(** HELLO and HELLO_RETRY of worker w1, whose job 7 is running. *)
Lemma hello_cancels_hello_retry_does_not_witness :
  let fresh := Scenario.control ["w1"; "HELLO"; "1"] Scenario.cold in
  let retry := Scenario.control ["w1"; "HELLO_RETRY"; "1"] Scenario.cold in
  statements (trace fresh.2) = [Begin; Db (Filter "w1"); Db (CancelJob 7); Commit]
  ∧ db fresh.2 = [Scenario.job 7 TestJob.CANCELED "w1";
                  Scenario.job 8 TestJob.RUNNING "w2"]
  ∧ statements (trace retry.2) = []
  ∧ db retry.2 = db Scenario.cold.
Proof.
  destruct (hello_cancels_hello_retry_does_not
              (H := Scenario.libs) (H0 := Scenario.dbutils)
              "w1" "1" [] Scenario.cold eq_refl)
    as (_ & _ & Hst & Hdb & _ & Hst' & Hdb' & _).
  split; [exact Hst|]. split; [exact Hdb|]. split; [exact Hst'|]. exact Hdb'.
Defined.

(** The worker that timed out pings at time 101: it is answered, its
    [last_msg] is 101, and it is still off line. *)
Lemma offline_worker_stays_offline_witness :
  let s := Scenario.at_time 101 Scenario.timed_out in
  let r := Scenario.control ["w1"; "PING"] s in
  dispatchers s !! "w1" = Some (SlaveDispatcher.mk "w1" 0 false)
  ∧ sent (trace r.2) = sent (trace s) ++ [["w1"; "PONG"]]
  ∧ dispatchers r.2 !! "w1" = Some (SlaveDispatcher.mk "w1" 101 false).
Proof.
  split; [reflexivity|]. split; [reflexivity|].
  apply (offline_worker_stays_offline
           (H := Scenario.libs) (H0 := Scenario.dbutils)
           "w1" "PING" [] (SlaveDispatcher.mk "w1" 0 false)
           (Scenario.at_time 101 Scenario.timed_out));
    [reflexivity|reflexivity|simpl; tauto|reflexivity].
Defined.

(** The handler of job 7 was last used at time 100; the turn of the main
    loop at time 1000 closes nothing and leaves it where it is. *)
Lemma garbage_collection_misses_logging_handlers_witness :
  let s := Scenario.at_time 1000 Scenario.logging in
  let r := Scenario.turn Scenario.idle s in
  jobs s = ∅
  ∧ logging_jobs s !! "7"
    = Some {| JobHandler.output_dir := "/o";
              JobHandler.output := "/o/output.yaml";
              JobHandler.current_level := "1.2";
              JobHandler.sub_log := "/o/pipeline/1/1.2-foo.yaml";
              JobHandler.last_usage := 100 |}
  ∧ 1000 - 100 > FD_TIMEOUT + TIMEOUT
  ∧ r.1 = Ok Next
  ∧ file_events (trace r.2) = []
  ∧ logging_jobs r.2 = logging_jobs s
  ∧ jobs r.2 = ∅.
Proof.
  split; [reflexivity|]. split; [reflexivity|]. split; [reflexivity|].
  split; [reflexivity|]. split; [reflexivity|].
  apply (garbage_collection_misses_logging_handlers
           (H := Scenario.libs) (H0 := Scenario.dbutils) (H1 := Scenario.scheduler)
           Scenario.idle [] (Scenario.at_time 1000 Scenario.logging)).
  reflexivity.
Defined.

(** Job 7 logs at level 1.2, then at level 1.3: the handler writes to the
    file of 1.3 and still holds level 1.2. *)
Lemma rotation_leaves_handler_level_witness :
  let r := Scenario.ingest Scenario.frame_b Scenario.logging in
  ∃ h',
    logging_jobs r.2 !! "7" = Some h'
    ∧ JobHandler.sub_log h' = "/o/pipeline/1/1.3-bar.yaml"
    ∧ JobHandler.current_level h' = "1.2"
    ∧ current_level r.2 = Some "1.3"
    ∧ rotation h' "1.3" "bar"
      = [FClose (JobHandler.sub_log h');
         Mkdir (Py.dirname (JobHandler.sub_log h'));
         FOpen "a+" (JobHandler.sub_log h')].
Proof.
  apply (rotation_leaves_handler_level
           (H := Scenario.libs) (H0 := Scenario.dbutils)
           "7" "1.3" "bar" "{lvl: info, msg: b}"
           {| JobHandler.output_dir := "/o";
              JobHandler.output := "/o/output.yaml";
              JobHandler.current_level := "1.2";
              JobHandler.sub_log := "/o/pipeline/1/1.2-foo.yaml";
              JobHandler.last_usage := 100 |}
           Scenario.logging);
    [reflexivity|done|reflexivity].
Defined.

(** PING from a worker the registry does not hold. *)
Lemma unknown_worker_is_registered_witness :
  let r := Scenario.control ["w1"; "PING"] Scenario.cold in
  dispatchers r.2 !! "w1" = Some (SlaveDispatcher.mk "w1" 100 true)
  ∧ with_verb "STATUS" (sent (trace r.2)) = [["w1"; "STATUS"; "7"]].
Proof.
  apply (unknown_worker_is_registered
           (H := Scenario.libs) (H0 := Scenario.dbutils)
           "w1" "PING" [] Scenario.cold);
    [reflexivity|simpl; tauto|reflexivity].
Defined.

(** C7, as stated, fails on HELLO_RETRY: the worker was not in the
    registry and job 7 runs on one of its devices, before and after; the
    worker is registered, and HELLO_OK is all that is sent. *)
Lemma hello_retry_requests_no_status :
  let r := Scenario.control ["w1"; "HELLO_RETRY"; "1"] Scenario.cold in
  dispatchers Scenario.cold !! "w1" = None
  ∧ r.1 = Ok true
  ∧ dispatchers r.2 !! "w1" = Some (SlaveDispatcher.mk "w1" 100 true)
  ∧ objects_filter "w1" (db r.2) = [Scenario.job 7 TestJob.RUNNING "w1"]
  ∧ sent (trace r.2) = [["w1"; "HELLO_OK"]]
  ∧ ¬ In ["w1"; "STATUS"; "7"] (sent (trace r.2)).
Proof.
  repeat (split; [reflexivity|]).
  vm_compute. intros [[=]|[]].
Qed.

(** A frame whose name holds a slash: with a record that is a string
    the loop ends on [TypeError] with nothing logged; with a record that
    is a mapping the frame is dropped.  No handler, no file, no statement
    either way. *)
Lemma slash_frames_never_reach_the_files_witness :
  let r := Scenario.ingest ["7"; "1.2"; "a/b"; "just a scalar"] Scenario.cold in
  let r' := Scenario.ingest ["7"; "1.2"; "a/b"; "{lvl: info, msg: a}"] Scenario.cold in
  (r = (Raise TypeError, Scenario.cold)
   ∧ logging_jobs r.2 = ∅
   ∧ file_events (trace r.2) = []
   ∧ statements (trace r.2) = [])
  ∧ (r'.1 = Ok Dropped
     ∧ logging_jobs r'.2 = ∅
     ∧ file_events (trace r'.2) = []
     ∧ statements (trace r'.2) = []).
Proof.
  split.
  - exact (slash_frames_never_reach_the_files
             (H := Scenario.libs) (H0 := Scenario.dbutils)
             "7" "1.2" "a/b" "just a scalar" Scenario.cold).
  - exact (slash_frames_never_reach_the_files
             (H := Scenario.libs) (H0 := Scenario.dbutils)
             "7" "1.2" "a/b" "{lvl: info, msg: a}" Scenario.cold).
Defined.


(** What that library reads back is not the list that was written. *)
Example exported_items_are_reordered :
  let updated := [("job_name", YStr "boot"); ("priority", YInt 50);
                  ("compatibility", YInt 3)] in
  Codec.load (yaml_dump (Libs := Codec.unordered) (YMap updated))
  = Some (YMap [("compatibility", YInt 3); ("priority", YInt 50);
                ("job_name", YStr "boot")]).
Proof. reflexivity. Qed.


(** A worker joins a master that knows nobody: it is answered, registered
    on line, and its running job is cancelled. *)
Example cold_join :
  let r := Scenario.control ["w1"; "HELLO"; "1"] Scenario.cold in
  r.1 = Ok true
  ∧ sent (trace r.2) = [["w1"; "HELLO_OK"]]
  ∧ dispatchers r.2 !! "w1" = Some (SlaveDispatcher.mk "w1" 100 true)
  ∧ db r.2 = [Scenario.job 7 TestJob.CANCELED "w1"; Scenario.job 8 TestJob.RUNNING "w2"].
Proof. repeat split; reflexivity. Qed.

(** The worker that timed out is marked off line by the main loop. *)
Example silent_worker_goes_offline :
  dispatchers Scenario.timed_out !! "w1" = Some (SlaveDispatcher.mk "w1" 0 false).
Proof. reflexivity. Qed.

(** A frame whose record is a scalar ends the logging thread. *)
Example scalar_record_raises :
  (Scenario.ingest ["7"; "1.2"; "foo"; "just a scalar"] Scenario.cold).1
  = Raise TypeError.
Proof. reflexivity. Qed.

(** A frame for a job id that is no number ends the logging thread too. *)
Example job_id_not_a_number_raises :
  (Scenario.ingest ["seven"; "1.2"; "foo"; "{lvl: info, msg: a}"] Scenario.cold).1
  = Raise ValueError.
Proof. reflexivity. Qed.

(** The first frame of a job creates the directory and both files. *)
Example first_frame :
  file_events (trace (Scenario.after (Scenario.ingest Scenario.frame_a) Scenario.cold))
  = [Mkdir "/o/pipeline/1";
     FOpen "a+" "/o/output.yaml";
     FOpen "a+" "/o/pipeline/1/1.2-foo.yaml";
     FWrite "/o/output.yaml" "- {lvl: info, msg: a}";
     FWrite "/o/output.yaml" Py.newline;
     FWrite "/o/pipeline/1/1.2-foo.yaml" "- {lvl: info, msg: a}";
     FWrite "/o/pipeline/1/1.2-foo.yaml" Py.newline].
Proof. reflexivity. Qed.

(** After a frame of level 1.3, a second frame of level 1.3 closes and
    reopens the file of level 1.3. *)
Example same_level_rotates_again :
  let s := Scenario.fresh_trace
             (Scenario.after (Scenario.ingest Scenario.frame_b) Scenario.logging) in
  file_events (trace (Scenario.after (Scenario.ingest Scenario.frame_c) s))
  = [FClose "/o/pipeline/1/1.3-bar.yaml";
     Mkdir "/o/pipeline/1";
     FOpen "a+" "/o/pipeline/1/1.3-bar.yaml";
     FWrite "/o/output.yaml" "- {lvl: info, msg: c}";
     FWrite "/o/output.yaml" Py.newline;
     FWrite "/o/pipeline/1/1.3-bar.yaml" "- {lvl: info, msg: c}";
     FWrite "/o/pipeline/1/1.3-bar.yaml" Py.newline].
Proof. reflexivity. Qed.

(** After a frame of level 1.3, a frame of level 1.2 again is taken for
    the level the handler holds: no rotation, and its record goes to the
    file of level 1.3. *)
Example old_level_is_misfiled :
  let s := Scenario.fresh_trace
             (Scenario.after (Scenario.ingest Scenario.frame_b) Scenario.logging) in
  file_events (trace (Scenario.after (Scenario.ingest Scenario.frame_a') s))
  = [FWrite "/o/output.yaml" "- {lvl: info, msg: c}";
     FWrite "/o/output.yaml" Py.newline;
     FWrite "/o/pipeline/1/1.3-bar.yaml" "- {lvl: info, msg: c}";
     FWrite "/o/pipeline/1/1.3-bar.yaml" Py.newline].
Proof. reflexivity. Qed.

(** A level that would leave the job's directory is dropped. *)
Example path_traversal_is_dropped :
  let r := Scenario.ingest ["7"; "../evil"; "x"; "{lvl: info, msg: a}"] Scenario.cold in
  r.1 = Ok Dropped ∧ file_events (trace r.2) = [] ∧ logging_jobs r.2 = ∅.
Proof. repeat split; reflexivity. Qed.

(** ** More scenarios *)

(** END with a job id that is not a number. *)
Lemma malformed_message_is_ignored_witness :
  let r := Scenario.control ["w1"; "END"; "x"; "0"; ""; ""] Scenario.cold in
  r.1 = Ok false
  ∧ sent (trace r.2) = []
  ∧ statements (trace r.2) = []
  ∧ file_events (trace r.2) = []
  ∧ dispatchers r.2 = ∅
  ∧ db r.2 = db Scenario.cold.
Proof.
  apply (malformed_message_is_ignored
           (H := Scenario.libs) (H0 := Scenario.dbutils)
           "w1" "END" ["x"; "0"; ""; ""] Scenario.cold).
  right. left. split; [reflexivity|]. left. reflexivity.
Defined.

(** A verb that is not of the protocol. *)
Lemma unknown_action_is_ignored_witness :
  let r := Scenario.control ["w1"; "STOP"] Scenario.cold in
  r.1 = Ok true
  ∧ sent (trace r.2) = []
  ∧ statements (trace r.2) = []
  ∧ dispatchers r.2 = ∅
  ∧ db r.2 = db Scenario.cold.
Proof.
  apply (unknown_action_is_ignored
           (H := Scenario.libs) (H0 := Scenario.dbutils)
           "w1" "STOP" [] Scenario.cold).
  simpl. intros [?|[?|[?|[?|[?|[]]]]]]; discriminate.
Defined.

(** A PING of w2 leaves the entry of w1 alone. *)
Lemma other_workers_are_untouched_witness :
  dispatchers (Scenario.control ["w2"; "PING"] Scenario.timed_out).2 !! "w1"
  = Some (SlaveDispatcher.mk "w1" 0 false).
Proof.
  apply (other_workers_are_untouched
           (H := Scenario.libs) (H0 := Scenario.dbutils)
           ["w2"; "PING"] "w1" Scenario.timed_out).
  simpl. discriminate.
Defined.

(** A PING of w1, which timed out. *)
Lemma registry_never_shrinks_witness :
  ∃ w',
    dispatchers (Scenario.control ["w1"; "PING"] Scenario.timed_out).2 !! "w1"
    = Some w'
    ∧ SlaveDispatcher.hostname w' = "w1"
    ∧ SlaveDispatcher.online w' = false
    ∧ (SlaveDispatcher.last_msg w' = 0 ∨ SlaveDispatcher.last_msg w' = 100).
Proof.
  apply (registry_never_shrinks
           (H := Scenario.libs) (H0 := Scenario.dbutils)
           ["w1"; "PING"] "w1" (SlaveDispatcher.mk "w1" 0 false) Scenario.timed_out).
  reflexivity.
Defined.

(** The table is read at time 100, and not again at time 105. *)
Lemma dispatch_is_rate_limited_witness :
  let dispatch := @dispatch Scenario.dbutils Scenario.scheduler in
  let s' := Scenario.at_time 105 (Scenario.after dispatch Scenario.cold) in
  last_db_access (dispatch Scenario.cold).2 = 100
  ∧ dispatch s' = (Ok tt, s').
Proof.
  apply (dispatch_is_rate_limited
           (H0 := Scenario.dbutils) (H1 := Scenario.scheduler)
           Scenario.cold
           (Scenario.at_time 105
              (Scenario.after (@dispatch Scenario.dbutils Scenario.scheduler)
                              Scenario.cold))).
  - reflexivity.
  - reflexivity.
  - simpl. unfold DB_LIMIT. lia.
Defined.

(** A HELLO of version 2 read by the main loop. *)
Lemma rejected_message_ends_the_turn_witness :
  let r := Scenario.turn {| signum := None; controler := Some ["w1"; "HELLO"; "2"] |}
                         Scenario.cold in
  r.1 = Ok Next
  ∧ dispatchers r.2 = ∅
  ∧ last_db_access r.2 = 0
  ∧ db r.2 = db Scenario.cold
  ∧ sent (trace r.2) = []
  ∧ statements (trace r.2) = [].
Proof.
  apply (rejected_message_ends_the_turn
           (H := Scenario.libs) (H0 := Scenario.dbutils) (H1 := Scenario.scheduler)
           ["w1"; "HELLO"; "2"] Scenario.cold).
  reflexivity.
Defined.

(** END of job 9, which was asked to stop, from a worker the registry
    does not hold. *)
Lemma end_finalises_job_witness :
  let r := Scenario.control ["w1"; "END"; "9"; "0"; ""; ""] Cases.stopping in
  r.1 = Ok true
  ∧ statements (trace r.2)
    = [Db (Get 9); Db (ParseJobDescription 9); Begin; Db (Get 9);
       Db (CancelJob 9); Db (FailJob 9 "" TestJob.COMPLETE); Commit;
       Db (Filter "w1")]
  ∧ objects_get 9 (db r.2) = Some (Scenario.job 9 TestJob.COMPLETE "w1").
Proof.
  destruct (end_finalises_job
              (H := Scenario.libs) (H0 := Scenario.dbutils)
              "w1" "9" "0" "" "" [] 9 0
              (Scenario.job 9 TestJob.CANCELING "w1")
              (Scenario.job 9 TestJob.CANCELING "w1")
              Cases.stopping eq_refl eq_refl eq_refl eq_refl)
    as (Hret & Hst & Hdb).
  cbv zeta. unfold Scenario.control.
  split; [exact Hret|]. split; [exact Hst|]. rewrite Hdb. reflexivity.
Defined.

(** The same END: the description goes to the output directory of the
    job; on a file system that refuses to open the file, nothing is
    touched. *)
Lemma end_dumps_description_witness :
  let msg := ["w1"; "END"; "9"; "0"; ""; "device: qemu"] in
  file_events (trace (Scenario.control msg Cases.stopping).2)
  = [FOpen "w" "/o/description.yaml";
     FWrite "/o/description.yaml" "device: qemu";
     FClose "/o/description.yaml"]
  ∧ file_events
      (trace (@controler_socket Cases.read_only Scenario.dbutils msg Cases.stopping).2)
    = [].
Proof.
  split.
  - apply (end_dumps_description
             (H := Scenario.libs) (H0 := Scenario.dbutils)
             "w1" "9" "0" "" "device: qemu" [] 9 0
             (Scenario.job 9 TestJob.CANCELING "w1")
             Cases.stopping eq_refl eq_refl eq_refl).
  - apply (end_dumps_description
             (H := Cases.read_only) (H0 := Scenario.dbutils)
             "w1" "9" "0" "" "device: qemu" [] 9 0
             (Scenario.job 9 TestJob.CANCELING "w1")
             Cases.stopping eq_refl eq_refl eq_refl).
Defined.

(** START_OK of job 7 from a worker the registry does not hold. *)
Lemma start_ok_starts_job_witness :
  let r := Scenario.control ["w1"; "START_OK"; "7"] Scenario.cold in
  r.1 = Ok true
  ∧ sent (trace r.2) = [["w1"; "STATUS"; "7"]]
  ∧ dispatchers r.2 !! "w1" = Some (SlaveDispatcher.mk "w1" 100 true)
  ∧ statements (trace r.2)
    = [Begin; Db (Get 7); Db (StartJob 7); Commit; Db (Filter "w1")]
    ∧ db r.2 = db Scenario.cold.
Proof.
  destruct (start_ok_starts_job
              (H := Scenario.libs) (H0 := Scenario.dbutils)
              "w1" "7" [] 7 Scenario.cold eq_refl)
    as (Hret & Hsent & Hds & Hrest).
  split; [exact Hret|]. split; [exact Hsent|]. split; [exact Hds|exact Hrest].
Defined.

(** A message of two frames. *)
Lemma bad_log_frame_is_dropped_witness :
  ∃ fmt args,
    Scenario.ingest ["7"; "1.2"] Scenario.cold
    = (Ok Dropped, add_events [Log ERROR fmt args] Scenario.cold).
Proof.
  apply (bad_log_frame_is_dropped
           (H := Scenario.libs) (H0 := Scenario.dbutils) ["7"; "1.2"] Scenario.cold).
  left. simpl. lia.
Defined.

(** A record that is a string. *)
Lemma scalar_record_stops_the_thread_witness :
  Scenario.ingest ["7"; "1.2"; "foo"; "just a scalar"] Scenario.cold
  = (Raise TypeError, Scenario.cold).
Proof.
  apply (scalar_record_stops_the_thread
           (H := Scenario.libs) (H0 := Scenario.dbutils)
           "7" "1.2" "foo" "just a scalar" (YStr "just a scalar") Scenario.cold
           eq_refl).
  discriminate.
Defined.


(** A frame of job 99, which the table does not hold. *)
Lemma unknown_job_frame_is_dropped_witness :
  Scenario.ingest ["99"; "1.2"; "foo"; "{lvl: info, msg: a}"] Scenario.cold
  = (Ok Dropped,
     add_events [Db (Get 99); Log ERROR "[%s] Unknown job id" ["99"]] Scenario.cold).
Proof.
  apply (unknown_job_frame_is_dropped
           (H := Scenario.libs) (H0 := Scenario.dbutils)
           "99" "1.2" "foo" "{lvl: info, msg: a}"
           (Scenario.info "a") (YStr "info") (YStr "a") 99 Scenario.cold
           eq_refl eq_refl eq_refl eq_refl eq_refl eq_refl eq_refl eq_refl).
Defined.

(** A frame of job 7 at a new level. *)
Lemma log_frame_keeps_the_handlers_witness :
  ∃ h',
    logging_jobs (Scenario.ingest Scenario.frame_b Scenario.logging).2 !! "7" = Some h'
    ∧ JobHandler.output_dir h' = "/o"
    ∧ JobHandler.output h' = "/o/output.yaml"
    ∧ JobHandler.current_level h' = "1.2"
    ∧ (Scenario.frame_b !! 0%nat ≠ Some "7" → h' = Cases.handler).
Proof.
  apply (log_frame_keeps_the_handlers
           (H := Scenario.libs) (H0 := Scenario.dbutils)
           Scenario.frame_b "7" Cases.handler Scenario.logging eq_refl).
Defined.


(** Three jobs were asked to stop: one on a device of w1, a connection
    served by w2, and a connection served by nobody. *)
Lemma handle_canceling_requests_witness :
  let r := @handle_canceling Scenario.dbutils Cases.stopping in
  r.1 = Ok tt
  ∧ sent (trace r.2) = [["w1"; "CANCEL"; "9"]; ["w2"; "CANCEL"; "10"]]
  ∧ statements (trace r.2)
    = [Db FilterCanceling;
       Db (FailJob 11 "invalid worker information" TestJob.CANCELED)]
  ∧ List.map TestJob.status (db r.2)
    = [TestJob.RUNNING; TestJob.CANCELING; TestJob.CANCELING; TestJob.CANCELED]
  ∧ dispatchers r.2 = ∅.
Proof.
  destruct (handle_canceling_requests (H0 := Scenario.dbutils) Cases.stopping)
    as (Hret & Hsent & Hst & Hdb & Hds).
  { intros job Hin Hdyn. apply list_elem_of_In in Hin. simpl in Hin.
    destruct Hin as [<-|[<-|[<-|[]]]]; [by eexists|discriminate|discriminate]. }
  cbv zeta.
  split; [exact Hret|]. split; [exact Hsent|]. split; [exact Hst|].
  split; [|exact Hds]. rewrite Hdb. reflexivity.
Defined.

(** A job asked to stop before it got a device. *)
Lemma canceling_job_without_device_raises_witness :
  (@handle_canceling Scenario.dbutils Cases.stopping_early).1 = Raise AttributeError.
Proof.
  apply (canceling_job_without_device_raises
           (H0 := Scenario.dbutils) Cases.stopping_early).
  exists (Cases.waiting 12 TestJob.CANCELING). split; [|done].
  apply list_elem_of_In. simpl. right. left. reflexivity.
Defined.

(** The sub-log of level 1.2, and the one of a level that starts with
    dots. *)
Lemma sub_log_stays_under_pipeline_witness :
  (sub_log_filename "/o" "1.2" "foo" = "/o/pipeline/1/1.2-foo.yaml"
   ∧ Py.contains "/" "1" = false ∧ Py.contains "." "1" = false)
  ∧ (sub_log_filename "/o" ".." ".." = "/o/pipeline/..-...yaml"
     ∧ Py.contains "/" "" = false ∧ Py.contains "." "" = false).
Proof.
  split.
  - apply (sub_log_stays_under_pipeline "/o" "1.2" "foo" eq_refl eq_refl).
  - apply (sub_log_stays_under_pipeline "/o" ".." ".." eq_refl eq_refl).
Defined.

Lemma sub_log_directory_holds_the_file_witness :
  Py.dirname (sub_log_filename "/o" "1.2" "foo") = "/o/pipeline/1"
  ∧ Py.join2 (Py.dirname (sub_log_filename "/o" "1.2" "foo")) "1.2-foo.yaml"
    = "/o/pipeline/1/1.2-foo.yaml".
Proof.
  apply (sub_log_directory_holds_the_file "/o" "1.2" "foo" eq_refl eq_refl).
Defined.

(** A PING of w1 at time 100, and the pass over the registry at time
    120 and at time 131. *)
Lemma heartbeat_keeps_worker_online_witness :
  let s' := Scenario.after (Scenario.control ["w1"; "PING"]) Scenario.cold in
  (∃ w', dispatchers (check_dispatchers (Scenario.at_time 120 s')).2 !! "w1" = Some w'
         ∧ SlaveDispatcher.last_msg w' = 100
         ∧ SlaveDispatcher.online w' = true)
  ∧ (∃ w', dispatchers (check_dispatchers (Scenario.at_time 131 s')).2 !! "w1" = Some w'
           ∧ SlaveDispatcher.last_msg w' = 100
           ∧ SlaveDispatcher.online w' = false).
Proof.
  split.
  - apply (heartbeat_keeps_worker_online
             (H := Scenario.libs) (H0 := Scenario.dbutils)
             "w1" "PING" [] Scenario.cold
             (Scenario.at_time 120
                (Scenario.after (Scenario.control ["w1"; "PING"]) Scenario.cold))).
    + simpl. tauto.
    + reflexivity.
    + intros w Hw. discriminate Hw.
    + reflexivity.
  - apply (heartbeat_keeps_worker_online
             (H := Scenario.libs) (H0 := Scenario.dbutils)
             "w1" "PING" [] Scenario.cold
             (Scenario.at_time 131
                (Scenario.after (Scenario.control ["w1"; "PING"]) Scenario.cold))).
    + simpl. tauto.
    + reflexivity.
    + intros w Hw. discriminate Hw.
    + reflexivity.
Defined.

(** Five seconds after w1 joined, with nothing to read. *)
Lemma quiet_turn_changes_nothing_witness :
  Scenario.turn Scenario.idle Cases.joined = (Ok Next, Cases.joined).
Proof.
  assert (Hjobs : jobs Cases.joined = ∅) by reflexivity.
  assert (Hds : dispatchers Cases.joined = {["w1" := SlaveDispatcher.mk "w1" 0 true]})
    by reflexivity.
  apply (quiet_turn_changes_nothing
           (H := Scenario.libs) (H0 := Scenario.dbutils) (H1 := Scenario.scheduler)
           Cases.joined).
  - intros job_id h Hh. rewrite Hjobs in Hh. discriminate Hh.
  - intros hostname w Hw _. rewrite Hds in Hw.
    apply lookup_singleton_Some in Hw as [_ <-]. vm_compute. discriminate.
  - vm_compute. discriminate.
Defined.
